(** * EE533 Lab 1: fork-per-connection TCP server and interactive client

    A shallow embedding of [server.c] and [client.c] and the properties
    of the session protocol that the design document states about them.

    Conventions of the embedding.
    - A [char] is an [ascii]; an array of [char], or the memory a
      [const char *] points into, is a [list ascii].  Reading at or past
      the end of such a list yields NUL: the list holds the bytes up to the
      guaranteed terminator, and may hold NUL bytes of its own, in which
      case the C string ends at the first of them.
    - A system call is answered by the environment.  Each process carries
      the answers still to come, one script per kind of call, and the
      trace of the calls it has made.  A call whose script is exhausted
      has not returned: the outcome is [Pending].
    - The code of a process is a function of what its calls return.
      What a signal does to the process is not in that function: the
      module [Signals] runs the code as a process and ends the run at
      the [write] that raises SIGPIPE, when the process has the default
      disposition. *)

From Stdlib Require Import List String Ascii ZArith NArith Bool Lia Permutation.
Import ListNotations.

Local Open Scope Z_scope.

(** ** Characters and C strings *)

Module CString.

Definition NUL : ascii := "000"%char.
Definition HT : ascii := "009"%char.
Definition LF : ascii := "010"%char.
Definition CR : ascii := "013"%char.
Definition SP : ascii := " "%char.

(** A string literal as the array of its characters (terminator implicit). *)
Definition lit (s : string) : list ascii := list_ascii_of_string s.

(** [(unsigned char)c] *)
Definition uchar (c : ascii) : Z := Z.of_N (N_of_ascii c).

(** The value of a plain [char] (signed, as gcc has it on x86). *)
Definition schar (c : ascii) : Z :=
  if uchar c <? 128 then uchar c else uchar c - 256.

(** [(char)z]: conversion of an [int] to [char] keeps the low eight bits. *)
Definition to_char (z : Z) : ascii := ascii_of_N (Z.to_N (z mod 256)).

(** [*s] *)
Definition deref (s : list ascii) : ascii :=
  match s with
  | [] => NUL
  | c :: _ => c
  end.

(** The C string a pointer denotes: the bytes before the first NUL. *)
Fixpoint cstr (s : list ascii) : list ascii :=
  match s with
  | [] => []
  | c :: r => if (c =? NUL)%char then [] else c :: cstr r
  end.

(** [strlen] *)
Definition strlen (s : list ascii) : N := N.of_nat (List.length (cstr s)).

(** [strcmp]: the difference of the first pair of differing bytes, as
    unsigned chars; 0 when both strings end together. *)
Fixpoint strcmp (a b : list ascii) : Z :=
  match a, b with
  | [], [] => 0
  | [], cb :: _ => 0 - uchar cb
  | ca :: _, [] => uchar ca - 0
  | ca :: ra, cb :: rb =>
      if (ca =? cb)%char
      then (if (ca =? NUL)%char then 0 else strcmp ra rb)
      else uchar ca - uchar cb
  end.

(** [tolower] of <ctype.h>.  Neither program calls [setlocale], so the
    "C" locale of program start-up is in force: only 'A'..'Z' change. *)
Definition tolower (c : Z) : Z :=
  if (65 <=? c) && (c <=? 90) then c + 32 else c.

End CString.

Import CString.

(** ** The environment: system calls, their answers, the trace *)

Module Sys.

Inductive errno : Set :=
| ENONE | EINTR | EAGAIN | ECHILD | ECONNRESET | EIO | EMFILE | ENOMEM | EPIPE.

(** [errno == EINTR] *)
Definition is_EINTR (e : errno) : bool :=
  match e with
  | EINTR => true
  | _ => false
  end.

(** What the kernel answers to one call.  [WriteTakes k]: the endpoint
    takes up to [k] bytes now; [ReadData d]: [d] is what has arrived. *)
Inductive read_answer := ReadErr (e : errno) | ReadData (d : list ascii).
Inductive write_answer := WriteErr (e : errno) | WriteTakes (k : N).
Inductive accept_answer := AcceptErr (e : errno) | AcceptFd (fd : N).
Inductive fork_answer := ForkErr (e : errno) | ForkChild | ForkParent (pid : positive).
Inductive fgets_answer := FgetsEof | FgetsLine (l : list ascii).

(** The calls a process makes, in order, each with what it was given.
    [Write fd bytes a]: [bytes] are the bytes offered to the kernel.
    [Printf fmt arg]: the format and its [%s] argument (pid, address and
    port arguments are left out). *)
Inductive call :=
| Read (fd : Z) (count : N) (a : read_answer)
| Write (fd : Z) (bytes : list ascii) (a : write_answer)
| Accept (fd : Z) (a : accept_answer)
| Fork (a : fork_answer)
| Close (fd : Z)
| Fgets (size : Z) (a : fgets_answer)
| Printf (fmt : list ascii) (arg : list ascii)
| Perror (msg : string) (e : errno).

Record world := mkWorld {
  w_reads : list read_answer;
  w_writes : list write_answer;
  w_accepts : list accept_answer;
  w_forks : list fork_answer;
  w_stdin : list fgets_answer;
  w_errno : errno;
  w_trace : list call
}.

(** How a piece of code ends: it returns a value, the process exits, a
    system call has not returned (its script is exhausted), or an array
    was accessed outside its bounds. *)
Inductive outcome (A : Type) :=
| Ret (a : A)
| Exit (status : Z)
| Pending
| Fault.

Arguments Ret {A} a.
Arguments Exit {A} status.
Arguments Pending {A}.
Arguments Fault {A}.

Definition M (A : Type) : Type := world -> outcome A * world.

Definition ret {A} (a : A) : M A := fun w => (Ret a, w).

Definition bind {A B} (m : M A) (k : A -> M B) : M B :=
  fun w =>
    match m w with
    | (Ret a, w') => k a w'
    | (Exit st, w') => (Exit st, w')
    | (Pending, w') => (Pending, w')
    | (Fault, w') => (Fault, w')
    end.

Definition pending {A} : M A := fun w => (Pending, w).
Definition fault {A} : M A := fun w => (Fault, w).

(** [exit(status)] and [_exit(status)] *)
Definition exit {A} (status : Z) : M A := fun w => (Exit status, w).

Definition get_errno : M errno := fun w => (Ret (w_errno w), w).

Definition log (c : call) (w : world) : world :=
  mkWorld (w_reads w) (w_writes w) (w_accepts w) (w_forks w) (w_stdin w)
          (w_errno w) (w_trace w ++ [c]).

Definition set_errno (e : errno) (w : world) : world :=
  mkWorld (w_reads w) (w_writes w) (w_accepts w) (w_forks w) (w_stdin w)
          e (w_trace w).

Definition set_reads (l : list read_answer) (w : world) : world :=
  mkWorld l (w_writes w) (w_accepts w) (w_forks w) (w_stdin w)
          (w_errno w) (w_trace w).

Definition set_writes (l : list write_answer) (w : world) : world :=
  mkWorld (w_reads w) l (w_accepts w) (w_forks w) (w_stdin w)
          (w_errno w) (w_trace w).

Definition set_accepts (l : list accept_answer) (w : world) : world :=
  mkWorld (w_reads w) (w_writes w) l (w_forks w) (w_stdin w)
          (w_errno w) (w_trace w).

Definition set_forks (l : list fork_answer) (w : world) : world :=
  mkWorld (w_reads w) (w_writes w) (w_accepts w) l (w_stdin w)
          (w_errno w) (w_trace w).

Definition set_stdin (l : list fgets_answer) (w : world) : world :=
  mkWorld (w_reads w) (w_writes w) (w_accepts w) (w_forks w) l
          (w_errno w) (w_trace w).

Definition len (l : list ascii) : N := N.of_nat (List.length l).
Definition take (n : N) (l : list ascii) : list ascii := firstn (N.to_nat n) l.
Definition drop (n : N) (l : list ascii) : list ascii := skipn (N.to_nat n) l.

(** [size_t] is 64 bits wide. *)
Definition SIZE_MOD : N := 2 ^ 64.
Definition size_add (a b : N) : N := ((a + b) mod SIZE_MOD)%N.
Definition size_sub (a b : N) : N := ((a + SIZE_MOD - b mod SIZE_MOD) mod SIZE_MOD)%N.

(** [write(fd, p, count)]: the kernel takes at most [count] bytes, and
    returns how many it took, or -1 with [errno] set.  This is the call
    as its caller sees it when it returns; that a write failing with
    EPIPE raises SIGPIPE first is the matter of [Signals]. *)
Definition sys_write (fd : Z) (p : list ascii) (count : N) : M Z :=
  fun w =>
    match w_writes w with
    | [] => (Pending, w)
    | a :: rest =>
        let w' := log (Write fd (take count p) a) (set_writes rest w) in
        match a with
        | WriteErr e => (Ret (-1), set_errno e w')
        | WriteTakes k => (Ret (Z.of_N (N.min k count)), w')
        end
    end.

(** [read(fd, buf, count)]: at most [count] bytes of what has arrived are
    stored at the front of [buf]; returns their number and the array. *)
Definition sys_read (fd : Z) (buf : list ascii) (count : N) : M (Z * list ascii) :=
  fun w =>
    match w_reads w with
    | [] => (Pending, w)
    | a :: rest =>
        let w' := log (Read fd count a) (set_reads rest w) in
        match a with
        | ReadErr e => (Ret (-1, buf), set_errno e w')
        | ReadData d =>
            let got := take count d in
            (Ret (Z.of_N (len got), got ++ drop (len got) buf), w')
        end
    end.

(** [accept(fd, ...)] *)
Definition sys_accept (fd : Z) : M Z :=
  fun w =>
    match w_accepts w with
    | [] => (Pending, w)
    | a :: rest =>
        let w' := log (Accept fd a) (set_accepts rest w) in
        match a with
        | AcceptErr e => (Ret (-1), set_errno e w')
        | AcceptFd n => (Ret (Z.of_N n), w')
        end
    end.

(** [fork()]: -1, 0 in the child, the child's pid in the parent. *)
Definition sys_fork : M Z :=
  fun w =>
    match w_forks w with
    | [] => (Pending, w)
    | a :: rest =>
        let w' := log (Fork a) (set_forks rest w) in
        match a with
        | ForkErr e => (Ret (-1), set_errno e w')
        | ForkChild => (Ret 0, w')
        | ForkParent pid => (Ret (Zpos pid), w')
        end
    end.

(** [fgets(buf, size, stdin)]: NULL at end of input, else at most
    [size - 1] characters followed by NUL are stored in [buf]. *)
Definition sys_fgets (buf : list ascii) (size : Z) : M (option (list ascii)) :=
  fun w =>
    match w_stdin w with
    | [] => (Pending, w)
    | a :: rest =>
        let w' := log (Fgets size a) (set_stdin rest w) in
        match a with
        | FgetsEof => (Ret None, w')
        | FgetsLine l =>
            let got := take (Z.to_N (size - 1)) l in
            (Ret (Some (got ++ NUL :: drop (len got + 1) buf)), w')
        end
    end.

Definition close (fd : Z) : M unit := fun w => (Ret tt, log (Close fd) w).

Definition printf (fmt arg : list ascii) : M unit :=
  fun w => (Ret tt, log (Printf fmt arg) w).

Definition perror (msg : string) : M unit :=
  fun w => (Ret tt, log (Perror msg (w_errno w)) w).

(** [memset(a, c, n)] *)
Definition memset (a : list ascii) (c : ascii) (n : N) : list ascii :=
  repeat c (N.to_nat n) ++ drop n a.

(** [a[i]] and [a[i] = c] on an array: outside the array is a fault. *)
Definition load (a : list ascii) (i : Z) : M ascii :=
  if (0 <=? i) && (i <? Z.of_N (len a))
  then ret (nth (Z.to_nat i) a NUL)
  else fault.

Definition store (a : list ascii) (i : Z) (c : ascii) : M (list ascii) :=
  if (0 <=? i) && (i <? Z.of_N (len a))
  then ret (firstn (Z.to_nat i) a ++ c :: skipn (S (Z.to_nat i)) a)
  else fault.

(** The two ways out of a loop body. *)
Inductive ctl := Continue | Break.

(** What of a call reaches the peer of [fd]. *)
Definition delivered (fd : Z) (c : call) : list ascii :=
  match c with
  | Write fd' bytes (WriteTakes k) => if fd' =? fd then take k bytes else []
  | _ => []
  end.

(** All the bytes the trace has put on the connection [fd]. *)
Definition wire (fd : Z) (t : list call) : list ascii :=
  flat_map (delivered fd) t.

(** Whether the process holds descriptor [fd] after the trace, given
    whether it held it before. *)
Definition holds_after (fd : Z) (c : call) (held : bool) : bool :=
  match c with
  | Close fd' => if fd' =? fd then false else held
  | Accept _ (AcceptFd n) => if Z.of_N n =? fd then true else held
  | _ => held
  end.

Definition holds (fd : Z) (held : bool) (t : list call) : bool :=
  fold_left (fun h c => holds_after fd c h) t held.

Definition is_write (c : call) : bool :=
  match c with
  | Write _ _ _ => true
  | _ => false
  end.

Definition is_read (c : call) : bool :=
  match c with
  | Read _ _ _ => true
  | _ => false
  end.

End Sys.

Import Sys.

Declare Scope io_scope.
Delimit Scope io_scope with io.
Notation "x <- c1 ;; c2" := (bind c1 (fun x => c2))
  (at level 61, c1 at next level, right associativity) : io_scope.
Notation "' pat <- c1 ;; c2" := (bind c1 (fun x => match x with pat => c2 end))
  (at level 61, pat pattern, c1 at next level, right associativity) : io_scope.
Notation "c1 ;; c2" := (bind c1 (fun _ => c2))
  (at level 61, right associativity) : io_scope.

(** ** server.c *)

Module Server.

(** The test for space, tab, carriage return and newline. *)
Definition is_blank (c : ascii) : bool :=
  (c =? SP)%char || (c =? HT)%char || (c =? CR)%char || (c =? LF)%char.

(** The first loop, [s++] while [s] points at a blank: the advanced pointer. *)
Fixpoint skip_blanks (s : list ascii) : list ascii :=
  match s with
  | [] => []
  | c :: r => if is_blank c then skip_blanks r else s
  end.

(** The copy loop.  [room] is [sizeof(tmp) - 1 - i]; the result is the
    part of [tmp] written from index [i] on. *)
Fixpoint copy_token (room : nat) (s : list ascii) : list ascii :=
  match room with
  | O => []
  | S room' =>
      match s with
      | [] => []
      | c :: r =>
          if negb (c =? NUL)%char && negb (is_blank c)
          then to_char (tolower (uchar c)) :: copy_token room' r
          else []
      end
  end.

Definition is_quit_cmd (s : list ascii) : bool :=
  let s := skip_blanks s in
  if (deref s =? NUL)%char then false
  else
    let tmp := copy_token 7 s ++ [NUL] in
    (strcmp tmp (lit "quit") =? 0) || (strcmp tmp (lit "exit") =? 0).

Local Open Scope io_scope.

(** *** [send_all] *)

(** The loop of [send_all]; [sent] is the local of that name.  One answer
    of the write script is used per turn, so the length of the script is
    fuel enough: with none left, [write] has not returned. *)
Fixpoint send_loop (fuel : nat) (fd : Z) (buf : list ascii) (len sent : N) : M Z :=
  if (sent <? len)%N then
    match fuel with
    | O => pending
    | S fuel' =>
        n <- sys_write fd (drop sent buf) (size_sub len sent) ;;
        if n <? 0 then
          e <- get_errno ;;
          if is_EINTR e then send_loop fuel' fd buf len sent
          else ret (-1)
        else if n =? 0 then ret 0
        else send_loop fuel' fd buf len (size_add sent (Z.to_N n))
    end
  else ret 0.

Definition send_all (fd : Z) (buf : list ascii) (len : N) : M Z :=
  fun w => send_loop (List.length (w_writes w)) fd buf len 0 w.

(** *** [handle_client_loop] *)

Definition die {A} (msg : string) : M A := perror msg ;; exit 1.

Definition BUFSZ : N := 256.

Definition bye : list ascii := lit "Bye." ++ [LF].
Definition reply : list ascii := lit "I got your message" ++ [LF].

Definition fmt_connected : list ascii := lit "[pid %ld] connected: %s:%u" ++ [LF].
Definition fmt_disconnected : list ascii :=
  lit "[pid %ld] client disconnected: %s:%u" ++ [LF].
Definition fmt_msg : list ascii := lit "[pid %ld] msg from %s:%u -> %s".
Definition fmt_quit : list ascii :=
  lit "[pid %ld] client disconnected (quit/exit): %s:%u" ++ [LF].
Definition fmt_nl : list ascii := [LF].

(** One turn of the [while (1)] of [handle_client_loop].  [buffer] is the
    array as the previous turn left it. *)
Definition session_iter (fd : Z) (buffer : list ascii) : M (ctl * list ascii) :=
  let buffer := memset buffer NUL BUFSZ in
  '(n, buffer) <- sys_read fd buffer (BUFSZ - 1) ;;
  if n <? 0 then
    e <- get_errno ;;
    if is_EINTR e then ret (Continue, buffer)
    else die "ERROR reading from socket"
  else if n =? 0 then
    printf fmt_disconnected [] ;;
    ret (Break, buffer)
  else
    buffer <- store buffer n NUL ;;
    printf fmt_msg (cstr buffer) ;;
    last <- load buffer (n - 1) ;;
    (if (last =? LF)%char then ret tt else printf fmt_nl []) ;;
    if is_quit_cmd buffer then
      r <- send_all fd bye (strlen bye) ;;
      (if r <? 0 then perror "ERROR writing to socket" else ret tt) ;;
      printf fmt_quit [] ;;
      ret (Break, buffer)
    else
      r <- send_all fd reply (strlen reply) ;;
      if r <? 0 then die "ERROR writing to socket"
      else ret (Continue, buffer).

(** The loop itself.  Every turn makes one [read], so the length of the
    read script is fuel enough. *)
Fixpoint session_loop (fuel : nat) (fd : Z) (buffer : list ascii) : M unit :=
  match fuel with
  | O => pending
  | S fuel' =>
      '(c, buffer) <- session_iter fd buffer ;;
      match c with
      | Continue => session_loop fuel' fd buffer
      | Break => ret tt
      end
  end.

(** [buffer] stands for the indeterminate contents of the fresh array. *)
Definition handle_client_loop (fd : Z) (buffer : list ascii) : M unit :=
  printf fmt_connected [] ;;
  fun w => session_loop (List.length (w_reads w)) fd buffer w.

(** *** [main]: the accept loop *)

(** The branch [pid == 0]: the child never comes back. *)
Definition child (sockfd newsockfd : Z) (buffer : list ascii) : M ctl :=
  close sockfd ;;
  handle_client_loop newsockfd buffer ;;
  close newsockfd ;;
  exit 0.

(** One turn of the [while (1)] of [main]. *)
Definition accept_iter (sockfd : Z) (buffer : list ascii) : M ctl :=
  newsockfd <- sys_accept sockfd ;;
  if newsockfd <? 0 then
    e <- get_errno ;;
    if is_EINTR e then ret Continue
    else die "ERROR on accept"
  else
    pid <- sys_fork ;;
    if pid <? 0 then
      perror "ERROR on fork" ;;
      close newsockfd ;;
      ret Continue
    else if pid =? 0 then
      child sockfd newsockfd buffer
    else
      close newsockfd ;;
      ret Continue.

Fixpoint accept_loop (fuel : nat) (sockfd : Z) (buffer : list ascii) : M Z :=
  match fuel with
  | O => pending
  | S fuel' =>
      c <- accept_iter sockfd buffer ;;
      match c with
      | Continue => accept_loop fuel' sockfd buffer
      | Break => ret 0
      end
  end.

Definition serve (sockfd : Z) (buffer : list ascii) : M Z :=
  fun w => accept_loop (List.length (w_accepts w)) sockfd buffer w.

(** *** [reap_children] *)

(** The children of the server: those still running and those that have
    finished and wait to be reaped. *)
Record children := mkChildren {
  running : list positive;
  finished : list positive
}.

Definition among (l : list positive) (p : positive) : bool :=
  existsb (Pos.eqb p) l.

(** Children finishing while the handler runs: [done] names them. *)
Definition finish (done : list positive) (k : children) : children :=
  mkChildren (filter (fun p => negb (among done p)) (running k))
             (finished k ++ filter (among done) (running k)).

(** [waitpid(-1, NULL, options)]: a finished child is reaped and its pid
    returned; with none, -1 when there is no child at all, and otherwise
    0 under WNOHANG, while without it the call waits. *)
Definition waitpid_any (wnohang : bool) (k : children) : outcome Z * children :=
  match finished k with
  | p :: rest => (Ret (Zpos p), mkChildren (running k) rest)
  | [] =>
      match running k with
      | [] => (Ret (-1), k)
      | _ :: _ => if wnohang then (Ret 0, k) else (Pending, k)
      end
  end.

(** The loop of the handler.  [exits] lists, call by call, the children
    that finish just before the call; every turn but the last removes a
    child, so one more than the number of children is fuel enough.
    Returns the pids reaped, in order. *)
Fixpoint reap_loop (fuel : nat) (exits : list (list positive)) (k : children)
  : outcome (list positive) * children :=
  match fuel with
  | O => (Pending, k)
  | S fuel' =>
      let k := finish (hd [] exits) k in
      match waitpid_any true k with
      | (Ret r, k') =>
          if r >? 0 then
            match reap_loop fuel' (tl exits) k' with
            | (Ret l, k'') => (Ret (Z.to_pos r :: l), k'')
            | other => other
            end
          else (Ret [], k')
      | (Exit st, k') => (Exit st, k')
      | (Pending, k') => (Pending, k')
      | (Fault, k') => (Fault, k')
      end
  end.

Definition reap_children (signo : Z) (exits : list (list positive)) (k : children)
  : outcome (list positive) * children :=
  reap_loop (S (List.length (running k) + List.length (finished k))) exits k.

End Server.

(** ** client.c *)

Module Client.

Definition is_blank (c : ascii) : bool :=
  (c =? SP)%char || (c =? HT)%char || (c =? CR)%char || (c =? LF)%char.

Fixpoint skip_blanks (s : list ascii) : list ascii :=
  match s with
  | [] => []
  | c :: r => if is_blank c then skip_blanks r else s
  end.

(** A [char] within A..Z is moved to a..z by [c - A + a], others are kept. *)
Definition fold_upper (c : ascii) : ascii :=
  if (schar "A" <=? schar c) && (schar c <=? schar "Z")
  then to_char (schar c - schar "A" + schar "a")
  else c.

Fixpoint copy_token (room : nat) (s : list ascii) : list ascii :=
  match room with
  | O => []
  | S room' =>
      match s with
      | [] => []
      | c :: r =>
          if negb (c =? NUL)%char && negb (is_blank c)
          then fold_upper c :: copy_token room' r
          else []
      end
  end.

Definition is_quit_cmd (s : list ascii) : bool :=
  let s := skip_blanks s in
  if (deref s =? NUL)%char then false
  else
    let tmp := copy_token 7 s ++ [NUL] in
    (strcmp tmp (lit "quit") =? 0) || (strcmp tmp (lit "exit") =? 0).

Local Open Scope io_scope.

Fixpoint send_loop (fuel : nat) (fd : Z) (buf : list ascii) (len sent : N) : M Z :=
  if (sent <? len)%N then
    match fuel with
    | O => pending
    | S fuel' =>
        n <- sys_write fd (drop sent buf) (size_sub len sent) ;;
        if n <? 0 then
          e <- get_errno ;;
          if is_EINTR e then send_loop fuel' fd buf len sent
          else ret (-1)
        else if n =? 0 then ret 0
        else send_loop fuel' fd buf len (size_add sent (Z.to_N n))
    end
  else ret 0.

Definition send_all (fd : Z) (buf : list ascii) (len : N) : M Z :=
  fun w => send_loop (List.length (w_writes w)) fd buf len 0 w.

(** [recv_some]: one answer of the read script per turn. *)
Fixpoint recv_loop (fuel : nat) (fd : Z) (buf : list ascii) (cap : N)
  : M (Z * list ascii) :=
  match fuel with
  | O => pending
  | S fuel' =>
      '(n, buf') <- sys_read fd buf cap ;;
      e <- get_errno ;;
      if (n <? 0) && is_EINTR e then recv_loop fuel' fd buf cap
      else ret (n, buf')
  end.

Definition recv_some (fd : Z) (buf : list ascii) (cap : N) : M (Z * list ascii) :=
  fun w => recv_loop (List.length (w_reads w)) fd buf cap w.

Definition die {A} (msg : string) : M A := perror msg ;; exit 1.

Definition BUFSZ : N := 256.

Definition fmt_prompt : list ascii := lit "> ".
Definition fmt_closed : list ascii := lit "(server closed connection)" ++ [LF].
Definition fmt_s : list ascii := lit "%s".
Definition fmt_nl : list ascii := [LF].

(** One turn of the [while (1)] of [main]; [buffer] and [reply] are the
    two arrays as the previous turn left them. *)
Definition client_iter (sockfd : Z) (buffer reply : list ascii)
  : M (ctl * (list ascii * list ascii)) :=
  printf fmt_prompt [] ;;
  let buffer := memset buffer NUL BUFSZ in
  line <- sys_fgets buffer (Z.of_N BUFSZ - 1) ;;
  match line with
  | None => ret (Break, (buffer, reply))
  | Some buffer =>
      s <- send_all sockfd buffer (strlen buffer) ;;
      if s <? 0 then die "ERROR writing to socket"
      else
        let reply := memset reply NUL BUFSZ in
        '(n, reply) <- recv_some sockfd reply (BUFSZ - 1) ;;
        if n <? 0 then die "ERROR reading from socket"
        else if n =? 0 then
          printf fmt_closed [] ;;
          ret (Break, (buffer, reply))
        else
          reply <- store reply n NUL ;;
          printf fmt_s (cstr reply) ;;
          last <- load reply (n - 1) ;;
          (if (last =? LF)%char then ret tt else printf fmt_nl []) ;;
          if is_quit_cmd buffer then ret (Break, (buffer, reply))
          else ret (Continue, (buffer, reply))
  end.

(** Every turn makes one [fgets]: more fuel than the input script has
    answers is never used up. *)
Fixpoint client_loop (fuel : nat) (sockfd : Z) (buffer reply : list ascii) : M unit :=
  match fuel with
  | O => pending
  | S fuel' =>
      '(c, (buffer, reply)) <- client_iter sockfd buffer reply ;;
      match c with
      | Continue => client_loop fuel' sockfd buffer reply
      | Break => ret tt
      end
  end.

(** [main] from the loop on: its value is the exit status.  A turn
    prints the prompt before it reads, so the loop is given one unit of
    fuel more than there are answers: it is [fgets] that does not return
    when the input script is exhausted. *)
Definition converse (sockfd : Z) (buffer reply : list ascii) : M Z :=
  (fun w => client_loop (S (List.length (w_stdin w))) sockfd buffer reply w) ;;
  close sockfd ;;
  ret 0.

End Client.

(** ** The classifier as the design document words it *)

Module Framing.

Definition whitespace (c : ascii) : bool :=
  (c =? SP)%char || (c =? HT)%char || (c =? CR)%char || (c =? LF)%char.

Definition case_fold (c : ascii) : ascii :=
  let n := N_of_ascii c in
  if (65 <=? n)%N && (n <=? 90)%N then ascii_of_N (n + 32) else c.

Fixpoint strip_leading (s : list ascii) : list ascii :=
  match s with
  | [] => []
  | c :: r => if whitespace c then strip_leading r else s
  end.

Fixpoint first_token (s : list ascii) : list ascii :=
  match s with
  | [] => []
  | c :: r => if whitespace c then [] else c :: first_token r
  end.

(** Equality of two character sequences. *)
Fixpoint same (a b : list ascii) : bool :=
  match a, b with
  | [], [] => true
  | x :: a', y :: b' => (x =? y)%char && same a' b'
  | _, _ => false
  end.

(** Strip, take the first token, fold, look at no more than 7 characters,
    compare with the two termination words. *)
Definition classify (s : list ascii) : bool :=
  let token := first_token (strip_leading (cstr s)) in
  let seen := map case_fold (firstn 7 token) in
  same seen (lit "quit") || same seen (lit "exit").

(** The same with no limit on the characters looked at. *)
Definition classify_whole_token (s : list ascii) : bool :=
  let token := map case_fold (first_token (strip_leading (cstr s))) in
  same token (lit "quit") || same token (lit "exit").

End Framing.


(** ** The two [main]s before their loops *)

Module Startup.

(** The calls that set a process up, each answered once like the calls
    of the loops: a socket descriptor or 0 on success, an [errno] on
    failure.  Addresses are left out of the calls; the port is kept. *)
Inductive setup_answer := SetupErr (e : errno) | SetupOk (v : N).

Inductive setup_call :=
| Socket
| Setsockopt_reuseaddr (fd : Z)
| Bind (fd : Z) (port : Z)
| Listen (fd : Z) (backlog : Z)
| Sigaction_sigchld (sa_restart : bool)
| Gethostbyname (name : list ascii)
| Connect (fd : Z) (port : Z)
| Fprintf_stderr (fmt arg : list ascii).

Record boot := mkBoot {
  b_answers : list setup_answer;
  b_calls : list setup_call;
  b_world : world
}.

Definition MB (A : Type) : Type := boot -> outcome A * boot.

Definition bbind {A B} (m : MB A) (k : A -> MB B) : MB B :=
  fun b =>
    match m b with
    | (Ret a, b') => k a b'
    | (Exit st, b') => (Exit st, b')
    | (Pending, b') => (Pending, b')
    | (Fault, b') => (Fault, b')
    end.

(** Code of the loops' monad run on the world of the process. *)
Definition lift {A} (m : M A) : MB A :=
  fun b =>
    let '(o, w) := m (b_world b) in
    (o, mkBoot (b_answers b) (b_calls b) w).

Definition sys_setup (c : setup_call) : MB Z :=
  fun b =>
    match b_answers b with
    | [] => (Pending, b)
    | a :: rest =>
        match a with
        | SetupErr e =>
            (Ret (-1), mkBoot rest (b_calls b ++ [c]) (set_errno e (b_world b)))
        | SetupOk v =>
            (Ret (Z.of_N v), mkBoot rest (b_calls b ++ [c]) (b_world b))
        end
    end.

(** [gethostbyname]: whether the result is other than NULL. *)
Definition sys_gethostbyname (name : list ascii) : MB bool :=
  fun b =>
    match b_answers b with
    | [] => (Pending, b)
    | a :: rest =>
        (Ret (match a with SetupErr _ => false | SetupOk _ => true end),
         mkBoot rest (b_calls b ++ [Gethostbyname name]) (b_world b))
    end.

Definition fprintf_stderr (fmt arg : list ascii) : MB unit :=
  fun b => (Ret tt, mkBoot (b_answers b) (b_calls b ++ [Fprintf_stderr fmt arg])
                           (b_world b)).

(** [(uint16_t)portno] *)
Definition uint16 (z : Z) : Z := z mod 65536.

Definition fmt_no_port : list ascii := lit "ERROR, no port provided" ++ [LF].
Definition fmt_listening : list ascii :=
  lit "Server listening on port %d (pid %ld)" ++ [LF].
Definition fmt_usage : list ascii := lit "usage: %s hostname port" ++ [LF].
Definition fmt_no_host : list ascii := lit "ERROR, no such host" ++ [LF].
Definition fmt_connected : list ascii :=
  lit "Connected. Type messages; 'quit' or 'exit' to close." ++ [LF].

(** [main] of server.c; [portno] is what [atoi(argv[1])] returns, and
    [buffer] the indeterminate contents of a child's array. *)
Definition server_main (argc : Z) (portno : Z) (buffer : list ascii) : MB Z :=
  if argc <? 2 then
    bbind (fprintf_stderr fmt_no_port []) (fun _ => lift (exit 1))
  else
    bbind (sys_setup Socket) (fun sockfd =>
    if sockfd <? 0 then lift (Server.die "ERROR opening socket") else
    bbind (sys_setup (Setsockopt_reuseaddr sockfd)) (fun r =>
    if r <? 0 then lift (Server.die "ERROR setsockopt(SO_REUSEADDR)") else
    bbind (sys_setup (Bind sockfd (uint16 portno))) (fun r =>
    if r <? 0 then lift (Server.die "ERROR on binding") else
    bbind (sys_setup (Listen sockfd 5)) (fun r =>
    if r <? 0 then lift (Server.die "ERROR on listen") else
    bbind (sys_setup (Sigaction_sigchld true)) (fun r =>
    if r <? 0 then lift (Server.die "ERROR sigaction(SIGCHLD)") else
    bbind (lift (printf fmt_listening [])) (fun _ =>
    lift (Server.serve sockfd buffer))))))).

(** [main] of client.c; [portno] is what [atoi(argv[2])] returns. *)
Definition client_main (argc : Z) (argv0 host : list ascii) (portno : Z)
  (buffer reply : list ascii) : MB Z :=
  if argc <? 3 then
    bbind (fprintf_stderr fmt_usage argv0) (fun _ => lift (exit 1))
  else
    bbind (sys_setup Socket) (fun sockfd =>
    if sockfd <? 0 then lift (Client.die "ERROR opening socket") else
    bbind (sys_gethostbyname host) (fun found =>
    if negb found then
      bbind (fprintf_stderr fmt_no_host []) (fun _ => lift (exit 1))
    else
    bbind (sys_setup (Connect sockfd (uint16 portno))) (fun r =>
    if r <? 0 then lift (Client.die "ERROR connecting") else
    bbind (lift (printf fmt_connected [])) (fun _ =>
    lift (Client.converse sockfd buffer reply))))).

End Startup.

(** ** SIGPIPE *)

Module Signals.

(** A [write] on a connection whose peer is gone fails with EPIPE, and
    the kernel raises SIGPIPE in the writer before the call returns.
    Neither program installs a handler for SIGPIPE, ignores it or blocks
    it, and both write with plain [write]: the signal meets the
    disposition the process was started with.  Under the default one it
    ends the process inside [write]; only where SIGPIPE is ignored does
    the call return -1 to its caller. *)
Inductive disposition := SIG_DFL | SIG_IGN.

Definition raises_sigpipe (c : call) : bool :=
  match c with
  | Write _ _ (WriteErr EPIPE) => true
  | _ => false
  end.

(** How a process ends: as its code ends, or killed by SIGPIPE. *)
Inductive fate (A : Type) :=
| Ends (out : outcome A)
| Killed.

Arguments Ends {A} out.
Arguments Killed {A}.

(** The calls of [t] up to and including the first that raises SIGPIPE. *)
Fixpoint until_sigpipe (t : list call) : option (list call) :=
  match t with
  | [] => None
  | c :: r =>
      if raises_sigpipe c then Some [c]
      else match until_sigpipe r with
           | Some p => Some (c :: p)
           | None => None
           end
  end.

(** The code [m] run as a process started in [w]: how the process ends
    and the calls it has made.  [m] says what the code does with what
    its calls return.  Under the default disposition the first [write]
    that raises SIGPIPE does not return: it is the last call of the
    process, and what [m] does after it never happens. *)
Definition run {A} (d : disposition) (m : M A) (w : world) : fate A * list call :=
  let '(out, w') := m w in
  let t := skipn (List.length (w_trace w)) (w_trace w') in
  match d with
  | SIG_IGN => (Ends out, t)
  | SIG_DFL =>
      match until_sigpipe t with
      | Some p => (Killed, p)
      | None => (Ends out, t)
      end
  end.

End Signals.

(** ** Notions used to state the properties *)

Definition no_nul (l : list ascii) : Prop := Forall (fun c => c <> NUL) l.

(** The copy loop of the classifiers over an arbitrary fold. *)
Fixpoint copy_with (fold : ascii -> ascii) (room : nat) (s : list ascii) : list ascii :=
  match room with
  | O => []
  | S room' =>
      match s with
      | [] => []
      | c :: r =>
          if negb (c =? NUL)%char && negb (Framing.whitespace c)
          then fold c :: copy_with fold room' r
          else []
      end
  end.

(** A [write] that failed for good, and one that took nothing. *)
Definition hard_error (c : call) : bool :=
  match c with
  | Write _ _ (WriteErr e) => negb (is_EINTR e)
  | _ => false
  end.

Definition no_progress (c : call) : bool :=
  match c with
  | Write _ _ (WriteTakes k) => (k =? 0)%N
  | _ => false
  end.

Definition write_on (fd : Z) (c : call) : Prop :=
  exists bytes a, c = Write fd bytes a.

(** The world after a run that made the calls [t], used [t]'s share of
    the write script and left [e] in [errno]. *)
Definition after_writes (w : world) (t : list call) (e : errno) : world :=
  mkWorld (w_reads w) (skipn (List.length t) (w_writes w)) (w_accepts w)
          (w_forks w) (w_stdin w) e (w_trace w ++ t).

(** How a run of [send_all] that made the calls [t] and got [m] bytes
    through can end. *)
Definition send_verdict (r : outcome Z) (t : list call) (m len : N)
  (left_over : list write_answer) : Prop :=
  (existsb hard_error t = true /\ existsb no_progress t = false /\
   r = Ret (-1) /\ (m < len)%N) \/
  (existsb hard_error t = false /\ existsb no_progress t = true /\
   r = Ret 0 /\ (m < len)%N) \/
  (existsb hard_error t = false /\ existsb no_progress t = false /\
   r = Ret 0 /\ m = len) \/
  (existsb hard_error t = false /\ existsb no_progress t = false /\
   r = Pending /\ (m < len)%N /\ left_over = []).

(** The world once the calls [cs] have been logged. *)
Definition log_all (cs : list call) (w : world) : world :=
  fold_left (fun w c => log c w) cs w.

(** A 256-byte array after [memset(a, 0, sizeof(a))]. *)
Definition zeroed (a : list ascii) : list ascii := memset a NUL 256.

(** The array after [read] has stored [d] in it, after [a[n] = 0] with
    [n] the length of [d], and after [fgets] has stored the line [l]. *)
Definition filled (a d : list ascii) : list ascii :=
  d ++ drop (len d) (zeroed a).

Definition received (a d : list ascii) : list ascii :=
  d ++ NUL :: drop (len d + 1) (zeroed a).

Definition typed (a l : list ascii) : list ascii :=
  take 254 l ++ NUL :: drop (len (take 254 l) + 1) (zeroed a).

(** The [printf] of a newline after text that does not end in one. *)
Definition newline_unless_last (fmt_nl d : list ascii) : list call :=
  if (last d NUL =? LF)%char then [] else [Printf fmt_nl []].

(** What the calls of a trace give [printf] to print from an array. *)
Definition printed_text (t : list call) : list ascii :=
  flat_map (fun c => match c with
                     | Printf _ arg => arg
                     | _ => []
                     end) t.

(** What is left of [Server.child] when its session loop is about to
    make a turn: the rest of the loop, [close(newsockfd)], [_exit(0)]. *)
Definition session_then_exit (fuel : nat) (fd : Z) (buffer : list ascii) : M ctl :=
  bind (Server.session_loop fuel fd buffer) (fun _ =>
  bind (close fd) (fun _ => exit 0)).

(** What is left of the client's [main] when its loop is about to make
    a turn: the rest of the loop, [close(sockfd)], [return 0]. *)
Definition client_then_exit (fuel : nat) (sockfd : Z) (buffer reply : list ascii)
  : M Z :=
  bind (Client.client_loop fuel sockfd buffer reply) (fun _ =>
  bind (close sockfd) (fun _ => ret 0)).

(** ** Notions used to state the further properties *)

(** The world after one [read] that EINTR interrupted, and after [k]. *)
Definition interrupted_read (fd : Z) (cap : N) (w : world) : world :=
  set_errno EINTR (log (Read fd cap (ReadErr EINTR))
                       (set_reads (tl (w_reads w)) w)).

Fixpoint interrupted_reads (k : nat) (fd : Z) (cap : N) (w : world) : world :=
  match k with
  | O => w
  | S k' => interrupted_reads k' fd cap (interrupted_read fd cap w)
  end.

(** The calls a session may make on its connection [fd]: reads and
    writes on [fd], [printf] and [perror]. *)
Definition session_call (fd : Z) (c : call) : bool :=
  match c with
  | Read fd' _ _ => fd' =? fd
  | Write fd' _ _ => fd' =? fd
  | Printf _ _ => true
  | Perror _ _ => true
  | _ => false
  end.

(** A message of 1 to 255 bytes that is not a termination command, and
    one that is. *)
Definition ordinary (d : list ascii) : Prop :=
  (1 <= len d <= 255)%N /\ Server.is_quit_cmd d = false.

Definition command (d : list ascii) : Prop :=
  (1 <= len d <= 255)%N /\ Server.is_quit_cmd d = true.

(** One acknowledgement for each message of [msgs]. *)
Definition acks_for (msgs : list (list ascii)) : list ascii :=
  List.concat (map (fun _ => Server.reply) msgs).

(** No answer of the fork script is the child's: the process stays the
    server. *)
Definition stays_parent (a : fork_answer) : bool :=
  match a with
  | ForkChild => false
  | _ => true
  end.

Definition is_accept_error (c : call) : bool :=
  match c with
  | Accept _ (AcceptErr e) => negb (is_EINTR e)
  | _ => false
  end.

(** The server's setup calls in the order [main] makes them, and the
    message [perror] gets when the call of that rank fails. *)
Definition server_setup (sockfd portno : Z) : list Startup.setup_call :=
  [Startup.Socket; Startup.Setsockopt_reuseaddr sockfd;
   Startup.Bind sockfd (Startup.uint16 portno); Startup.Listen sockfd 5;
   Startup.Sigaction_sigchld true].

Definition server_errors : list string :=
  ["ERROR opening socket"; "ERROR setsockopt(SO_REUSEADDR)";
   "ERROR on binding"; "ERROR on listen"; "ERROR sigaction(SIGCHLD)"]%string.

(** A character of a token: neither a blank nor NUL. *)
Definition token_char (c : ascii) : bool :=
  negb (Server.is_blank c) && negb (c =? NUL)%char.

(** An answer other than the EINTR failure heads the script, if any. *)
Definition not_interrupted (l : list read_answer) : Prop :=
  match l with
  | ReadErr e :: _ => is_EINTR e = false
  | _ => True
  end.

(** * Properties *)

(** ** Characters *)

Ltac each_char c := destruct c as [[] [] [] [] [] [] [] []].

#[local] Arguments Ascii.eqb : simpl never.
#[local] Arguments uchar : simpl never.

Lemma server_fold_is_case_fold (c : ascii) :
  to_char (tolower (uchar c)) = Framing.case_fold c.
Proof. each_char c; reflexivity. Qed.

Lemma client_fold_is_case_fold (c : ascii) :
  Client.fold_upper c = Framing.case_fold c.
Proof. each_char c; reflexivity. Qed.

Lemma case_fold_keeps_nul (c : ascii) :
  (Framing.case_fold c =? NUL)%char = (c =? NUL)%char.
Proof. each_char c; reflexivity. Qed.

Lemma nul_is_not_blank (c : ascii) :
  (c =? NUL)%char = true -> Framing.whitespace c = false.
Proof. intro H; apply Ascii.eqb_eq in H; subst c; reflexivity. Qed.

Lemma uchar_diff_zero (a b : ascii) : uchar a - uchar b = 0 -> a = b.
Proof.
  unfold uchar; intro H.
  assert (E : N_of_ascii a = N_of_ascii b) by lia.
  rewrite <- (ascii_N_embedding a), <- (ascii_N_embedding b), E; reflexivity.
Qed.

(** ** C strings *)

Lemma cstr_no_nul (s : list ascii) : no_nul (cstr s).
Proof.
  induction s as [|c r IH]; simpl; [constructor|].
  destruct (c =? NUL)%char eqn:E; [constructor|].
  constructor; [|exact IH].
  intro H; subst c; discriminate E.
Qed.

(** [strcmp] of a terminated array against a literal is 0 exactly when
    the characters before the terminator are those of the literal. *)
Lemma strcmp_zero (t w : list ascii) :
  no_nul t -> no_nul w ->
  (strcmp (t ++ [NUL]) w =? 0) = Framing.same t w.
Proof.
  intros Ht; revert w.
  induction Ht as [|a t Ha Ht IH]; intros w Hw.
  - destruct w as [|b w]; simpl; [reflexivity|].
    inversion Hw as [|? ? Hb _]; subst.
    destruct (NUL =? b)%char eqn:E.
    + apply Ascii.eqb_eq in E; subst b; contradiction.
    + apply Z.eqb_neq; intro H; apply Hb.
      symmetry; apply uchar_diff_zero; exact H.
  - destruct w as [|b w]; simpl.
    + apply Z.eqb_neq; intro H; apply Ha.
      apply uchar_diff_zero. change (uchar NUL) with 0. lia.
    + inversion Hw as [|? ? Hb Hw']; subst.
      destruct (a =? b)%char eqn:E; simpl.
      * destruct (a =? NUL)%char eqn:E0.
        { apply Ascii.eqb_eq in E0; contradiction. }
        apply IH, Hw'.
      * apply Z.eqb_neq; intro H; apply uchar_diff_zero in H; subst b.
        rewrite Ascii.eqb_refl in E; discriminate E.
Qed.

Lemma same_true (a b : list ascii) : Framing.same a b = true <-> a = b.
Proof.
  revert b; induction a as [|x a IH]; intros [|y b]; simpl;
    try (split; [discriminate | discriminate]); [tauto|].
  rewrite andb_true_iff, Ascii.eqb_eq, IH.
  split; [intros [-> ->]; reflexivity | intros E; inversion E; auto].
Qed.

(** ** The classifier *)

Section Classifier.

(** The two programs differ in the fold alone: the loops are stated once
    over any fold that agrees with [Framing.case_fold]. *)
Variable fold : ascii -> ascii.
Hypothesis fold_ok : forall c, fold c = Framing.case_fold c.

Lemma copy_with_token (room : nat) (s : list ascii) :
  copy_with fold room s =
  map Framing.case_fold (firstn room (Framing.first_token (cstr s))).
Proof.
  revert s; induction room as [|room IH]; intros s; [reflexivity|].
  destruct s as [|c r]; [reflexivity|]. simpl.
  destruct (c =? NUL)%char eqn:E0; simpl; [reflexivity|].
  destruct (Framing.whitespace c) eqn:Ew; simpl; [reflexivity|].
  now rewrite IH, fold_ok.
Qed.

Lemma copy_with_no_nul (room : nat) (s : list ascii) :
  no_nul (copy_with fold room s).
Proof.
  rewrite copy_with_token.
  assert (H : no_nul (firstn room (Framing.first_token (cstr s)))).
  { assert (Hc := cstr_no_nul s). revert room.
    induction Hc as [|c r Hc _ IH]; intros room.
    - destruct room; constructor.
    - destruct room; simpl; [constructor|].
      destruct (Framing.whitespace c); [constructor|].
      constructor; [exact Hc | apply IH]. }
  induction H as [|c r Hc _ IH]; simpl; constructor; [|exact IH].
  intro E. apply Hc.
  assert (E' := case_fold_keeps_nul c). rewrite E in E'.
  symmetry in E'. now apply Ascii.eqb_eq in E'.
Qed.

End Classifier.

Lemma skip_blanks_strips (s : list ascii) :
  cstr (Server.skip_blanks s) = Framing.strip_leading (cstr s).
Proof.
  induction s as [|c r IH]; [reflexivity|].
  simpl. change (Server.is_blank c) with (Framing.whitespace c).
  destruct (c =? NUL)%char eqn:E0.
  - rewrite (nul_is_not_blank c E0). simpl. now rewrite E0.
  - simpl. destruct (Framing.whitespace c) eqn:Ew; [exact IH|].
    simpl. now rewrite E0.
Qed.

Lemma deref_nul_cstr (s : list ascii) :
  (deref s =? NUL)%char = true -> cstr s = [].
Proof.
  destruct s as [|c r]; simpl; [reflexivity|]. now intros ->.
Qed.

Lemma no_nul_quit : no_nul (lit "quit").
Proof. repeat constructor; discriminate. Qed.

Lemma no_nul_exit : no_nul (lit "exit").
Proof. repeat constructor; discriminate. Qed.

Lemma server_copy_is_copy_with (room : nat) (s : list ascii) :
  Server.copy_token room s = copy_with (fun c => to_char (tolower (uchar c))) room s.
Proof.
  revert s; induction room; intros [|c r]; simpl; try reflexivity.
  change (Server.is_blank c) with (Framing.whitespace c).
  destruct (negb (c =? NUL)%char && negb (Framing.whitespace c)); [|reflexivity].
  now rewrite IHroom.
Qed.

Lemma client_copy_is_copy_with (room : nat) (s : list ascii) :
  Client.copy_token room s = copy_with Client.fold_upper room s.
Proof.
  revert s; induction room; intros [|c r]; simpl; try reflexivity.
  change (Client.is_blank c) with (Framing.whitespace c).
  destruct (negb (c =? NUL)%char && negb (Framing.whitespace c)); [|reflexivity].
  now rewrite IHroom.
Qed.

Lemma server_is_quit_cmd_classify (s : list ascii) :
  Server.is_quit_cmd s = Framing.classify s.
Proof.
  unfold Server.is_quit_cmd, Framing.classify.
  rewrite <- skip_blanks_strips.
  destruct (deref (Server.skip_blanks s) =? NUL)%char eqn:E.
  - now rewrite (deref_nul_cstr _ E).
  - rewrite server_copy_is_copy_with.
    rewrite !strcmp_zero;
      try apply copy_with_no_nul; try apply server_fold_is_case_fold;
      try apply no_nul_quit; try apply no_nul_exit.
    now rewrite (copy_with_token _ server_fold_is_case_fold).
Qed.

Lemma client_is_quit_cmd_classify (s : list ascii) :
  Client.is_quit_cmd s = Framing.classify s.
Proof.
  unfold Client.is_quit_cmd, Framing.classify.
  change Client.skip_blanks with Server.skip_blanks.
  rewrite <- skip_blanks_strips.
  destruct (deref (Server.skip_blanks s) =? NUL)%char eqn:E.
  - now rewrite (deref_nul_cstr _ E).
  - rewrite client_copy_is_copy_with.
    rewrite !strcmp_zero;
      try apply copy_with_no_nul; try apply client_fold_is_case_fold;
      try apply no_nul_quit; try apply no_nul_exit.
    now rewrite (copy_with_token _ client_fold_is_case_fold).
Qed.

Lemma same_firstn (n : nat) (l w : list ascii) :
  (List.length w < n)%nat -> Framing.same (firstn n l) w = Framing.same l w.
Proof.
  revert n w; induction l as [|x l IH]; intros n w H.
  - now rewrite firstn_nil.
  - destruct n as [|n]; [lia|]. destruct w as [|y w]; simpl; [reflexivity|].
    simpl in H. rewrite IH by lia. reflexivity.
Qed.

Lemma classify_whole (s : list ascii) :
  Framing.classify s = Framing.classify_whole_token s.
Proof.
  unfold Framing.classify, Framing.classify_whole_token.
  rewrite <- firstn_map.
  rewrite !same_firstn by (simpl; lia). reflexivity.
Qed.

Lemma blank_string_has_no_token (s : list ascii) :
  forallb Framing.whitespace s = true ->
  Framing.strip_leading (cstr s) = [].
Proof.
  induction s as [|c r IH]; simpl; [reflexivity|].
  intro H. apply andb_true_iff in H as [Hc Hr].
  destruct (c =? NUL)%char; [reflexivity|].
  simpl. rewrite Hc. now apply IH.
Qed.

(** C1.  The server's classifier answers true exactly when, leading
    spaces, tabs, carriage returns and newlines stripped, the first
    token, case-folded and looked at for at most 7 characters, is "quit"
    or "exit"; the limit never changes the answer.  "QUIT", "  exit\n"
    and "Quit now" are commands, "quitter" and "exiting" are not, and an
    empty or all-blank string is not. *)
Theorem is_quit_cmd_first_token (s : list ascii) :
  Server.is_quit_cmd s = Framing.classify s /\
  (Server.is_quit_cmd s = true <->
   let token := map Framing.case_fold
                    (Framing.first_token (Framing.strip_leading (cstr s))) in
   token = lit "quit" \/ token = lit "exit") /\
  (forallb Framing.whitespace s = true -> Server.is_quit_cmd s = false) /\
  Server.is_quit_cmd (lit "QUIT") = true /\
  Server.is_quit_cmd (lit "  exit" ++ [LF]) = true /\
  Server.is_quit_cmd (lit "Quit now") = true /\
  Server.is_quit_cmd (lit "quitter") = false /\
  Server.is_quit_cmd (lit "exiting") = false /\
  Server.is_quit_cmd [] = false.
Proof.
  split; [apply server_is_quit_cmd_classify|].
  split.
  - rewrite server_is_quit_cmd_classify, classify_whole.
    unfold Framing.classify_whole_token. cbv zeta.
    now rewrite orb_true_iff, !same_true.
  - split; [|repeat split; reflexivity].
    intro H. rewrite server_is_quit_cmd_classify.
    unfold Framing.classify. now rewrite (blank_string_has_no_token s H).
Qed.

Lemma is_quit_cmd_first_token_witness :
  forallb Framing.whitespace [SP; HT; CR; LF] = true /\
  Server.is_quit_cmd [SP; HT; CR; LF] = false.
Proof.
  split; [reflexivity|].
  destruct (is_quit_cmd_first_token [SP; HT; CR; LF]) as (_ & _ & H & _).
  apply H. reflexivity.
Defined.

(** C10.  The server's classifier, which folds with [tolower], and the
    client's, which folds A..Z by arithmetic, are the same function. *)
Theorem is_quit_cmd_server_client (s : list ascii) :
  Server.is_quit_cmd s = Client.is_quit_cmd s.
Proof.
  now rewrite server_is_quit_cmd_classify, client_is_quit_cmd_classify.
Qed.

(** ** Arrays and [size_t] *)

Lemma size_sub_small (a b : N) :
  (b <= a)%N -> (a < SIZE_MOD)%N -> size_sub a b = (a - b)%N.
Proof.
  intros Hb Ha. unfold size_sub.
  rewrite (N.mod_small b) by lia.
  replace (a + SIZE_MOD - b)%N with (a - b + 1 * SIZE_MOD)%N by lia.
  rewrite N.Div0.mod_add. apply N.mod_small. lia.
Qed.

Lemma size_add_small (a b : N) :
  (a + b < SIZE_MOD)%N -> size_add a b = (a + b)%N.
Proof. intro H. unfold size_add. now apply N.mod_small. Qed.

Lemma take_take (a b : N) (l : list ascii) :
  take a (take b l) = take (N.min a b) l.
Proof.
  unfold take. rewrite firstn_firstn. f_equal. lia.
Qed.

Lemma drop_drop (a b : N) (l : list ascii) :
  drop b (drop a l) = drop (a + b) l.
Proof.
  unfold drop. rewrite skipn_skipn. f_equal. lia.
Qed.

Lemma take_add (a b : N) (l : list ascii) :
  take a l ++ take b (drop a l) = take (a + b) l.
Proof.
  unfold take, drop. rewrite N2Nat.inj_add.
  generalize (N.to_nat a) as n. intro n. revert l.
  induction n as [|n IH]; intros l; [reflexivity|].
  destruct l as [|x l]; simpl; [now rewrite firstn_nil|].
  now rewrite IH.
Qed.

Lemma drop_zero (l : list ascii) : drop 0 l = l.
Proof. reflexivity. Qed.

Lemma take_all (n : N) (l : list ascii) : (len l <= n)%N -> take n l = l.
Proof.
  unfold take, len. intro H. apply firstn_all2. lia.
Qed.

Lemma len_take (n : N) (l : list ascii) : len (take n l) = N.min n (len l).
Proof.
  unfold take, len. rewrite length_firstn. lia.
Qed.

(** ** The trace *)

Lemma wire_app (fd : Z) (t u : list call) :
  wire fd (t ++ u) = wire fd t ++ wire fd u.
Proof. apply flat_map_app. Qed.

Lemma holds_app (fd : Z) (h : bool) (t u : list call) :
  holds fd h (t ++ u) = holds fd (holds fd h t) u.
Proof. apply fold_left_app. Qed.

Lemma after_writes_nil (w : world) : after_writes w [] (w_errno w) = w.
Proof.
  destruct w; unfold after_writes; simpl. now rewrite app_nil_r.
Qed.

Lemma after_writes_step (w : world) (a : write_answer) (rest : list write_answer)
  (c : call) (e0 e : errno) (t : list call) :
  w_writes w = a :: rest ->
  after_writes (set_errno e0 (log c (set_writes rest w))) t e =
  after_writes w (c :: t) e.
Proof.
  destruct w; unfold after_writes; simpl. intros ->. simpl.
  now rewrite <- app_assoc.
Qed.

Lemma after_writes_step' (w : world) (a : write_answer) (rest : list write_answer)
  (c : call) (e : errno) (t : list call) :
  w_writes w = a :: rest ->
  after_writes (log c (set_writes rest w)) t e =
  after_writes w (c :: t) e.
Proof.
  destruct w; unfold after_writes; simpl. intros ->. simpl.
  now rewrite <- app_assoc.
Qed.

(** ** [send_all] *)

Lemma send_loop_run (fuel : nat) :
  forall (fd : Z) (buf : list ascii) (len sent : N) (w : world),
    fuel = List.length (w_writes w) ->
    (sent <= len)%N -> (len < SIZE_MOD)%N ->
    exists (t : list call) (m : N) (r : outcome Z) (e : errno),
      Server.send_loop fuel fd buf len sent w = (r, after_writes w t e) /\
      Forall (write_on fd) t /\
      (sent <= m <= len)%N /\
      wire fd t = take (m - sent) (drop sent buf) /\
      send_verdict r t m len (skipn (List.length t) (w_writes w)).
Proof.
  induction fuel as [|fuel IH]; intros fd buf len sent w Hfuel Hle Hlen.
  - (* no answer left *)
    destruct (w_writes w) as [|a rest] eqn:Hw; [|discriminate Hfuel].
    simpl. destruct (sent <? len)%N eqn:Hlt.
    + apply N.ltb_lt in Hlt.
      exists [], sent, Pending, (w_errno w).
      rewrite after_writes_nil, N.sub_diag. unfold send_verdict.
      repeat split; auto; try lia. right; right; right. repeat split; auto.
    + apply N.ltb_ge in Hlt.
      exists [], sent, (Ret 0), (w_errno w).
      rewrite after_writes_nil, N.sub_diag. unfold send_verdict.
      repeat split; auto; try lia. right; right; left. repeat split; auto. lia.
  - destruct (w_writes w) as [|a rest] eqn:Hw; [discriminate Hfuel|].
    injection Hfuel as Hfuel.
    simpl. destruct (sent <? len)%N eqn:Hlt.
    2:{ apply N.ltb_ge in Hlt.
        exists [], sent, (Ret 0), (w_errno w).
        rewrite after_writes_nil, N.sub_diag. unfold send_verdict.
        repeat split; auto; try lia. right; right; left. repeat split; auto. lia. }
    apply N.ltb_lt in Hlt.
    rewrite (size_sub_small len sent) by lia.
    unfold bind at 1. unfold sys_write. rewrite Hw.
    destruct a as [e|k].
    + (* the write failed *)
      change (-1 <? 0) with true. cbv iota.
      unfold bind at 1. unfold get_errno.
      replace (w_errno (set_errno e (log (Write fd (take (len - sent) (drop sent buf))
                 (WriteErr e)) (set_writes rest w)))) with e by reflexivity.
      destruct (is_EINTR e) eqn:He.
      * set (c := Write fd (take (len - sent) (drop sent buf)) (WriteErr e)).
        destruct (IH fd buf len sent (set_errno e (log c (set_writes rest w))))
          as (t & m & r & e' & Hrun & Hall & Hm & Hwire & Hv);
          try assumption.
        exists (c :: t), m, r, e'.
        rewrite Hrun, (after_writes_step w _ _ c e e' t Hw).
        split; [reflexivity|].
        split; [constructor; [now exists (take (len - sent) (drop sent buf)), (WriteErr e) | exact Hall]|].
        split; [exact Hm|].
        split.
        { unfold wire in *. simpl. exact Hwire. }
        replace (skipn (List.length (c :: t)) (WriteErr e :: rest))
          with (skipn (List.length t) rest) by reflexivity.
        replace (w_writes (set_errno e (log c (set_writes rest w)))) with rest in Hv
          by (destruct w; reflexivity).
        unfold send_verdict in *. simpl existsb. rewrite He. simpl. exact Hv.
      * set (c := Write fd (take (len - sent) (drop sent buf)) (WriteErr e)).
        exists [c], sent, (Ret (-1)), e.
        rewrite <- (after_writes_step w _ _ c e e [] Hw).
        split.
        { unfold ret. f_equal. symmetry.
          apply (after_writes_nil (set_errno e (log c (set_writes rest w)))). }
        split; [constructor; [now exists (take (len - sent) (drop sent buf)), (WriteErr e) | constructor]|].
        split; [lia|].
        split; [now rewrite N.sub_diag|].
        left. simpl. rewrite He. repeat split; auto.
    + (* the write took min k (len - sent) bytes *)
      set (c := Write fd (take (len - sent) (drop sent buf)) (WriteTakes k)).
      assert (Hn : 0 <= Z.of_N (N.min k (len - sent))) by lia.
      destruct (Z.of_N (N.min k (len - sent)) <? 0) eqn:Hneg;
        [apply Z.ltb_lt in Hneg; lia|].
      destruct (Z.of_N (N.min k (len - sent)) =? 0) eqn:Hz.
      * apply Z.eqb_eq in Hz. assert (k = 0%N) by lia. subst k.
        exists [c], sent, (Ret 0), (w_errno w).
        rewrite <- (after_writes_step' w _ _ c (w_errno w) [] Hw).
        split.
        { unfold ret. f_equal. symmetry.
          apply (after_writes_nil (log c (set_writes rest w))). }
        split; [constructor; [now exists (take (len - sent) (drop sent buf)), (WriteTakes 0) | constructor]|].
        split; [lia|].
        split.
        { rewrite N.sub_diag. unfold wire. simpl. now rewrite Z.eqb_refl. }
        right; left. simpl. repeat split; auto.
      * apply Z.eqb_neq in Hz.
        rewrite N2Z.id.
        rewrite (size_add_small sent) by lia.
        destruct (IH fd buf len (sent + N.min k (len - sent))%N
                     (log c (set_writes rest w)))
          as (t & m & r & e' & Hrun & Hall & Hm & Hwire & Hv);
          try assumption; try lia.
        exists (c :: t), m, r, e'.
        rewrite Hrun, (after_writes_step' w _ _ c e' t Hw).
        split; [reflexivity|].
        split; [constructor; [now exists (take (len - sent) (drop sent buf)), (WriteTakes k) | exact Hall]|].
        split; [lia|].
        split.
        { change (wire fd (c :: t)) with (delivered fd c ++ wire fd t).
          rewrite Hwire. unfold c, delivered. rewrite Z.eqb_refl.
          rewrite take_take, <- drop_drop, take_add. f_equal. lia. }
        replace (skipn (List.length (c :: t)) (WriteTakes k :: rest))
          with (skipn (List.length t) rest) by reflexivity.
        replace (w_writes (log c (set_writes rest w))) with rest in Hv
          by (destruct w; reflexivity).
        assert (Hk : (k =? 0)%N = false) by (apply N.eqb_neq; lia).
        unfold send_verdict in *. simpl existsb. rewrite Hk. simpl. exact Hv.
Qed.

Lemma send_all_run (fd : Z) (buf : list ascii) (len : N) (w : world) :
  (len < SIZE_MOD)%N ->
  exists (t : list call) (m : N) (r : outcome Z) (e : errno),
    Server.send_all fd buf len w = (r, after_writes w t e) /\
    Forall (write_on fd) t /\
    (m <= len)%N /\
    wire fd t = take m buf /\
    send_verdict r t m len (w_writes (after_writes w t e)).
Proof.
  intro Hlen.
  destruct (send_loop_run (List.length (w_writes w)) fd buf len 0 w eq_refl)
    as (t & m & r & e & Hrun & Hall & Hm & Hwire & Hv); try lia.
  exists t, m, r, e.
  rewrite N.sub_0_r, drop_zero in Hwire.
  repeat split; try assumption; lia.
Qed.

Lemma send_all_retries (fd : Z) (buf : list ascii) (len : N) (w : world)
  (rest : list write_answer) :
  (0 < len < SIZE_MOD)%N ->
  w_writes w = WriteErr EINTR :: rest ->
  Server.send_all fd buf len w =
  Server.send_all fd buf len
    (set_errno EINTR (log (Write fd (take len buf) (WriteErr EINTR))
                          (set_writes rest w))).
Proof.
  intros Hlen Hw. unfold Server.send_all. rewrite Hw.
  simpl. destruct (0 <? len)%N eqn:Hlt; [|apply N.ltb_ge in Hlt; lia].
  rewrite size_sub_small by lia. rewrite N.sub_0_r.
  unfold bind at 1. unfold sys_write. rewrite Hw.
  destruct w; reflexivity.
Qed.

(** C4.  [send_all], the server's and the client's alike: an
    interrupted write is made again from the same offset; the bytes that
    reach the endpoint are the first [m] of the sequence; the result is
    -1 exactly when a write failed with an error other than EINTR; after
    a write that took nothing the result is 0 although bytes are left
    unsent; and a result of 0 with no such write means all [len] bytes
    went through.  With neither failure nor such write the only other
    end is a write that has not returned. *)
Theorem send_all_contract (fd : Z) (buf : list ascii) (len : N) (w : world) :
  (len < SIZE_MOD)%N ->
  Client.send_all fd buf len w = Server.send_all fd buf len w /\
  (forall rest, (0 < len)%N -> w_writes w = WriteErr EINTR :: rest ->
     Server.send_all fd buf len w =
     Server.send_all fd buf len
       (set_errno EINTR (log (Write fd (take len buf) (WriteErr EINTR))
                             (set_writes rest w)))) /\
  exists (t : list call) (m : N) (r : outcome Z) (e : errno),
    Server.send_all fd buf len w = (r, after_writes w t e) /\
    Forall (write_on fd) t /\
    (m <= len)%N /\
    wire fd t = take m buf /\
    (r = Ret (-1) <-> existsb hard_error t = true) /\
    (existsb no_progress t = true -> r = Ret 0 /\ (m < len)%N) /\
    (r = Ret 0 -> existsb no_progress t = false -> m = len) /\
    (existsb hard_error t = false -> existsb no_progress t = false ->
     (r = Ret 0 /\ m = len) \/
     (r = Pending /\ w_writes (after_writes w t e) = [])).
Proof.
  intro Hlen.
  split; [reflexivity|].
  split; [intros rest Hpos Hw; apply send_all_retries; [lia | exact Hw]|].
  destruct (send_all_run fd buf len w Hlen)
    as (t & m & r & e & Hrun & Hall & Hm & Hwire & Hv).
  exists t, m, r, e.
  repeat (split; [assumption|]).
  unfold send_verdict in Hv.
  destruct Hv as [(Hh & Hp & Hr & Hlt) | [(Hh & Hp & Hr & Hlt) |
                 [(Hh & Hp & Hr & Hlt) | (Hh & Hp & Hr & Hlt & Hleft)]]];
    subst r; rewrite Hh, Hp.
  - repeat split; auto; try discriminate.
  - repeat split; auto; try discriminate.
  - repeat split; auto; try discriminate.
  - repeat split; auto; try discriminate.
Qed.

Lemma send_all_contract_witness :
  let w := mkWorld [] [WriteErr EINTR; WriteTakes 2; WriteTakes 9] [] [] [] ENONE [] in
  (5 < SIZE_MOD)%N /\
  exists (t : list call) (m : N) (r : outcome Z) (e : errno),
    Server.send_all 4 Server.bye 5 w = (r, after_writes w t e) /\
    wire 4 t = take m Server.bye.
Proof.
  intro w.
  assert (H : (5 < SIZE_MOD)%N) by reflexivity.
  split; [exact H|].
  destruct (send_all_contract 4 Server.bye 5 w H)
    as (_ & _ & t & m & r & e & Hrun & _ & _ & Hwire & _).
  now exists t, m, r, e.
Defined.

(** ** The monad *)

Lemma bind_ret {A B} (a : A) (k : A -> M B) (w : world) :
  bind (ret a) k w = k a w.
Proof. reflexivity. Qed.

Lemma bind_printf {B} (fmt arg : list ascii) (k : unit -> M B) (w : world) :
  bind (printf fmt arg) k w = k tt (log (Printf fmt arg) w).
Proof. reflexivity. Qed.

(** ** The receive buffer *)

Lemma len_app (a b : list ascii) : len (a ++ b) = (len a + len b)%N.
Proof. unfold len. rewrite length_app. lia. Qed.

Lemma len_drop (n : N) (l : list ascii) : len (drop n l) = (len l - n)%N.
Proof. unfold len, drop. rewrite length_skipn. lia. Qed.

Lemma len_zeroed (a : list ascii) : len (zeroed a) = N.max 256 (len a).
Proof.
  unfold zeroed, memset. rewrite len_app, len_drop.
  unfold len at 1. rewrite repeat_length. lia.
Qed.

Lemma len_filled (a d : list ascii) :
  (len d <= 256)%N -> len (filled a d) = N.max 256 (len a).
Proof.
  intro H. unfold filled. rewrite len_app, len_drop, len_zeroed. lia.
Qed.

Lemma len_received (a d : list ascii) :
  (len d < 256)%N -> len (received a d) = N.max 256 (len a).
Proof.
  intro H. unfold received. rewrite len_app.
  change (len (NUL :: drop (len d + 1) (zeroed a)))
    with (N.of_nat (S (List.length (drop (len d + 1) (zeroed a))))).
  fold (len (drop (len d + 1) (zeroed a))) in *.
  assert (E := len_drop (len d + 1) (zeroed a)). unfold len in E at 1.
  rewrite Nat2N.inj_succ, E, len_zeroed. lia.
Qed.

Lemma store_filled (a d : list ascii) (w : world) :
  (len d < 256)%N ->
  store (filled a d) (Z.of_N (len d)) NUL w = (Ret (received a d), w).
Proof.
  intro H. unfold store.
  rewrite len_filled by lia.
  replace ((0 <=? Z.of_N (len d)) && (Z.of_N (len d) <? Z.of_N (N.max 256 (len a))))
    with true by (symmetry; apply andb_true_iff; split;
                  [apply Z.leb_le | apply Z.ltb_lt]; lia).
  unfold ret. f_equal. unfold filled, received.
  replace (Z.to_nat (Z.of_N (len d))) with (List.length d) by (unfold len; lia).
  rewrite firstn_app, firstn_all, Nat.sub_diag, firstn_O, app_nil_r.
  do 2 f_equal.
  rewrite skipn_app.
  replace (skipn (S (List.length d)) d) with (@nil ascii)
    by (symmetry; apply skipn_all2; lia).
  replace (S (List.length d) - List.length d)%nat with 1%nat by lia.
  rewrite app_nil_l.
  change (skipn 1 (drop (len d) (zeroed a)))
    with (drop 1 (drop (len d) (zeroed a))).
  now rewrite drop_drop.
Qed.

Lemma nth_last_char (d : list ascii) :
  d <> [] -> nth (List.length d - 1) d NUL = last d NUL.
Proof.
  induction d as [|x d IH]; [congruence|]. intros _.
  destruct d as [|y d]; [reflexivity|].
  change (last (x :: y :: d) NUL) with (last (y :: d) NUL).
  rewrite <- IH by discriminate. simpl. now rewrite Nat.sub_0_r.
Qed.

Lemma load_received (a d : list ascii) (w : world) :
  (1 <= len d < 256)%N ->
  load (received a d) (Z.of_N (len d) - 1) w = (Ret (last d NUL), w).
Proof.
  intro H. unfold load.
  rewrite len_received by lia.
  replace ((0 <=? Z.of_N (len d) - 1) &&
           (Z.of_N (len d) - 1 <? Z.of_N (N.max 256 (len a))))
    with true by (symmetry; apply andb_true_iff; split;
                  [apply Z.leb_le | apply Z.ltb_lt]; lia).
  unfold ret. f_equal. unfold received.
  replace (Z.to_nat (Z.of_N (len d) - 1)) with (List.length d - 1)%nat
    by (unfold len in *; lia).
  rewrite app_nth1 by (unfold len in H; lia).
  rewrite nth_last_char; [reflexivity|].
  intro E; subst d. unfold len in H; simpl in H; lia.
Qed.

Lemma cstr_cut (d rest : list ascii) : cstr (d ++ NUL :: rest) = cstr d.
Proof.
  induction d as [|c d IH]; simpl; [reflexivity|].
  destruct (c =? NUL)%char; [reflexivity|]. now rewrite IH.
Qed.

Lemma cstr_received (a d : list ascii) : cstr (received a d) = cstr d.
Proof. apply cstr_cut. Qed.

Lemma classify_cstr (s s' : list ascii) :
  cstr s = cstr s' -> Framing.classify s = Framing.classify s'.
Proof. unfold Framing.classify. now intros ->. Qed.

Lemma is_quit_cmd_received (a d : list ascii) :
  Server.is_quit_cmd (received a d) = Server.is_quit_cmd d.
Proof.
  rewrite !server_is_quit_cmd_classify. apply classify_cstr, cstr_received.
Qed.

(** ** One turn of the session loop *)

(** A turn whose [read] finds [d] arrived, not empty: what is left of
    the turn once the first 255 bytes of [d] are in the array, terminated
    and logged. *)
Lemma session_iter_data (fd : Z) (buffer : list ascii) (w : world)
  (d : list ascii) (rest : list read_answer) :
  w_reads w = ReadData d :: rest ->
  (1 <= len d)%N ->
  let got := take 255 d in
  Server.session_iter fd buffer w =
  (if Server.is_quit_cmd got then
     bind (Server.send_all fd Server.bye (strlen Server.bye)) (fun r =>
     bind (if r <? 0 then perror "ERROR writing to socket" else ret tt) (fun _ =>
     bind (printf Server.fmt_quit []) (fun _ =>
     ret (Break, received buffer got))))
   else
     bind (Server.send_all fd Server.reply (strlen Server.reply)) (fun r =>
     if r <? 0 then Server.die "ERROR writing to socket"
     else ret (Continue, received buffer got)))
    (log_all (Read fd 255 (ReadData d) :: Printf Server.fmt_msg (cstr got)
                :: newline_unless_last Server.fmt_nl got)
             (set_reads rest w)).
Proof.
  intros Hr Hd got.
  assert (Hgot : (1 <= len got <= 255)%N) by (unfold got; rewrite len_take; lia).
  unfold Server.session_iter.
  unfold bind at 1. unfold sys_read. rewrite Hr. cbv zeta.
  change (Server.BUFSZ - 1)%N with 255%N. fold got. cbv beta iota.
  change (memset buffer NUL Server.BUFSZ) with (zeroed buffer).
  fold (filled buffer got).
  replace (Z.of_N (len got) <? 0) with false by (symmetry; apply Z.ltb_ge; lia).
  replace (Z.of_N (len got) =? 0) with false by (symmetry; apply Z.eqb_neq; lia).
  unfold bind at 1. rewrite store_filled by lia.
  rewrite bind_printf.
  unfold bind at 1. rewrite load_received by lia.
  rewrite cstr_received, is_quit_cmd_received.
  unfold newline_unless_last.
  destruct (last got NUL =? LF)%char; [rewrite bind_ret | rewrite bind_printf];
    reflexivity.
Qed.

Lemma session_loop_step (fuel : nat) (fd : Z) (buffer : list ascii) (w w' : world)
  (out : outcome (ctl * list ascii)) :
  Server.session_iter fd buffer w = (out, w') ->
  Server.session_loop (S fuel) fd buffer w =
  match out with
  | Ret (Continue, b) => Server.session_loop fuel fd b w'
  | Ret (Break, _) => (Ret tt, w')
  | Exit st => (Exit st, w')
  | Pending => (Pending, w')
  | Fault => (Fault, w')
  end.
Proof.
  intro H. simpl. unfold bind. rewrite H.
  destruct out as [[[|] b]| | |]; reflexivity.
Qed.

Lemma child_is_session_then_exit (sockfd fd : Z) (buffer : list ascii) (w : world) :
  Server.child sockfd fd buffer w =
  session_then_exit (List.length (w_reads w)) fd buffer
    (log_all [Close sockfd; Printf Server.fmt_connected []] w).
Proof. reflexivity. Qed.

Lemma trace_log_all (cs : list call) (w : world) :
  w_trace (log_all cs w) = w_trace w ++ cs.
Proof.
  revert w; induction cs as [|c cs IH]; intros w; simpl.
  - now rewrite app_nil_r.
  - rewrite IH. destruct w; simpl. now rewrite <- app_assoc.
Qed.

Lemma writes_log_all (cs : list call) (w : world) :
  w_writes (log_all cs w) = w_writes w.
Proof.
  revert w; induction cs as [|c cs IH]; intros w; simpl; [reflexivity|].
  rewrite IH. now destruct w.
Qed.

Lemma wire_newline (fd : Z) (nl d : list ascii) :
  wire fd (newline_unless_last nl d) = [].
Proof. unfold newline_unless_last. now destruct (last d NUL =? LF)%char. Qed.

(** The bytes on the connection after a turn that read [d], logged it
    and then made the writes [t]. *)
Lemma wire_after_turn (fd : Z) (w : world) (rest : list read_answer)
  (d fmt : list ascii) (t : list call) (e : errno) :
  wire fd (w_trace (after_writes
     (log_all (Read fd 255 (ReadData d) :: Printf fmt (cstr d)
                 :: newline_unless_last Server.fmt_nl d) (set_reads rest w)) t e)) =
  wire fd (w_trace w) ++ wire fd t.
Proof.
  unfold after_writes. cbn [w_trace]. rewrite trace_log_all.
  replace (w_trace (set_reads rest w)) with (w_trace w) by now destruct w.
  rewrite !wire_app.
  change (wire fd (Read fd 255 (ReadData d) :: Printf fmt (cstr d)
                     :: newline_unless_last Server.fmt_nl d))
    with (wire fd (newline_unless_last Server.fmt_nl d)).
  now rewrite wire_newline, app_nil_r.
Qed.

(** ** Traces of a turn *)

Lemma trace_log (c : call) (w : world) : w_trace (log c w) = w_trace w ++ [c].
Proof. reflexivity. Qed.

Lemma trace_set_reads (l : list read_answer) (w : world) :
  w_trace (set_reads l w) = w_trace w.
Proof. reflexivity. Qed.

Lemma trace_set_errno (e : errno) (w : world) :
  w_trace (set_errno e w) = w_trace w.
Proof. reflexivity. Qed.

Lemma trace_after_writes (w : world) (t : list call) (e : errno) :
  w_trace (after_writes w t e) = w_trace w ++ t.
Proof. reflexivity. Qed.

Lemma trace_set_writes (l : list write_answer) (w : world) :
  w_trace (set_writes l w) = w_trace w.
Proof. reflexivity. Qed.

Create Rewrite HintDb trace.
#[local] Hint Rewrite trace_log trace_set_reads trace_set_errno trace_set_writes
  trace_after_writes trace_log_all wire_app : trace.

Lemma wire_read_log (fd : Z) (a : read_answer) (fmt arg nl d : list ascii) :
  wire fd (Read fd 255 a :: Printf fmt arg :: newline_unless_last nl d) = [].
Proof.
  change (wire fd (Read fd 255 a :: Printf fmt arg :: newline_unless_last nl d))
    with (wire fd (newline_unless_last nl d)).
  apply wire_newline.
Qed.

(** C2.  A turn of the session loop that receives 1 to 255 bytes which
    are not a termination command hands exactly "I got your message\n"
    to [send_all].  When that succeeds the turn ends with Continue and
    the loop goes on to its next receive; the connection has then got
    the 19 bytes of the literal, or, after a write that took nothing,
    its first [m < 19].  When [send_all] fails the process reports the
    error and exits with status 1.  Otherwise a write has not returned. *)
Theorem acknowledgement (fd : Z) (buffer : list ascii) (w : world)
  (d : list ascii) (rest : list read_answer) :
  w_reads w = ReadData d :: rest ->
  (1 <= len d <= 255)%N ->
  Server.is_quit_cmd d = false ->
  let w0 := log_all (Read fd 255 (ReadData d) :: Printf Server.fmt_msg (cstr d)
                       :: newline_unless_last Server.fmt_nl d)
                    (set_reads rest w) in
  Server.session_iter fd buffer w =
    bind (Server.send_all fd (lit "I got your message" ++ [LF]) 19) (fun r =>
          if r <? 0 then Server.die "ERROR writing to socket"
          else ret (Continue, received buffer d)) w0 /\
  exists (t : list call) (m : N) (e : errno),
    let w1 := after_writes w0 t e in
    Forall (write_on fd) t /\
    wire fd (w_trace w1) = wire fd (w_trace w) ++ take m Server.reply /\
    ((existsb hard_error t = false /\ existsb no_progress t = false /\
      take m Server.reply = lit "I got your message" ++ [LF] /\
      Server.session_iter fd buffer w = (Ret (Continue, received buffer d), w1) /\
      forall fuel, Server.session_loop (S fuel) fd buffer w =
                   Server.session_loop fuel fd (received buffer d) w1)
     \/
     (existsb hard_error t = false /\ existsb no_progress t = true /\
      (m < 19)%N /\
      Server.session_iter fd buffer w = (Ret (Continue, received buffer d), w1) /\
      forall fuel, Server.session_loop (S fuel) fd buffer w =
                   Server.session_loop fuel fd (received buffer d) w1)
     \/
     (existsb hard_error t = true /\ (m < 19)%N /\
      Server.session_iter fd buffer w =
        (Exit 1, log (Perror "ERROR writing to socket" e) w1) /\
      forall fuel, session_then_exit (S fuel) fd buffer w =
                   (Exit 1, log (Perror "ERROR writing to socket" e) w1))
     \/
     (existsb hard_error t = false /\ existsb no_progress t = false /\
      (m < 19)%N /\ w_writes w1 = [] /\
      Server.session_iter fd buffer w = (Pending, w1))).
Proof.
  intros Hr Hd Hq w0.
  assert (Hiter := session_iter_data fd buffer w d rest Hr (proj1 Hd)).
  cbv zeta in Hiter. rewrite (take_all 255 d) in Hiter by lia.
  rewrite Hq in Hiter. fold w0 in Hiter.
  change (strlen Server.reply) with 19%N in Hiter.
  split; [exact Hiter|].
  destruct (send_all_run fd Server.reply 19 w0)
    as (t & m & r & e & Hrun & Hall & Hm & Hwire & Hv); [reflexivity|].
  exists t, m, e. cbv zeta.
  split; [exact Hall|].
  split; [unfold w0; rewrite wire_after_turn, Hwire; reflexivity|].
  unfold bind in Hiter. rewrite Hrun in Hiter.
  destruct Hv as [(Hh & Hp & -> & Hlt) | [(Hh & Hp & -> & Hlt) |
                 [(Hh & Hp & -> & ->) | (Hh & Hp & -> & Hlt & Hleft)]]].
  - right; right; left.
    change (-1 <? 0) with true in Hiter. cbv iota in Hiter.
    repeat split; try assumption.
    intro fuel. unfold session_then_exit, bind.
    now rewrite (session_loop_step fuel _ _ _ _ _ Hiter).
  - right; left.
    repeat split; try assumption.
    intro fuel. now rewrite (session_loop_step fuel _ _ _ _ _ Hiter).
  - left.
    repeat split; try assumption.
    intro fuel. now rewrite (session_loop_step fuel _ _ _ _ _ Hiter).
  - right; right; right.
    repeat split; assumption.
Qed.

Lemma acknowledgement_witness :
  let d := lit "hello" ++ [LF] in
  let w := mkWorld [ReadData d] [WriteTakes 19] [] [] [] ENONE [] in
  w_reads w = ReadData d :: [] /\
  (1 <= len d <= 255)%N /\
  Server.is_quit_cmd d = false /\
  exists (t : list call) (m : N),
    wire 4 (w_trace w ++ Read 4 255 (ReadData d) :: Printf Server.fmt_msg d :: t) =
    take m Server.reply.
Proof.
  intros d w.
  assert (H1 : w_reads w = ReadData d :: []) by reflexivity.
  assert (H2 : (1 <= len d <= 255)%N) by (vm_compute; split; discriminate).
  assert (H3 : Server.is_quit_cmd d = false) by reflexivity.
  repeat (split; [assumption|]).
  destruct (acknowledgement 4 [] w d [] H1 H2 H3) as (_ & t & m & e & _ & Hwire & _).
  exists t, m. exact Hwire.
Defined.

(** ** The farewell and the peer's close *)

(** *** Writes that raise SIGPIPE *)

Lemma raises_is_hard (c : call) :
  Signals.raises_sigpipe c = true -> hard_error c = true.
Proof.
  destruct c as [| fd b [e|k] | | | | | |]; try discriminate.
  destruct e; try discriminate. reflexivity.
Qed.

Lemma no_hard_no_sigpipe (t : list call) :
  existsb hard_error t = false -> existsb Signals.raises_sigpipe t = false.
Proof.
  induction t as [|c t IH]; [reflexivity|]. simpl. intro H.
  apply orb_false_iff in H as [H1 H2]. rewrite (IH H2).
  destruct (Signals.raises_sigpipe c) eqn:E; [|reflexivity].
  apply raises_is_hard in E. congruence.
Qed.

Lemma until_sigpipe_none (t : list call) :
  existsb Signals.raises_sigpipe t = false -> Signals.until_sigpipe t = None.
Proof.
  induction t as [|c t IH]; [reflexivity|]. simpl. intro H.
  apply orb_false_iff in H as [H1 H2]. now rewrite H1, (IH H2).
Qed.

Lemma until_sigpipe_first (a : list call) (c : call) (b : list call) :
  existsb Signals.raises_sigpipe a = false ->
  Signals.raises_sigpipe c = true ->
  Signals.until_sigpipe (a ++ c :: b) = Some (a ++ [c]).
Proof.
  intros Ha Hc. induction a as [|x a IH]; simpl.
  - now rewrite Hc.
  - simpl in Ha. apply orb_false_iff in Ha as [H1 H2].
    now rewrite H1, (IH H2).
Qed.

Lemma skipn_past {A} (l r : list A) : skipn (List.length l) (l ++ r) = r.
Proof. now rewrite skipn_app, skipn_all, Nat.sub_diag. Qed.

Lemma run_ends {A} (disp : Signals.disposition) (m : M A) (w w' : world)
  (out : outcome A) (tr : list call) :
  m w = (out, w') ->
  w_trace w' = w_trace w ++ tr ->
  disp = Signals.SIG_IGN \/ existsb Signals.raises_sigpipe tr = false ->
  Signals.run disp m w = (Signals.Ends out, tr).
Proof.
  intros Hm Ht Hc. unfold Signals.run. rewrite Hm, Ht, skipn_past.
  destruct Hc as [-> | Hc]; [reflexivity|].
  rewrite (until_sigpipe_none _ Hc). now destruct disp.
Qed.

Lemma run_killed {A} (m : M A) (w w' : world) (out : outcome A)
  (a : list call) (c : call) (b : list call) :
  m w = (out, w') ->
  w_trace w' = w_trace w ++ a ++ c :: b ->
  existsb Signals.raises_sigpipe a = false ->
  Signals.raises_sigpipe c = true ->
  Signals.run Signals.SIG_DFL m w = (Signals.Killed, a ++ [c]).
Proof.
  intros Hm Ht Ha Hc. unfold Signals.run. rewrite Hm, Ht, skipn_past.
  now rewrite (until_sigpipe_first a c b Ha Hc).
Qed.

Lemma turn_raises_nothing (fd : Z) (a : read_answer) (fmt arg nl d : list ascii) :
  existsb Signals.raises_sigpipe
    (Read fd 255 a :: Printf fmt arg :: newline_unless_last nl d) = false.
Proof.
  unfold newline_unless_last. now destruct (last d NUL =? LF)%char.
Qed.

(** [send_all] stops at the first write that fails for good: such a
    write is the last call it makes. *)
Lemma send_loop_error_last (fuel : nat) :
  forall (fd : Z) (buf : list ascii) (len sent : N) (w w' : world)
         (out : outcome Z),
    Server.send_loop fuel fd buf len sent w = (out, w') ->
    exists t : list call,
      w_trace w' = w_trace w ++ t /\
      (existsb hard_error t = false \/
       exists t0 c, t = t0 ++ [c] /\ existsb hard_error t0 = false /\
                    hard_error c = true).
Proof.
  assert (Hnone : forall (w w' : world) (out out' : outcome Z),
            (out', w) = (out, w') ->
            exists t : list call,
              w_trace w' = w_trace w ++ t /\
              (existsb hard_error t = false \/
               exists t0 c, t = t0 ++ [c] /\ existsb hard_error t0 = false /\
                            hard_error c = true)).
  { intros w w' out out' H. injection H as _ <-. exists [].
    rewrite app_nil_r. auto. }
  induction fuel as [|fuel IH]; intros fd buf len sent w w' out H.
  - simpl in H. destruct (sent <? len)%N; exact (Hnone _ _ _ _ H).
  - simpl in H. destruct (sent <? len)%N; [|exact (Hnone _ _ _ _ H)].
    unfold bind at 1 in H. unfold sys_write in H.
    destruct (w_writes w) as [|[e|k] rest]; [exact (Hnone _ _ _ _ H)| |].
    + cbv beta iota zeta in H. change (-1 <? 0) with true in H. cbv iota in H.
      unfold bind at 1 in H. unfold get_errno in H. cbn [w_errno set_errno] in H.
      set (c := Write fd _ (WriteErr e)) in H.
      destruct (is_EINTR e) eqn:He.
      * apply IH in H as (t & Ht & Hcases).
        exists (c :: t).
        split; [rewrite Ht; autorewrite with trace; now rewrite <- app_assoc|].
        destruct Hcases as [Hno | (t0 & c' & -> & Hno & Hc')].
        -- left. simpl. now rewrite He, Hno.
        -- right. exists (c :: t0), c'. split; [reflexivity|].
           split; [simpl; now rewrite He, Hno | exact Hc'].
      * injection H as _ <-. exists [c].
        split; [now autorewrite with trace|].
        right. exists [], c. repeat split. simpl. now rewrite He.
    + cbv beta iota zeta in H.
      set (c := Write fd _ (WriteTakes k)) in H.
      set (n := Z.of_N _) in H.
      destruct (n <? 0) eqn:Hneg; [unfold n in Hneg; apply Z.ltb_lt in Hneg; lia|].
      destruct (n =? 0).
      * injection H as _ <-. exists [c].
        split; [now autorewrite with trace | now left].
      * apply IH in H as (t & Ht & Hcases).
        exists (c :: t).
        split; [rewrite Ht; autorewrite with trace; now rewrite <- app_assoc|].
        destruct Hcases as [Hno | (t0 & c' & -> & Hno & Hc')].
        -- left. simpl. exact Hno.
        -- right. exists (c :: t0), c'. split; [reflexivity|].
           split; [exact Hno | exact Hc'].
Qed.

Lemma send_all_error_last (fd : Z) (buf : list ascii) (len : N) (w : world)
  (r : outcome Z) (t : list call) (e : errno) :
  Server.send_all fd buf len w = (r, after_writes w t e) ->
  existsb hard_error t = false \/
  exists t0 c, t = t0 ++ [c] /\ existsb hard_error t0 = false /\ hard_error c = true.
Proof.
  intro H. unfold Server.send_all in H.
  apply send_loop_error_last in H as (t' & Ht & Hcases).
  rewrite trace_after_writes in Ht. apply app_inv_head in Ht. now subst t'.
Qed.




(** C5.  A turn of the session loop whose [read] returns 0 makes no
    write: it logs the disconnection and ends with Break, the bytes on
    the connection being what they were.  The child then closes the
    connection and exits with status 0. *)
Theorem peer_close (fd : Z) (buffer : list ascii) (w : world)
  (rest : list read_answer) :
  w_reads w = ReadData [] :: rest ->
  let calls := [Read fd 255 (ReadData []); Printf Server.fmt_disconnected []] in
  let w1 := log_all calls (set_reads rest w) in
  Server.session_iter fd buffer w = (Ret (Break, zeroed buffer), w1) /\
  existsb is_write calls = false /\
  wire fd (w_trace w1) = wire fd (w_trace w) /\
  w_writes w1 = w_writes w /\
  (forall fuel, session_then_exit (S fuel) fd buffer w =
                (Exit 0, log (Close fd) w1)) /\
  (forall sockfd ws,
     Server.child sockfd fd buffer ws =
     session_then_exit (List.length (w_reads ws)) fd buffer
       (log_all [Close sockfd; Printf Server.fmt_connected []] ws)).
Proof.
  intros Hr calls w1.
  assert (Hiter : Server.session_iter fd buffer w = (Ret (Break, zeroed buffer), w1)).
  { unfold Server.session_iter.
    unfold bind at 1. unfold sys_read. rewrite Hr. reflexivity. }
  split; [exact Hiter|].
  split; [reflexivity|].
  split.
  { unfold w1. rewrite trace_log_all, wire_app.
    replace (w_trace (set_reads rest w)) with (w_trace w) by now destruct w.
    apply app_nil_r. }
  split.
  { unfold w1. rewrite writes_log_all. now destruct w. }
  split; [|intros; apply child_is_session_then_exit].
  intro fuel. unfold session_then_exit, bind.
  now rewrite (session_loop_step fuel _ _ _ _ _ Hiter).
Qed.

Lemma peer_close_witness :
  let w := mkWorld [ReadData []] [] [] [] [] ENONE [] in
  w_reads w = ReadData [] :: [] /\
  session_then_exit 1 4 [] w =
  (Exit 0, log_all [Read 4 255 (ReadData []);
                    Printf Server.fmt_disconnected []; Close 4] (set_reads [] w)).
Proof.
  intro w.
  assert (H1 : w_reads w = ReadData [] :: []) by reflexivity.
  split; [exact H1|].
  destruct (peer_close 4 [] w [] H1) as (_ & _ & _ & _ & Hexit & _).
  rewrite (Hexit O). reflexivity.
Defined.

Lemma session_iter_read_error (fd : Z) (buffer : list ascii) (w : world)
  (e : errno) (rest : list read_answer) :
  w_reads w = ReadErr e :: rest ->
  Server.session_iter fd buffer w =
    (if is_EINTR e then ret (Continue, zeroed buffer)
     else Server.die "ERROR reading from socket")
      (set_errno e (log (Read fd 255 (ReadErr e)) (set_reads rest w))).
Proof.
  intro Hr. unfold Server.session_iter.
  unfold bind at 1. unfold sys_read. rewrite Hr. cbv zeta beta iota.
  change (-1 <? 0) with true. cbv iota.
  unfold bind at 1. unfold get_errno. reflexivity.
Qed.

Lemma session_iter_no_data (fd : Z) (buffer : list ascii) (w : world)
  (rest : list read_answer) :
  w_reads w = ReadData [] :: rest ->
  Server.session_iter fd buffer w =
    (Ret (Break, zeroed buffer),
     log_all [Read fd 255 (ReadData []); Printf Server.fmt_disconnected []]
             (set_reads rest w)).
Proof.
  intro Hr. unfold Server.session_iter.
  unfold bind at 1. unfold sys_read. rewrite Hr. reflexivity.
Qed.

(** ** The receive buffer over a whole turn *)

Lemma skipn_repeat_char (c : ascii) (k n : nat) :
  skipn k (repeat c n) = repeat c (n - k).
Proof.
  revert k; induction n as [|n IH]; intros [|k]; simpl; try reflexivity.
  apply IH.
Qed.

Lemma zeroed_fresh (a : list ascii) :
  len a = 256%N -> zeroed a = repeat NUL 256.
Proof.
  intro H. unfold zeroed, memset, drop.
  rewrite skipn_all2 by (unfold len in H; lia). apply app_nil_r.
Qed.

Lemma received_padded (a d : list ascii) :
  len a = 256%N -> (len d < 256)%N ->
  received a d = d ++ repeat NUL (256 - List.length d).
Proof.
  intros Ha Hd. unfold received. rewrite (zeroed_fresh a Ha).
  f_equal. unfold drop. rewrite skipn_repeat_char.
  assert (E : (256 - N.to_nat (len d + 1) = 255 - List.length d)%nat)
    by (unfold len in *; lia).
  rewrite E.
  replace (256 - List.length d)%nat with (S (255 - List.length d))
    by (unfold len in Hd; lia).
  reflexivity.
Qed.

Ltac with_outcome H := eexists; eexists; split; [exact H|].

(** How a turn of the session loop can end, and with what in the array. *)
Lemma session_iter_outcome (fd : Z) (buffer : list ascii) (w : world) :
  exists (out : outcome (ctl * list ascii)) (w' : world),
    Server.session_iter fd buffer w = (out, w') /\
    (out = Pending \/ out = Exit 1 \/
     (exists c, out = Ret (c, zeroed buffer)) \/
     (exists c d, (1 <= len d <= 255)%N /\ out = Ret (c, received buffer d))).
Proof.
  destruct (w_reads w) as [|[e|d] rest] eqn:Hr.
  - exists Pending, w. split; [|now left].
    unfold Server.session_iter, bind, sys_read. now rewrite Hr.
  - destruct (is_EINTR e) eqn:He.
    + eexists; eexists. split.
      * unfold Server.session_iter.
        unfold bind at 1. unfold sys_read. rewrite Hr. cbv zeta beta iota.
        change (-1 <? 0) with true. cbv iota.
        unfold bind, get_errno. cbn [w_errno set_errno]. rewrite He. reflexivity.
      * right; right; left. now exists Continue.
    + eexists; eexists. split.
      * unfold Server.session_iter.
        unfold bind at 1. unfold sys_read. rewrite Hr. cbv zeta beta iota.
        change (-1 <? 0) with true. cbv iota.
        unfold bind, get_errno. cbn [w_errno set_errno]. rewrite He. reflexivity.
      * right; now left.
  - destruct (N.eq_dec (len d) 0) as [Hz|Hnz].
    + assert (d = []) by (destruct d; [reflexivity | discriminate Hz]). subst d.
      eexists; eexists. split.
      * unfold Server.session_iter.
        unfold bind at 1. unfold sys_read. rewrite Hr. reflexivity.
      * right; right; left. now exists Break.
    + assert (Hd : (1 <= len d)%N) by lia.
      assert (Hiter := session_iter_data fd buffer w d rest Hr Hd).
      cbv zeta in Hiter.
      set (got := take 255 d) in *.
      assert (Hgot : (1 <= len got <= 255)%N) by (unfold got; rewrite len_take; lia).
      set (w0 := log_all _ _) in Hiter.
      destruct (Server.is_quit_cmd got).
      * change (strlen Server.bye) with 5%N in Hiter.
        destruct (send_all_run fd Server.bye 5 w0)
          as (t & m & r & e & Hrun & _ & _ & _ & Hv); [reflexivity|].
        unfold bind in Hiter. rewrite Hrun in Hiter.
        destruct Hv as [(_ & _ & -> & _) | [(_ & _ & -> & _) |
                       [(_ & _ & -> & _) | (_ & _ & -> & _)]]];
          with_outcome Hiter.
        { right; right; right. exists Break, got. now split. }
        { right; right; right. exists Break, got. now split. }
        { right; right; right. exists Break, got. now split. }
        { now left. }
      * change (strlen Server.reply) with 19%N in Hiter.
        destruct (send_all_run fd Server.reply 19 w0)
          as (t & m & r & e & Hrun & _ & _ & _ & Hv); [reflexivity|].
        unfold bind in Hiter. rewrite Hrun in Hiter.
        destruct Hv as [(_ & _ & -> & _) | [(_ & _ & -> & _) |
                       [(_ & _ & -> & _) | (_ & _ & -> & _)]]];
          with_outcome Hiter.
        { right; now left. }
        { right; right; right. exists Continue, got. now split. }
        { right; right; right. exists Continue, got. now split. }
        { now left. }
Qed.

Lemma printed_text_app (t u : list call) :
  printed_text (t ++ u) = printed_text t ++ printed_text u.
Proof. apply flat_map_app. Qed.

Lemma quiet_newline (nl d : list ascii) :
  existsb is_read (newline_unless_last nl d) = false /\
  printed_text (newline_unless_last nl d) = [].
Proof. unfold newline_unless_last. now destruct (last d NUL =? LF)%char. Qed.

Lemma quiet_writes (fd : Z) (t : list call) :
  Forall (write_on fd) t ->
  existsb is_read t = false /\ printed_text t = [].
Proof.
  induction 1 as [|c t (b & a & ->) _ [IH1 IH2]]; [now split|].
  split; [exact IH1 | exact IH2].
Qed.

Ltac shown_trace H Hnl Hw :=
  cbv beta iota delta [Server.die bind printf perror exit ret] in H;
  eexists; eexists; eexists;
  split; [exact H|];
  split; [autorewrite with trace; rewrite <- ?app_assoc; cbn [app]; reflexivity|];
  split; [cbn [existsb is_read]; rewrite !existsb_app, (proj1 Hnl), (proj1 Hw);
          reflexivity|];
  split; [change (printed_text (Printf ?f ?a :: ?l)) with (a ++ printed_text l);
          rewrite !printed_text_app, (proj2 Hnl), (proj2 Hw);
          cbn [printed_text flat_map app]; now rewrite ?app_nil_r|].

(** A turn whose [read] finds [d] arrived, not empty: the calls that
    follow the [read], what they print from the array, and how the turn
    ends. *)
Lemma session_iter_shows (fd : Z) (buffer : list ascii) (w : world)
  (d : list ascii) (rest : list read_answer) :
  w_reads w = ReadData d :: rest ->
  (1 <= len d)%N ->
  let got := take 255 d in
  exists (out : outcome (ctl * list ascii)) (w' : world) (t : list call),
    Server.session_iter fd buffer w = (out, w') /\
    w_trace w' = w_trace w ++ Read fd 255 (ReadData d) :: t /\
    existsb is_read t = false /\
    printed_text t = cstr got /\
    (out = Pending \/
     (out = Exit 1 /\ Server.is_quit_cmd got = false) \/
     (out = Ret (Break, received buffer got) /\ Server.is_quit_cmd got = true) \/
     (out = Ret (Continue, received buffer got) /\ Server.is_quit_cmd got = false)).
Proof.
  intros Hr Hd got.
  assert (Hiter := session_iter_data fd buffer w d rest Hr Hd).
  cbv zeta in Hiter. fold got in Hiter.
  assert (Hnl := quiet_newline Server.fmt_nl got).
  set (w0 := log_all _ _) in Hiter.
  destruct (Server.is_quit_cmd got).
  - change (strlen Server.bye) with 5%N in Hiter.
    destruct (send_all_run fd Server.bye 5 w0)
      as (t & m & r & e & Hrun & Hall & _ & _ & Hv); [reflexivity|].
    apply quiet_writes in Hall.
    unfold bind in Hiter. rewrite Hrun in Hiter.
    destruct Hv as [(_ & _ & -> & _) | [(_ & _ & -> & _) |
                   [(_ & _ & -> & _) | (_ & _ & -> & _)]]];
      unfold w0 in Hiter; shown_trace Hiter Hnl Hall; auto.
  - change (strlen Server.reply) with 19%N in Hiter.
    destruct (send_all_run fd Server.reply 19 w0)
      as (t & m & r & e & Hrun & Hall & _ & _ & Hv); [reflexivity|].
    apply quiet_writes in Hall.
    unfold bind in Hiter. rewrite Hrun in Hiter.
    destruct Hv as [(_ & _ & -> & _) | [(_ & _ & -> & _) |
                   [(_ & _ & -> & _) | (_ & _ & -> & _)]]];
      unfold w0 in Hiter; shown_trace Hiter Hnl Hall; auto.
Qed.

(** C9.  A turn of the session loop over the 256-byte array.  The array
    is zeroed before the receive, so the turn is the same whatever the
    turn before left in it.  The [read] is asked for 255 bytes; the
    store at [n] and the load at [n - 1] do not fall outside the array;
    and the array the turn leaves is the bytes received, at most 255,
    followed by NUL bytes only, 256 bytes in all.  After a [read] that
    found [d] arrived, the turn makes no other [read]; all that it gives
    [printf] to print from the array is the bytes received up to their
    first NUL; and it ends with Break or goes on as the classifier
    decides on the bytes received, nothing else of the array having a
    say. *)
Theorem receive_buffer (fd : Z) (buffer : list ascii) (w : world) :
  len buffer = 256%N ->
  Server.session_iter fd buffer w = Server.session_iter fd (repeat NUL 256) w /\
  fst (Server.session_iter fd buffer w) <> Fault /\
  (forall c b w', Server.session_iter fd buffer w = (Ret (c, b), w') ->
     let got := match w_reads w with
                | ReadData d :: _ => take 255 d
                | _ => []
                end in
     (len got <= 255)%N /\
     b = got ++ repeat NUL (256 - List.length got) /\
     len b = 256%N) /\
  (forall d rest, w_reads w = ReadData d :: rest -> d <> [] ->
     let got := take 255 d in
     let kept := got ++ repeat NUL (256 - List.length got) in
     Server.session_iter fd buffer w =
       (if Server.is_quit_cmd got then
          bind (Server.send_all fd Server.bye (strlen Server.bye)) (fun r =>
          bind (if r <? 0 then perror "ERROR writing to socket" else ret tt) (fun _ =>
          bind (printf Server.fmt_quit []) (fun _ =>
          ret (Break, kept))))
        else
          bind (Server.send_all fd Server.reply (strlen Server.reply)) (fun r =>
          if r <? 0 then Server.die "ERROR writing to socket"
          else ret (Continue, kept)))
         (log_all (Read fd 255 (ReadData d) :: Printf Server.fmt_msg (cstr got)
                     :: newline_unless_last Server.fmt_nl got)
                  (set_reads rest w)) /\
     exists (out : outcome (ctl * list ascii)) (w' : world) (t : list call),
       Server.session_iter fd buffer w = (out, w') /\
       w_trace w' = w_trace w ++ Read fd 255 (ReadData d) :: t /\
       existsb is_read t = false /\
       printed_text t = cstr got /\
       (out = Pending \/
        (out = Exit 1 /\ Server.is_quit_cmd got = false) \/
        (out = Ret (Break, kept) /\ Server.is_quit_cmd got = true) \/
        (out = Ret (Continue, kept) /\ Server.is_quit_cmd got = false))).
Proof.
  intro Hlen.
  assert (Hz := zeroed_fresh buffer Hlen).
  assert (Hdata : forall d, d <> [] ->
            (1 <= len d)%N /\ (1 <= len (take 255 d) <= 255)%N /\
            received buffer (take 255 d) =
              take 255 d ++ repeat NUL (256 - List.length (take 255 d))).
  { intros d Hne.
    assert (H1 : (1 <= len d)%N)
      by (destruct d; [congruence | unfold len; simpl; lia]).
    assert (H2 : (1 <= len (take 255 d) <= 255)%N) by (rewrite len_take; lia).
    repeat split; try lia. apply received_padded; [exact Hlen | lia]. }
  split.
  { unfold Server.session_iter.
    change (memset buffer NUL Server.BUFSZ) with (zeroed buffer).
    change (memset (repeat NUL 256) NUL Server.BUFSZ) with (zeroed (repeat NUL 256)).
    now rewrite Hz, (zeroed_fresh (repeat NUL 256)). }
  split.
  { destruct (session_iter_outcome fd buffer w) as (out & w' & Hiter & Hout).
    rewrite Hiter. simpl.
    destruct Hout as [-> | [-> | [(c & ->) | (c & d & _ & ->)]]]; discriminate. }
  split.
  { intros c b w' Hrun.
    destruct (w_reads w) as [|[e|d] rest] eqn:Hr.
    - unfold Server.session_iter, bind, sys_read in Hrun.
      rewrite Hr in Hrun. discriminate Hrun.
    - rewrite (session_iter_read_error fd buffer w e rest Hr) in Hrun.
      destruct (is_EINTR e); [|discriminate Hrun].
      injection Hrun as _ <- _. cbv zeta.
      split; [apply N.leb_le; reflexivity|].
      split; [exact Hz | now rewrite Hz].
    - destruct d as [|x d].
      + rewrite (session_iter_no_data fd buffer w rest Hr) in Hrun.
        injection Hrun as _ <- _. cbv zeta.
        split; [apply N.leb_le; reflexivity|].
        split; [exact Hz | now rewrite Hz].
      + destruct (Hdata (x :: d)) as (H1 & H2 & Hpad); [discriminate|].
        destruct (session_iter_shows fd buffer w (x :: d) rest Hr H1)
          as (out & w1 & t & Hiter & _ & _ & _ & Hout).
        rewrite Hiter in Hrun. cbv zeta.
        split; [lia|].
        assert (Hb : b = received buffer (take 255 (x :: d))).
        { destruct Hout as [-> | [(-> & _) | [(-> & _) | (-> & _)]]];
            try discriminate Hrun; now injection Hrun as _ <- _. }
        split; [now rewrite Hb, Hpad|].
        rewrite Hb, len_received by lia. lia. }
  intros d rest Hr Hne got kept.
  destruct (Hdata d Hne) as (H1 & H2 & Hpad). fold got in H2, Hpad. fold kept in Hpad.
  split.
  { rewrite <- Hpad. apply (session_iter_data fd buffer w d rest Hr H1). }
  rewrite <- Hpad. apply (session_iter_shows fd buffer w d rest Hr H1).
Qed.

Lemma receive_buffer_witness :
  let stale := lit "quit" ++ repeat LF 252 in
  let w := mkWorld [ReadData (lit "hi")] [WriteTakes 19] [] [] [] ENONE [] in
  len stale = 256%N /\
  Server.session_iter 4 stale w = Server.session_iter 4 (repeat NUL 256) w /\
  forall c b w', Server.session_iter 4 stale w = (Ret (c, b), w') ->
                 b = lit "hi" ++ repeat NUL 254.
Proof.
  intros stale w.
  assert (H : len stale = 256%N) by reflexivity.
  split; [exact H|].
  destruct (receive_buffer 4 stale w H) as (Hsame & _ & Hkept & _).
  split; [exact Hsame|].
  intros c b w' Hrun. exact (proj1 (proj2 (Hkept c b w' Hrun))).
Defined.

(** ** The accept loop *)


(** ** The reaper *)

Lemma filter_none (l : list positive) :
  filter (Server.among []) l = [].
Proof.
  induction l as [|x l IH]; [reflexivity|].
  cbn [filter]. change (Server.among [] x) with false. exact IH.
Qed.

Lemma filter_every (l : list positive) :
  filter (fun p => negb (Server.among [] p)) l = l.
Proof.
  induction l as [|x l IH]; [reflexivity|].
  cbn [filter]. change (Server.among [] x) with false. cbn [negb].
  now rewrite IH.
Qed.

Lemma finish_nobody (k : Server.children) :
  Server.finish [] k = k.
Proof.
  destruct k as [r f]. unfold Server.finish.
  cbn [Server.running Server.finished].
  now rewrite filter_every, filter_none, app_nil_r.
Qed.

Lemma finish_count (done : list positive) (k : Server.children) :
  (List.length (Server.running (Server.finish done k)) +
   List.length (Server.finished (Server.finish done k)) =
   List.length (Server.running k) + List.length (Server.finished k))%nat.
Proof.
  unfold Server.finish. simpl. rewrite length_app.
  assert (E := filter_length (Server.among done) (Server.running k)).
  lia.
Qed.

(** With more fuel than children the handler's loop returns; no child
    is left finished; the children finished at the start are among the
    reaped; those left running were running at the start. *)
Lemma reap_loop_run (fuel : nat) :
  forall (exits : list (list positive)) (k : Server.children),
    (List.length (Server.running k) + List.length (Server.finished k) < fuel)%nat ->
    exists (reaped : list positive) (k' : Server.children),
      Server.reap_loop fuel exits k = (Ret reaped, k') /\
      Server.finished k' = [] /\
      incl (Server.finished k) reaped /\
      incl (Server.running k') (Server.running k) /\
      incl reaped (Server.finished k ++ Server.running k).
Proof.
  induction fuel as [|fuel IH]; intros exits k Hfuel; [lia|].
  simpl. set (k1 := Server.finish (hd [] exits) k).
  assert (Hcount := finish_count (hd [] exits) k). fold k1 in Hcount.
  assert (Hfin : incl (Server.finished k) (Server.finished k1))
    by (unfold k1, Server.finish; simpl; apply incl_appl, incl_refl).
  assert (Hrun : incl (Server.running k1) (Server.running k))
    by (unfold k1, Server.finish; simpl; apply incl_filter).
  assert (Hall : incl (Server.finished k1) (Server.finished k ++ Server.running k)).
  { unfold k1, Server.finish; simpl. apply incl_app.
    - apply incl_appl, incl_refl.
    - apply incl_appr, incl_filter. }
  unfold Server.waitpid_any.
  destruct (Server.finished k1) as [|p rest] eqn:Hf.
  - exists [], k1.
    split.
    { destruct (Server.running k1); reflexivity. }
    split; [exact Hf|].
    split; [exact Hfin|].
    split; [exact Hrun|].
    apply incl_nil_l.
  - change (Z.pos p >? 0) with true. cbv iota.
    destruct (IH (tl exits) (Server.mkChildren (Server.running k1) rest))
      as (reaped & k' & Hloop & Hnone & Hin & Hleft & Hfrom).
    { simpl. simpl in Hcount. lia. }
    exists (p :: reaped), k'.
    rewrite Hloop. simpl in Hin, Hleft, Hfrom.
    split; [reflexivity|].
    split; [exact Hnone|].
    split.
    { intros x Hx. apply Hfin in Hx. destruct Hx as [-> | Hx];
        [now left | right; now apply Hin]. }
    split.
    { intros x Hx. apply Hrun, Hleft, Hx. }
    intros x [<- | Hx].
    + apply Hall. now left.
    + apply Hfrom in Hx. apply in_app_or in Hx as [Hx | Hx].
      * apply Hall. now right.
      * apply in_or_app. right. now apply Hrun.
Qed.

(** When no child finishes while the handler runs, it reaps exactly the
    children finished at the start and leaves the others running. *)
Lemma reap_loop_quiet (fuel : nat) :
  forall (r f : list positive),
    (List.length f < fuel)%nat ->
    Server.reap_loop fuel [] (Server.mkChildren r f) =
    (Ret f, Server.mkChildren r []).
Proof.
  induction fuel as [|fuel IH]; intros r f Hfuel; [lia|].
  simpl. rewrite finish_nobody. unfold Server.waitpid_any. simpl.
  destruct f as [|p f].
  - destruct r; reflexivity.
  - change (Z.pos p >? 0) with true. cbv iota.
    rewrite IH by (simpl in Hfuel; lia). reflexivity.
Qed.

(** C7.  One run of the SIGCHLD handler returns, whatever children are
    still running and however many have finished: it calls [waitpid]
    with WNOHANG until no finished child is left, every child that had
    finished when it started is reaped, and a child still running is
    left running; a [waitpid] without WNOHANG would wait in its place.
    When no child finishes during the run, the reaped are exactly the
    finished. *)
Theorem reaper_empties (signo : Z) (exits : list (list positive))
  (k : Server.children) :
  (exists (reaped : list positive) (k' : Server.children),
     Server.reap_children signo exits k = (Ret reaped, k') /\
     Server.finished k' = [] /\
     incl (Server.finished k) reaped /\
     incl (Server.running k') (Server.running k) /\
     incl reaped (Server.finished k ++ Server.running k)) /\
  Server.reap_children signo [] k =
    (Ret (Server.finished k), Server.mkChildren (Server.running k) []) /\
  (forall p ps, Server.waitpid_any true (Server.mkChildren (p :: ps) []) =
                  (Ret 0, Server.mkChildren (p :: ps) []) /\
                Server.waitpid_any false (Server.mkChildren (p :: ps) []) =
                  (Pending, Server.mkChildren (p :: ps) [])).
Proof.
  split; [apply reap_loop_run; lia|].
  split; [|intros; split; reflexivity].
  destruct k as [r f]. unfold Server.reap_children.
  apply reap_loop_quiet. simpl. lia.
Qed.

(** ** The client *)

Lemma client_loop_step (fuel : nat) (sockfd : Z) (buffer reply : list ascii)
  (w w' : world) (out : outcome (ctl * (list ascii * list ascii))) :
  Client.client_iter sockfd buffer reply w = (out, w') ->
  Client.client_loop (S fuel) sockfd buffer reply w =
  match out with
  | Ret (Continue, (b, r)) => Client.client_loop fuel sockfd b r w'
  | Ret (Break, _) => (Ret tt, w')
  | Exit st => (Exit st, w')
  | Pending => (Pending, w')
  | Fault => (Fault, w')
  end.
Proof.
  intro H. simpl. unfold bind. rewrite H.
  destruct out as [[[|] [b r]]| | |]; reflexivity.
Qed.

(** What [recv_some] returns: -1 with the array untouched, or the number
    of bytes stored at the front of the array, at most [cap]. *)
Lemma recv_loop_run (fuel : nat) :
  forall (fd : Z) (buf : list ascii) (cap : N) (w w' : world)
         (n : Z) (b : list ascii),
    Client.recv_loop fuel fd buf cap w = (Ret (n, b), w') ->
    (n = -1 /\ b = buf) \/
    (exists d, n = Z.of_N (len (take cap d)) /\
               b = take cap d ++ drop (len (take cap d)) buf).
Proof.
  induction fuel as [|fuel IH]; intros fd buf cap w w' n b H; [discriminate H|].
  simpl in H. unfold bind at 1 in H. unfold sys_read in H.
  destruct (w_reads w) as [|[e|d] rest]; [discriminate H| |].
  - cbv zeta beta iota in H. unfold bind at 1 in H. unfold get_errno in H.
    cbn [w_errno set_errno] in H.
    change (-1 <? 0) with true in H. cbn [andb] in H.
    destruct (is_EINTR e).
    + apply IH in H. exact H.
    + injection H as <- <- _. now left.
  - cbv zeta beta iota in H. unfold bind at 1 in H. unfold get_errno in H.
    replace (Z.of_N (len (take cap d)) <? 0) with false in H
      by (symmetry; apply Z.ltb_ge; lia).
    cbn [andb] in H. injection H as <- <- _. right. now exists d.
Qed.

Lemma cstr_typed (a l : list ascii) : cstr (typed a l) = cstr (take 254 l).
Proof. apply cstr_cut. Qed.

(** C6.  A turn of the client's loop that has read an input line and
    sent it.  With a reply of [n > 0] bytes the reply is printed, and the
    turn ends with Break when the client's classifier takes the input
    line for a termination command and with Continue when it does not,
    whatever the reply holds; on Break the client closes the connection
    and [main] returns 0, on Continue the loop makes its next turn.
    With a reply of 0 bytes the notice is printed and the turn ends with
    Break, the classifier not being asked. *)
Theorem client_turn (sockfd : Z) (buffer reply : list ascii) (w : world)
  (l : list ascii) (srest : list fgets_answer)
  (z : Z) (w1 : world) (n : Z) (got : list ascii) (w2 : world) :
  w_stdin w = FgetsLine l :: srest ->
  let input := typed buffer l in
  let w0 := log (Fgets 255 (FgetsLine l))
                (set_stdin srest (log (Printf Client.fmt_prompt []) w)) in
  Client.send_all sockfd input (strlen input) w0 = (Ret z, w1) ->
  0 <= z ->
  Client.recv_some sockfd (zeroed reply) 255 w1 = (Ret (n, got), w2) ->
  0 <= n ->
  (forall ws, Client.converse sockfd buffer reply ws =
              client_then_exit (S (List.length (w_stdin ws))) sockfd buffer reply ws) /\
  Client.is_quit_cmd input = Client.is_quit_cmd (take 254 l) /\
  (n = 0 ->
   Client.client_iter sockfd buffer reply w =
     (Ret (Break, (input, got)), log (Printf Client.fmt_closed []) w2) /\
   forall fuel, client_then_exit (S fuel) sockfd buffer reply w =
     (Ret 0, log_all [Printf Client.fmt_closed []; Close sockfd] w2)) /\
  (0 < n ->
   exists text,
     (1 <= len text <= 255)%N /\ n = Z.of_N (len text) /\
     got = filled reply text /\
     let w3 := log_all (Printf Client.fmt_s (cstr text)
                          :: newline_unless_last Client.fmt_nl text) w2 in
     Client.client_iter sockfd buffer reply w =
       (Ret (if Client.is_quit_cmd input then Break else Continue,
             (input, received reply text)), w3) /\
     forall fuel,
       (Client.is_quit_cmd input = true ->
        client_then_exit (S fuel) sockfd buffer reply w =
          (Ret 0, log (Close sockfd) w3)) /\
       (Client.is_quit_cmd input = false ->
        Client.client_loop (S fuel) sockfd buffer reply w =
          Client.client_loop fuel sockfd input (received reply text) w3)).
Proof.
  intros Hin input w0 Hsend Hz Hrecv Hn.
  assert (Hquit : Client.is_quit_cmd input = Client.is_quit_cmd (take 254 l)).
  { rewrite !client_is_quit_cmd_classify. apply classify_cstr, cstr_typed. }
  assert (Hhead : Client.client_iter sockfd buffer reply w =
    (if n =? 0 then
       bind (printf Client.fmt_closed []) (fun _ => ret (Break, (input, got)))
     else
       bind (store got n NUL) (fun reply' =>
       bind (printf Client.fmt_s (cstr reply')) (fun _ =>
       bind (load reply' (n - 1)) (fun last =>
       bind (if (last =? LF)%char then ret tt else printf Client.fmt_nl []) (fun _ =>
       if Client.is_quit_cmd input then ret (Break, (input, reply'))
       else ret (Continue, (input, reply'))))))) w2).
  { unfold Client.client_iter. rewrite bind_printf.
    unfold bind at 1. unfold sys_fgets.
    replace (w_stdin (log (Printf Client.fmt_prompt []) w)) with (w_stdin w)
      by now destruct w.
    rewrite Hin. cbv beta iota zeta.
    change (memset buffer NUL Client.BUFSZ) with (zeroed buffer).
    change (Z.to_N (Z.of_N Client.BUFSZ - 1 - 1)) with 254%N.
    fold (typed buffer l). fold input.
    change (Z.of_N Client.BUFSZ - 1) with 255. fold w0.
    unfold bind at 1. rewrite Hsend.
    replace (z <? 0) with false by (symmetry; apply Z.ltb_ge; lia).
    change (memset reply NUL Client.BUFSZ) with (zeroed reply).
    change (Client.BUFSZ - 1)%N with 255%N.
    unfold bind at 1. rewrite Hrecv.
    replace (n <? 0) with false by (symmetry; apply Z.ltb_ge; lia).
    reflexivity. }
  split; [reflexivity|].
  split; [exact Hquit|].
  split.
  - intros ->. change (0 =? 0) with true in Hhead. cbv iota in Hhead.
    rewrite bind_printf in Hhead.
    split; [exact Hhead|].
    intro fuel. unfold client_then_exit, bind.
    now rewrite (client_loop_step fuel _ _ _ _ _ _ Hhead).
  - intro Hpos.
    replace (n =? 0) with false in Hhead by (symmetry; apply Z.eqb_neq; lia).
    unfold Client.recv_some in Hrecv.
    apply recv_loop_run in Hrecv.
    destruct Hrecv as [[Hneg _] | (d & -> & ->)]; [lia|].
    set (text := take 255 d) in *.
    assert (Htext : (1 <= len text <= 255)%N)
      by (split; [lia | unfold text; rewrite len_take; lia]).
    exists text.
    split; [exact Htext|]. split; [reflexivity|]. split; [reflexivity|].
    fold (filled reply text) in Hhead.
    unfold bind at 1 in Hhead. rewrite store_filled in Hhead by lia.
    rewrite bind_printf in Hhead.
    unfold bind at 1 in Hhead. rewrite load_received in Hhead by lia.
    rewrite cstr_received in Hhead.
    cbv zeta.
    assert (Hiter : Client.client_iter sockfd buffer reply w =
      (Ret (if Client.is_quit_cmd input then Break else Continue,
            (input, received reply text)),
       log_all (Printf Client.fmt_s (cstr text)
                  :: newline_unless_last Client.fmt_nl text) w2)).
    { rewrite Hhead. unfold newline_unless_last.
      destruct (last text NUL =? LF)%char;
        [rewrite bind_ret | rewrite bind_printf];
        destruct (Client.is_quit_cmd input); reflexivity. }
    split; [exact Hiter|].
    intro fuel. split; intro Hq; rewrite Hq in Hiter.
    + unfold client_then_exit, bind.
      now rewrite (client_loop_step fuel _ _ _ _ _ _ Hiter).
    + now rewrite (client_loop_step fuel _ _ _ _ _ _ Hiter).
Qed.

Lemma client_turn_witness :
  let l := lit "quit" ++ [LF] in
  let w := mkWorld [ReadData (lit "Bye." ++ [LF])] [WriteTakes 5] [] []
                   [FgetsLine l] ENONE [] in
  w_stdin w = FgetsLine l :: [] /\
  Client.is_quit_cmd (typed [] l) = Client.is_quit_cmd (take 254 l).
Proof.
  intros l w. split; [reflexivity|].
  refine (proj1 (proj2 (client_turn 3 [] [] w l [] 0 _ 5 _ _ eq_refl _ _ _ _))).
  - reflexivity.
  - lia.
  - reflexivity.
  - lia.
Defined.

(** * Further properties of the code *)

(** ** [send_all] over an endpoint that takes bytes *)

Lemma send_loop_done (fuel : nat) (fd : Z) (buf : list ascii) (len sent : N)
  (w : world) :
  (len <= sent)%N -> Server.send_loop fuel fd buf len sent w = (Ret 0, w).
Proof.
  intro H. apply N.ltb_ge in H. destruct fuel; simpl; now rewrite H.
Qed.

Lemma send_loop_progress (fd : Z) (buf : list ascii) (len : N)
  (ks : list N) :
  forall (more : list write_answer) (sent : N) (w : world),
    w_writes w = map WriteTakes ks ++ more ->
    Forall (fun k => (1 <= k)%N) ks ->
    (sent <= len)%N -> (len < SIZE_MOD)%N ->
    (len - sent <= N.of_nat (List.length ks))%N ->
    exists (t : list call) (e : errno),
      Server.send_loop (List.length (w_writes w)) fd buf len sent w =
        (Ret 0, after_writes w t e) /\
      Forall (write_on fd) t /\
      wire fd t = take (len - sent) (drop sent buf) /\
      (N.of_nat (List.length t) <= len - sent)%N /\
      existsb hard_error t = false /\ existsb no_progress t = false.
Proof.
  induction ks as [|k ks IH]; intros more sent w Hw Hks Hle Hlen Hroom.
  - simpl in Hroom. exists [], (w_errno w).
    rewrite send_loop_done by lia. rewrite after_writes_nil.
    replace (len - sent)%N with 0%N by lia.
    repeat split; auto. simpl. lia.
  - destruct (N.eq_dec sent len) as [->|Hne].
    { exists [], (w_errno w).
      rewrite send_loop_done by lia. rewrite after_writes_nil, N.sub_diag.
      repeat split; auto. simpl. lia. }
    inversion Hks as [|? ? Hk Hks']; subst.
    simpl in Hw. rewrite Hw. simpl List.length. simpl Server.send_loop.
    replace (sent <? len)%N with true by (symmetry; apply N.ltb_lt; lia).
    rewrite (size_sub_small len sent) by lia.
    unfold bind at 1. unfold sys_write. rewrite Hw.
    set (c := Write fd (take (len - sent) (drop sent buf)) (WriteTakes k)).
    replace (Z.of_N (N.min k (len - sent)) <? 0) with false
      by (symmetry; apply Z.ltb_ge; lia).
    replace (Z.of_N (N.min k (len - sent)) =? 0) with false
      by (symmetry; apply Z.eqb_neq; lia).
    rewrite N2Z.id. rewrite (size_add_small sent) by lia.
    set (w1 := log c (set_writes (map WriteTakes ks ++ more) w)).
    assert (Hw1 : w_writes w1 = map WriteTakes ks ++ more) by (destruct w; reflexivity).
    destruct (IH more (sent + N.min k (len - sent))%N w1 Hw1 Hks')
      as (t & e & Hrun & Hall & Hwire & Hcount & Hh & Hp); try lia.
    { simpl List.length in Hroom. lia. }
    rewrite Hw1 in Hrun.
    exists (c :: t), e.
    rewrite Hrun. unfold w1.
    rewrite (after_writes_step' w _ _ c e t Hw).
    split; [reflexivity|].
    split; [constructor; [now exists (take (len - sent) (drop sent buf)), (WriteTakes k) | exact Hall]|].
    split.
    { change (wire fd (c :: t)) with (delivered fd c ++ wire fd t).
      rewrite Hwire. unfold c, delivered. rewrite Z.eqb_refl.
      rewrite take_take, <- drop_drop, take_add. f_equal. lia. }
    split; [simpl List.length; lia|].
    simpl existsb. rewrite Hh, Hp.
    replace (k =? 0)%N with false by (symmetry; apply N.eqb_neq; lia).
    split; reflexivity.
Qed.

(** X1.  Over an endpoint of which every write takes at least one byte,
    [send_all] with at least [len] answers to come returns 0 after at
    most [len] writes, with the first [len] bytes of the sequence on the
    endpoint, in order. *)
Theorem send_all_makes_progress (fd : Z) (buf : list ascii) (len : N)
  (ks : list N) (more : list write_answer) (w : world) :
  w_writes w = map WriteTakes ks ++ more ->
  Forall (fun k => (1 <= k)%N) ks ->
  (len <= N.of_nat (List.length ks))%N ->
  (len < SIZE_MOD)%N ->
  exists (t : list call) (e : errno),
    Server.send_all fd buf len w = (Ret 0, after_writes w t e) /\
    Client.send_all fd buf len w = (Ret 0, after_writes w t e) /\
    Forall (write_on fd) t /\
    wire fd t = take len buf /\
    (N.of_nat (List.length t) <= len)%N.
Proof.
  intros Hw Hks Hroom Hlen.
  destruct (send_loop_progress fd buf len ks more 0 w Hw Hks)
    as (t & e & Hrun & Hall & Hwire & Hcount & _); try lia.
  exists t, e.
  rewrite N.sub_0_r, drop_zero in Hwire. rewrite N.sub_0_r in Hcount.
  repeat split; assumption.
Qed.

Lemma send_all_makes_progress_witness :
  let w := mkWorld [] (map WriteTakes [2; 1; 7; 1; 1]%N) [] [] [] ENONE [] in
  w_writes w = map WriteTakes [2; 1; 7; 1; 1]%N ++ [] /\
  exists (t : list call) (e : errno),
    Server.send_all 4 Server.bye 5 w = (Ret 0, after_writes w t e) /\
    wire 4 t = take 5 Server.bye.
Proof.
  intro w.
  assert (H1 : w_writes w = map WriteTakes [2; 1; 7; 1; 1]%N ++ []) by reflexivity.
  assert (H2 : Forall (fun k => (1 <= k)%N) [2; 1; 7; 1; 1]%N)
    by (repeat constructor; discriminate).
  assert (H3 : (5 <= N.of_nat (List.length [2; 1; 7; 1; 1]%N))%N) by discriminate.
  assert (H4 : (5 < SIZE_MOD)%N) by reflexivity.
  split; [exact H1|].
  destruct (send_all_makes_progress 4 Server.bye 5 _ [] w H1 H2 H3 H4)
    as (t & e & Hrun & _ & _ & Hwire & _).
  now exists t, e.
Defined.

(** ** [recv_some] *)

Lemma recv_loop_skips (k : nat) :
  forall (fd : Z) (buf : list ascii) (cap : N) (fuel : nat) (w : world)
         (rest : list read_answer),
    w_reads w = repeat (ReadErr EINTR) k ++ rest ->
    Client.recv_loop (k + fuel) fd buf cap w =
    Client.recv_loop fuel fd buf cap (interrupted_reads k fd cap w).
Proof.
  induction k as [|k IH]; intros fd buf cap fuel w rest Hw; [reflexivity|].
  simpl in Hw. simpl plus. simpl Client.recv_loop.
  unfold bind at 1. unfold sys_read. rewrite Hw. cbv beta iota zeta.
  unfold bind at 1. unfold get_errno. cbn [w_errno set_errno].
  change ((-1 <? 0) && is_EINTR EINTR) with true. cbv iota.
  simpl interrupted_reads. unfold interrupted_read. rewrite Hw. cbn [tl].
  apply (IH fd buf cap fuel _ rest). destruct w; reflexivity.
Qed.

Lemma reads_after_interrupted (k : nat) :
  forall (fd : Z) (cap : N) (w : world) (rest : list read_answer),
    w_reads w = repeat (ReadErr EINTR) k ++ rest ->
    w_reads (interrupted_reads k fd cap w) = rest.
Proof.
  induction k as [|k IH]; intros fd cap w rest Hw; [exact Hw|].
  simpl. apply IH. unfold interrupted_read. rewrite Hw. now destruct w.
Qed.

Lemma recv_loop_returns (fuel : nat) (fd : Z) (buf : list ascii) (cap : N)
  (w : world) :
  fuel = List.length (w_reads w) ->
  not_interrupted (w_reads w) ->
  Client.recv_loop fuel fd buf cap w = sys_read fd buf cap w.
Proof.
  intros Hfuel Hni. unfold sys_read.
  destruct (w_reads w) as [|[e|d] rest] eqn:Hw; subst fuel.
  - reflexivity.
  - simpl. unfold bind at 1. unfold sys_read. rewrite Hw. cbv beta iota zeta.
    unfold bind at 1. unfold get_errno. cbn [w_errno set_errno].
    simpl in Hni. rewrite Hni. rewrite andb_false_r. reflexivity.
  - simpl. unfold bind at 1. unfold sys_read. rewrite Hw. cbv beta iota zeta.
    unfold bind at 1. unfold get_errno.
    replace (Z.of_N (len (take cap d)) <? 0) with false
      by (symmetry; apply Z.ltb_ge; lia).
    reflexivity.
Qed.

(** What [recv_some] can return, with the [errno] it leaves. *)
Lemma recv_loop_result (fuel : nat) :
  forall (fd : Z) (buf : list ascii) (cap : N) (w w' : world)
         (n : Z) (b : list ascii),
    Client.recv_loop fuel fd buf cap w = (Ret (n, b), w') ->
    (n = -1 /\ b = buf /\ is_EINTR (w_errno w') = false) \/
    (exists d, n = Z.of_N (len (take cap d)) /\
               b = take cap d ++ drop (len (take cap d)) buf).
Proof.
  induction fuel as [|fuel IH]; intros fd buf cap w w' n b H; [discriminate H|].
  simpl in H. unfold bind at 1 in H. unfold sys_read in H.
  destruct (w_reads w) as [|[e|d] rest]; [discriminate H| |].
  - cbv zeta beta iota in H. unfold bind at 1 in H. unfold get_errno in H.
    cbn [w_errno set_errno] in H.
    change (-1 <? 0) with true in H. cbn [andb] in H.
    destruct (is_EINTR e) eqn:He.
    + apply IH in H. exact H.
    + injection H as <- <- <-. left. repeat split. exact He.
  - cbv zeta beta iota in H. unfold bind at 1 in H. unfold get_errno in H.
    replace (Z.of_N (len (take cap d)) <? 0) with false in H
      by (symmetry; apply Z.ltb_ge; lia).
    cbn [andb] in H. injection H as <- <- _. right. now exists d.
Qed.

(** X2.  [recv_some] makes its [read] again as long as EINTR interrupts
    it, and returns what the first other answer gives: after [k]
    interrupted reads it is the one [read] that follows them.  When it
    returns -1 the array is untouched and [errno] is not EINTR; otherwise
    it returns the number of bytes stored, at most [cap], and the array
    has kept its length. *)
Theorem recv_some_retries (fd : Z) (buf : list ascii) (cap : N) (w : world)
  (k : nat) (rest : list read_answer) :
  w_reads w = repeat (ReadErr EINTR) k ++ rest ->
  not_interrupted rest ->
  Client.recv_some fd buf cap w =
    sys_read fd buf cap (interrupted_reads k fd cap w) /\
  forall n b w', Client.recv_some fd buf cap w = (Ret (n, b), w') ->
    (n = -1 /\ b = buf /\ is_EINTR (w_errno w') = false) \/
    (exists d, n = Z.of_N (len (take cap d)) /\
               b = take cap d ++ drop (len (take cap d)) buf /\
               0 <= n <= Z.of_N cap /\
               ((cap <= len buf)%N -> len b = len buf)).
Proof.
  intros Hw Hni. split.
  - unfold Client.recv_some. rewrite Hw, length_app, repeat_length.
    rewrite (recv_loop_skips k fd buf cap _ w rest Hw).
    apply recv_loop_returns.
    + now rewrite (reads_after_interrupted k fd cap w rest Hw).
    + now rewrite (reads_after_interrupted k fd cap w rest Hw).
  - intros n b w' H. unfold Client.recv_some in H.
    apply recv_loop_result in H.
    destruct H as [H | (d & -> & ->)]; [now left | right].
    assert (Hl : (len (take cap d) <= cap)%N) by (rewrite len_take; lia).
    exists d. split; [reflexivity|]. split; [reflexivity|].
    split; [lia|].
    intro Hcap. rewrite len_app, len_drop. lia.
Qed.

Lemma recv_some_retries_witness :
  let w := mkWorld [ReadErr EINTR; ReadErr EINTR; ReadData (lit "Bye."); ReadErr EIO]
                   [] [] [] [] ENONE [] in
  w_reads w = repeat (ReadErr EINTR) 2 ++ [ReadData (lit "Bye."); ReadErr EIO] /\
  not_interrupted [ReadData (lit "Bye."); ReadErr EIO] /\
  Client.recv_some 3 (repeat NUL 8) 7 w =
    sys_read 3 (repeat NUL 8) 7 (interrupted_reads 2 3 7 w).
Proof.
  intro w.
  assert (H1 : w_reads w = repeat (ReadErr EINTR) 2 ++
                           [ReadData (lit "Bye."); ReadErr EIO]) by reflexivity.
  assert (H2 : not_interrupted [ReadData (lit "Bye."); ReadErr EIO]) by exact I.
  split; [exact H1|]. split; [exact H2|].
  exact (proj1 (recv_some_retries 3 (repeat NUL 8) 7 w 2 _ H1 H2)).
Defined.

(** ** A failed [read] in the session loop *)

(** X3.  A turn of the session loop whose [read] fails.  After EINTR the
    turn ends with Continue, nothing printed and nothing written, and the
    loop makes its next turn over the zeroed array.  After any other
    error the process reports "ERROR reading from socket" and exits with
    status 1, with nothing written and the connection not closed. *)
Theorem session_read_fails (fd : Z) (buffer : list ascii) (w : world)
  (e : errno) (rest : list read_answer) :
  w_reads w = ReadErr e :: rest ->
  let w1 := set_errno e (log (Read fd 255 (ReadErr e)) (set_reads rest w)) in
  (is_EINTR e = true ->
   Server.session_iter fd buffer w = (Ret (Continue, zeroed buffer), w1) /\
   forall fuel, Server.session_loop (S fuel) fd buffer w =
                Server.session_loop fuel fd (zeroed buffer) w1) /\
  (is_EINTR e = false ->
   let w2 := log (Perror "ERROR reading from socket" e) w1 in
   Server.session_iter fd buffer w = (Exit 1, w2) /\
   (forall fuel, session_then_exit (S fuel) fd buffer w = (Exit 1, w2)) /\
   wire fd (w_trace w2) = wire fd (w_trace w) /\
   forall held, holds fd held (w_trace w2) = holds fd held (w_trace w)).
Proof.
  intros Hr w1.
  assert (Hhead := session_iter_read_error fd buffer w e rest Hr). fold w1 in Hhead.
  split; intro He; rewrite He in Hhead.
  - split; [exact Hhead|].
    intro fuel. now rewrite (session_loop_step fuel _ _ _ _ _ Hhead).
  - cbv zeta. split; [exact Hhead|].
    split.
    { intro fuel. unfold session_then_exit, bind.
      now rewrite (session_loop_step fuel _ _ _ _ _ Hhead). }
    unfold w1. autorewrite with trace.
    split.
    + change (wire fd [Read fd 255 (ReadErr e)]) with (@nil ascii).
      change (wire fd [Perror "ERROR reading from socket" e]) with (@nil ascii).
      now rewrite !app_nil_r.
    + intro held. now rewrite !holds_app.
Qed.

Lemma session_read_fails_witness :
  let w := mkWorld [ReadErr ECONNRESET] [] [] [] [] ENONE [] in
  w_reads w = ReadErr ECONNRESET :: [] /\
  session_then_exit 1 4 [] w =
    (Exit 1, log (Perror "ERROR reading from socket" ECONNRESET)
               (set_errno ECONNRESET
                  (log (Read 4 255 (ReadErr ECONNRESET)) (set_reads [] w)))).
Proof.
  intro w.
  assert (H1 : w_reads w = ReadErr ECONNRESET :: []) by reflexivity.
  split; [exact H1|].
  destruct (session_read_fails 4 [] w ECONNRESET [] H1) as (_ & Hhard).
  destruct (Hhard eq_refl) as (_ & Hexit & _).
  apply (Hexit O).
Defined.

(** ** What a session does and what it puts on the connection *)

Lemma session_call_newline (fd : Z) (nl d : list ascii) :
  forallb (session_call fd) (newline_unless_last nl d) = true.
Proof. unfold newline_unless_last. now destruct (last d NUL =? LF)%char. Qed.

Lemma session_call_writes (fd : Z) (t : list call) :
  Forall (write_on fd) t -> forallb (session_call fd) t = true.
Proof.
  induction 1 as [|c t (b & a & ->) _ IH]; [reflexivity|].
  simpl. now rewrite Z.eqb_refl.
Qed.

Lemma session_call_wire (fd : Z) (t : list call) :
  forallb (session_call fd) t = true -> forall held, holds fd held t = held.
Proof.
  induction t as [|c t IH]; intros H held; [reflexivity|].
  simpl in H. apply andb_true_iff in H as [Hc Ht].
  change (holds fd held (c :: t)) with (holds fd (holds_after fd c held) t).
  rewrite IH by exact Ht. now destruct c.
Qed.

Ltac turn_trace H :=
  cbv beta iota delta [Server.die bind printf perror exit ret] in H;
  eexists; eexists; eexists;
  split; [exact H|];
  split; [autorewrite with trace; rewrite <- ?app_assoc; reflexivity|].

(** One turn: its calls are session calls; the bytes they put on the
    connection are a prefix of the acknowledgement, after which the turn
    does not end with Break, or a prefix of the farewell, after which it
    does not end with Continue. *)
Lemma session_turn (fd : Z) (buffer : list ascii) (w : world) :
  exists (out : outcome (ctl * list ascii)) (w' : world) (t : list call),
    Server.session_iter fd buffer w = (out, w') /\
    w_trace w' = w_trace w ++ t /\
    forallb (session_call fd) t = true /\
    exists m,
      (wire fd t = take m Server.reply /\
       (out = Pending \/ out = Exit 1 \/ exists b, out = Ret (Continue, b))) \/
      (wire fd t = take m Server.bye /\
       (out = Pending \/ exists b, out = Ret (Break, b))).
Proof.
  destruct (w_reads w) as [|[e|d] rest] eqn:Hr.
  - exists Pending, w, []. split.
    + unfold Server.session_iter, bind, sys_read. now rewrite Hr.
    + split; [now rewrite app_nil_r|]. split; [reflexivity|].
      exists 0%N. left. split; [reflexivity | now left].
  - assert (Hiter := session_iter_read_error fd buffer w e rest Hr).
    destruct (is_EINTR e) eqn:He; turn_trace Hiter.
    + split; [simpl; now rewrite Z.eqb_refl|].
      exists 0%N. left. split; [reflexivity | right; right; now eexists].
    + split; [simpl; now rewrite Z.eqb_refl|].
      exists 0%N. left. split; [reflexivity | right; now left].
  - destruct (N.eq_dec (len d) 0) as [Hz|Hnz].
    + assert (d = []) by (destruct d; [reflexivity | discriminate Hz]). subst d.
      assert (Hiter := session_iter_no_data fd buffer w rest Hr).
      turn_trace Hiter.
      split; [simpl; now rewrite Z.eqb_refl|].
      exists 0%N. right. split; [reflexivity | right; now eexists].
    + assert (Hd : (1 <= len d)%N) by lia.
      assert (Hiter := session_iter_data fd buffer w d rest Hr Hd).
      cbv zeta in Hiter.
      set (got := take 255 d) in *.
      set (cs := Read fd 255 (ReadData d) :: Printf Server.fmt_msg (cstr got)
                   :: newline_unless_last Server.fmt_nl got) in Hiter.
      assert (Hcs : forallb (session_call fd) cs = true)
        by (unfold cs; simpl; now rewrite Z.eqb_refl, session_call_newline).
      assert (Hq : wire fd cs = []) by apply wire_read_log.
      set (w0 := log_all cs _) in Hiter.
      destruct (Server.is_quit_cmd got).
      * change (strlen Server.bye) with 5%N in Hiter.
        destruct (send_all_run fd Server.bye 5 w0)
          as (t & m & r & e & Hrun & Hall & _ & Hwire & Hv); [reflexivity|].
        apply session_call_writes in Hall.
        unfold bind in Hiter. rewrite Hrun in Hiter.
        destruct Hv as [(_ & _ & -> & _) | [(_ & _ & -> & _) |
                       [(_ & _ & -> & _) | (_ & _ & -> & _)]]];
          unfold w0 in Hiter; turn_trace Hiter;
          (split; [rewrite !forallb_app, Hcs, Hall; reflexivity|]);
          exists m; right; rewrite !wire_app, Hq, Hwire;
          cbn [wire flat_map delivered app]; rewrite ?app_nil_r;
          (split; [reflexivity|]); try (now left); right; now eexists.
      * change (strlen Server.reply) with 19%N in Hiter.
        destruct (send_all_run fd Server.reply 19 w0)
          as (t & m & r & e & Hrun & Hall & _ & Hwire & Hv); [reflexivity|].
        apply session_call_writes in Hall.
        unfold bind in Hiter. rewrite Hrun in Hiter.
        destruct Hv as [(_ & _ & -> & _) | [(_ & _ & -> & _) |
                       [(_ & _ & -> & _) | (_ & _ & -> & _)]]];
          unfold w0 in Hiter; turn_trace Hiter;
          (split; [rewrite !forallb_app, Hcs, Hall; reflexivity|]);
          exists m; left; rewrite !wire_app, Hq, Hwire;
          cbn [wire flat_map delivered app]; rewrite ?app_nil_r;
          (split; [reflexivity|]); try (now left); try (right; now left);
          right; right; now eexists.
Qed.

(** Any number of turns: session calls only; on the connection,
    acknowledgements, whole or cut short, then at most one farewell,
    whole or cut short. *)
Lemma session_loop_run (fuel : nat) :
  forall (fd : Z) (buffer : list ascii) (w : world),
  exists (out : outcome unit) (w' : world) (t : list call)
         (acks : list (list ascii)) (last : list ascii),
    Server.session_loop fuel fd buffer w = (out, w') /\
    w_trace w' = w_trace w ++ t /\
    forallb (session_call fd) t = true /\
    wire fd t = List.concat acks ++ last /\
    Forall (fun a => exists m, a = take m Server.reply) acks /\
    (exists m, last = take m Server.bye) /\
    (out = Ret tt \/ out = Exit 1 \/ out = Pending).
Proof.
  induction fuel as [|fuel IH]; intros fd buffer w.
  - exists Pending, w, [], [], []. simpl.
    repeat split; auto.
    + now rewrite app_nil_r.
    + now exists 0%N.
  - destruct (session_turn fd buffer w)
      as (out & w1 & t1 & Hiter & Ht1 & Hc1 & m & Hcases).
    rewrite (session_loop_step fuel _ _ _ _ _ Hiter).
    destruct Hcases as [(Hwire & [-> | [-> | (b & ->)]]) | (Hwire & [-> | (b & ->)])].
    + exists Pending, w1, t1, [take m Server.reply], [].
      simpl. rewrite !app_nil_r.
      repeat split; auto.
      * constructor; [now exists m | constructor].
      * now exists 0%N.
    + exists (Exit 1), w1, t1, [take m Server.reply], [].
      simpl. rewrite !app_nil_r.
      repeat split; auto.
      * constructor; [now exists m | constructor].
      * now exists 0%N.
    + destruct (IH fd b w1)
        as (out & w' & t & acks & last & Hloop & Ht & Hc & Hw & Hacks & Hlast & Hout).
      exists out, w', (t1 ++ t), (take m Server.reply :: acks), last.
      split; [exact Hloop|].
      split; [now rewrite Ht, Ht1, app_assoc|].
      split; [now rewrite forallb_app, Hc1, Hc|].
      split; [rewrite wire_app, Hwire, Hw; simpl; now rewrite app_assoc|].
      split; [constructor; [now exists m | exact Hacks]|].
      split; assumption.
    + exists Pending, w1, t1, [], (take m Server.bye).
      simpl. repeat split; auto. now exists m.
    + exists (Ret tt), w1, t1, [], (take m Server.bye).
      simpl. repeat split; auto. now exists m.
Qed.

Lemma child_run (sockfd fd : Z) (buffer : list ascii) (w : world) :
  exists (out : outcome ctl) (w' : world) (t : list call)
         (acks : list (list ascii)) (last : list ascii),
    Server.child sockfd fd buffer w = (out, w') /\
    forallb (session_call fd) t = true /\
    wire fd t = List.concat acks ++ last /\
    Forall (fun a => exists m, a = take m Server.reply) acks /\
    (exists m, last = take m Server.bye) /\
    ((out = Exit 0 /\ w_trace w' = w_trace w ++ Close sockfd :: t ++ [Close fd]) \/
     ((out = Exit 1 \/ out = Pending) /\
      w_trace w' = w_trace w ++ Close sockfd :: t)).
Proof.
  rewrite child_is_session_then_exit.
  set (w0 := log_all _ w).
  destruct (session_loop_run (List.length (w_reads w)) fd buffer w0)
    as (out & w' & t & acks & last & Hloop & Ht & Hc & Hw & Hacks & Hlast & Hout).
  assert (Ht0 : w_trace w' =
                w_trace w ++ Close sockfd :: (Printf Server.fmt_connected [] :: t)).
  { rewrite Ht. unfold w0. autorewrite with trace. now rewrite <- app_assoc. }
  unfold session_then_exit, bind. rewrite Hloop.
  destruct Hout as [-> | [-> | ->]].
  - exists (Exit 0), (log (Close fd) w'), (Printf Server.fmt_connected [] :: t),
      acks, last.
    split; [reflexivity|].
    repeat split; auto. left. split; [reflexivity|].
    rewrite trace_log, Ht0. now rewrite <- app_assoc.
  - exists (Exit 1), w', (Printf Server.fmt_connected [] :: t), acks, last.
    repeat split; auto.
  - exists Pending, w', (Printf Server.fmt_connected [] :: t), acks, last.
    repeat split; auto.
Qed.

(** X4.  Whatever the peer sends and however the writes go, all that a
    child puts on its connection is acknowledgements, each whole or cut
    short, followed by at most one farewell, whole or cut short: never a
    byte of what it received. *)
Theorem child_only_acknowledges (sockfd fd : Z) (buffer : list ascii) (w : world) :
  exists (acks : list (list ascii)) (last : list ascii),
    wire fd (w_trace (snd (Server.child sockfd fd buffer w))) =
      wire fd (w_trace w) ++ List.concat acks ++ last /\
    Forall (fun a => exists m, a = take m (lit "I got your message" ++ [LF])) acks /\
    (exists m, last = take m (lit "Bye." ++ [LF])).
Proof.
  destruct (child_run sockfd fd buffer w)
    as (out & w' & t & acks & last & Hrun & _ & Hw & Hacks & Hlast & Hend).
  exists acks, last. rewrite Hrun. cbn [snd].
  split; [|split; assumption].
  destruct Hend as [(_ & ->) | (_ & ->)]; rewrite wire_app;
    change (wire fd (Close sockfd :: ?x)) with (wire fd x);
    rewrite ?wire_app, Hw; cbn [wire flat_map delivered app];
    now rewrite ?app_nil_r.
Qed.

(** X5.  The branch of [main] that [fork] enters in the child never
    comes back to the accept loop: it exits with status 0 or 1, unless a
    call has not returned.  It closes the listening socket first; after
    that it only reads and writes its own connection, prints and
    reports; and when it exits with status 0 its last call closes the
    connection. *)
Theorem child_never_returns (sockfd fd : Z) (buffer : list ascii) (w : world) :
  exists (out : outcome ctl) (w' : world) (t : list call),
    Server.child sockfd fd buffer w = (out, w') /\
    forallb (session_call fd) t = true /\
    (forall held, holds fd held t = held) /\
    ((out = Exit 0 /\ w_trace w' = w_trace w ++ Close sockfd :: t ++ [Close fd]) \/
     ((out = Exit 1 \/ out = Pending) /\
      w_trace w' = w_trace w ++ Close sockfd :: t)).
Proof.
  destruct (child_run sockfd fd buffer w)
    as (out & w' & t & acks & last & Hrun & Hc & _ & _ & _ & Hend).
  exists out, w', t.
  split; [exact Hrun|]. split; [exact Hc|].
  split; [now apply session_call_wire | exact Hend].
Qed.

(** ** A whole session over an endpoint that takes every message at once *)

Lemma reads_log_all (cs : list call) (w : world) :
  w_reads (log_all cs w) = w_reads w.
Proof.
  revert w; induction cs as [|c cs IH]; intros w; simpl; [reflexivity|].
  rewrite IH. now destruct w.
Qed.

(** [send_all] when the first write takes the whole sequence. *)
Lemma send_all_once (fd : Z) (buf : list ascii) (len k : N) (w : world)
  (wrest : list write_answer) :
  w_writes w = WriteTakes k :: wrest ->
  (0 < len <= k)%N -> (len < SIZE_MOD)%N ->
  Server.send_all fd buf len w =
    (Ret 0, log (Write fd (take len buf) (WriteTakes k)) (set_writes wrest w)).
Proof.
  intros Hw Hk Hlen. unfold Server.send_all. rewrite Hw.
  simpl List.length. simpl Server.send_loop.
  replace (0 <? len)%N with true by (symmetry; apply N.ltb_lt; lia).
  rewrite size_sub_small by lia. rewrite N.sub_0_r.
  unfold bind at 1. unfold sys_write. rewrite Hw.
  replace (N.min k len) with len by lia.
  replace (Z.of_N len <? 0) with false by (symmetry; apply Z.ltb_ge; lia).
  replace (Z.of_N len =? 0) with false by (symmetry; apply Z.eqb_neq; lia).
  rewrite N2Z.id, size_add_small by lia.
  rewrite drop_zero. apply send_loop_done. lia.
Qed.

(** A turn that receives an ordinary message and whose write goes
    through at once. *)
Lemma session_iter_ack (fd : Z) (buffer : list ascii) (w : world)
  (d : list ascii) (rest : list read_answer) (k : N) (wrest : list write_answer) :
  w_reads w = ReadData d :: rest ->
  w_writes w = WriteTakes k :: wrest ->
  ordinary d -> (19 <= k)%N ->
  exists (w' : world) (t : list call),
    Server.session_iter fd buffer w = (Ret (Continue, received buffer d), w') /\
    w_reads w' = rest /\ w_writes w' = wrest /\
    w_trace w' = w_trace w ++ t /\
    wire fd t = Server.reply.
Proof.
  intros Hr Hw [Hd Hq] Hk.
  assert (Hiter := session_iter_data fd buffer w d rest Hr (proj1 Hd)).
  cbv zeta in Hiter. rewrite (take_all 255 d) in Hiter by lia.
  rewrite Hq in Hiter.
  set (cs := Read fd 255 (ReadData d) :: Printf Server.fmt_msg (cstr d)
               :: newline_unless_last Server.fmt_nl d) in Hiter.
  set (w0 := log_all cs (set_reads rest w)) in Hiter.
  assert (Hw0 : w_writes w0 = WriteTakes k :: wrest).
  { unfold w0. rewrite writes_log_all. now destruct w. }
  change (strlen Server.reply) with 19%N in Hiter.
  unfold bind in Hiter.
  rewrite (send_all_once fd Server.reply 19 k w0 wrest Hw0) in Hiter
    by (try reflexivity; lia).
  change (0 <? 0) with false in Hiter. cbv iota in Hiter.
  eexists; eexists. split; [exact Hiter|].
  split.
  { unfold ret. cbn [snd]. unfold w0.
    change (w_reads (log ?c (set_writes ?l ?x))) with (w_reads x).
    rewrite reads_log_all. now destruct w. }
  split; [now destruct w0|].
  split.
  { unfold w0. autorewrite with trace. rewrite <- ?app_assoc. reflexivity. }
  rewrite wire_app. unfold cs. rewrite wire_read_log.
  cbn [wire flat_map delivered app]. rewrite Z.eqb_refl, app_nil_r.
  rewrite take_take. replace (N.min k 19) with 19%N by lia. reflexivity.
Qed.

(** As many turns as there are ordinary messages. *)
Lemma session_loop_acks (msgs : list (list ascii)) :
  forall (ks : list N) (fd : Z) (buffer : list ascii) (w : world)
         (rest : list read_answer) (wrest : list write_answer) (fuel : nat),
    w_reads w = map ReadData msgs ++ rest ->
    w_writes w = map WriteTakes ks ++ wrest ->
    List.length ks = List.length msgs ->
    Forall ordinary msgs ->
    Forall (fun k => (19 <= k)%N) ks ->
    exists (w' : world) (buffer' : list ascii) (t : list call),
      Server.session_loop (List.length msgs + fuel) fd buffer w =
        Server.session_loop fuel fd buffer' w' /\
      w_reads w' = rest /\ w_writes w' = wrest /\
      w_trace w' = w_trace w ++ t /\
      wire fd t = acks_for msgs.
Proof.
  induction msgs as [|d msgs IH]; intros ks fd buffer w rest wrest fuel
    Hr Hw Hlen Hmsgs Hks.
  - destruct ks; [|discriminate Hlen].
    exists w, buffer, []. simpl in *. rewrite app_nil_r. auto.
  - destruct ks as [|k ks]; [discriminate Hlen|].
    inversion Hmsgs as [|? ? Hd Hmsgs']; subst.
    inversion Hks as [|? ? Hk Hks']; subst.
    simpl in Hr, Hw.
    destruct (session_iter_ack fd buffer w d _ k _ Hr Hw Hd Hk)
      as (w1 & t1 & Hiter & Hr1 & Hw1 & Ht1 & Hwire1).
    simpl plus. rewrite (session_loop_step _ _ _ _ _ _ Hiter).
    destruct (IH ks fd (received buffer d) w1 rest wrest fuel Hr1 Hw1)
      as (w' & buffer' & t & Hloop & Hr' & Hw' & Ht & Hwire); auto.
    exists w', buffer', (t1 ++ t).
    split; [exact Hloop|].
    split; [exact Hr'|]. split; [exact Hw'|].
    split; [now rewrite Ht, Ht1, app_assoc|].
    rewrite wire_app, Hwire1, Hwire. reflexivity.
Qed.

(** A turn that receives a termination command and whose write goes
    through at once. *)
Lemma session_iter_bye (fd : Z) (buffer : list ascii) (w : world)
  (d : list ascii) (rest : list read_answer) (k : N) (wrest : list write_answer) :
  w_reads w = ReadData d :: rest ->
  w_writes w = WriteTakes k :: wrest ->
  command d -> (5 <= k)%N ->
  exists (w' : world) (t : list call),
    Server.session_iter fd buffer w = (Ret (Break, received buffer d), w') /\
    w_reads w' = rest /\ w_writes w' = wrest /\
    w_trace w' = w_trace w ++ t /\
    wire fd t = Server.bye.
Proof.
  intros Hr Hw [Hd Hq] Hk.
  assert (Hiter := session_iter_data fd buffer w d rest Hr (proj1 Hd)).
  cbv zeta in Hiter. rewrite (take_all 255 d) in Hiter by lia.
  rewrite Hq in Hiter.
  set (cs := Read fd 255 (ReadData d) :: Printf Server.fmt_msg (cstr d)
               :: newline_unless_last Server.fmt_nl d) in Hiter.
  set (w0 := log_all cs (set_reads rest w)) in Hiter.
  assert (Hw0 : w_writes w0 = WriteTakes k :: wrest).
  { unfold w0. rewrite writes_log_all. now destruct w. }
  change (strlen Server.bye) with 5%N in Hiter.
  unfold bind at 1 in Hiter.
  rewrite (send_all_once fd Server.bye 5 k w0 wrest Hw0) in Hiter
    by (try reflexivity; lia).
  change (0 <? 0) with false in Hiter. cbv iota in Hiter.
  rewrite bind_ret, bind_printf in Hiter.
  eexists; eexists. split; [exact Hiter|].
  split.
  { unfold w0.
    change (w_reads (log ?c (log ?c' (set_writes ?l ?x)))) with (w_reads x).
    rewrite reads_log_all. now destruct w. }
  split; [now destruct w0|].
  split.
  { unfold w0. autorewrite with trace. rewrite <- ?app_assoc. reflexivity. }
  rewrite !wire_app. unfold cs. rewrite wire_read_log.
  cbn [wire flat_map delivered app]. rewrite Z.eqb_refl, !app_nil_r.
  rewrite take_take. replace (N.min k 5) with 5%N by lia. reflexivity.
Qed.

(** X6.  A session in which the peer sends any number of ordinary
    messages and then a termination command, each write going through
    at once: the child answers every message with one acknowledgement,
    the command with the farewell, in that order and with nothing else
    on the connection, closes the connection and exits with status 0,
    leaving unread what the peer sent after the command. *)
Theorem session_ends_on_command (sockfd fd : Z) (buffer : list ascii) (w : world)
  (msgs : list (list ascii)) (ks : list N) (q : list ascii) (k : N)
  (rest : list read_answer) (wrest : list write_answer) :
  w_reads w = map ReadData msgs ++ ReadData q :: rest ->
  w_writes w = map WriteTakes ks ++ WriteTakes k :: wrest ->
  List.length ks = List.length msgs ->
  Forall ordinary msgs ->
  Forall (fun k => (19 <= k)%N) ks ->
  command q -> (5 <= k)%N ->
  exists (w' : world) (t : list call),
    Server.child sockfd fd buffer w = (Exit 0, w') /\
    w_trace w' = w_trace w ++ Close sockfd :: t ++ [Close fd] /\
    wire fd t = acks_for msgs ++ lit "Bye." ++ [LF] /\
    w_reads w' = rest /\ w_writes w' = wrest.
Proof.
  intros Hr Hw Hlen Hmsgs Hks Hq Hk.
  rewrite child_is_session_then_exit.
  set (w0 := log_all [Close sockfd; Printf Server.fmt_connected []] w).
  assert (Hr0 : w_reads w0 = map ReadData msgs ++ ReadData q :: rest)
    by (unfold w0; now rewrite reads_log_all).
  assert (Hw0 : w_writes w0 = map WriteTakes ks ++ WriteTakes k :: wrest)
    by (unfold w0; now rewrite writes_log_all).
  rewrite Hr, length_app, length_map. simpl List.length.
  destruct (session_loop_acks msgs ks fd buffer w0 _ _ (S (List.length rest))
              Hr0 Hw0 Hlen Hmsgs Hks)
    as (w1 & b1 & t1 & Hloop & Hr1 & Hw1 & Ht1 & Hwire1).
  destruct (session_iter_bye fd b1 w1 q rest k wrest Hr1 Hw1 Hq Hk)
    as (w2 & t2 & Hiter & Hr2 & Hw2 & Ht2 & Hwire2).
  unfold session_then_exit, bind.
  rewrite Hloop, (session_loop_step _ _ _ _ _ _ Hiter).
  exists (log (Close fd) w2), (Printf Server.fmt_connected [] :: t1 ++ t2).
  split; [reflexivity|].
  split.
  { rewrite trace_log, Ht2, Ht1. unfold w0. autorewrite with trace.
    simpl. now rewrite <- !app_assoc. }
  split.
  { change (wire fd (Printf Server.fmt_connected [] :: t1 ++ t2))
      with (wire fd (t1 ++ t2)).
    now rewrite wire_app, Hwire1, Hwire2. }
  split; [now destruct w2 | now destruct w2].
Qed.

Lemma session_ends_on_command_witness :
  let msgs := [lit "hello" ++ [LF]; lit "quitter" ++ [LF]] in
  let q := lit " Exit" ++ [CR; LF] in
  let w := mkWorld (map ReadData msgs ++ [ReadData q; ReadData (lit "late")])
                   (map WriteTakes [19; 64]%N ++ [WriteTakes 5])
                   [] [] [] ENONE [] in
  exists (w' : world) (t : list call),
    Server.child 3 4 [] w = (Exit 0, w') /\
    wire 4 t = acks_for msgs ++ lit "Bye." ++ [LF] /\
    w_reads w' = [ReadData (lit "late")].
Proof.
  intros msgs q w.
  assert (H1 : w_reads w = map ReadData msgs ++ ReadData q :: [ReadData (lit "late")])
    by reflexivity.
  assert (H2 : w_writes w = map WriteTakes [19; 64]%N ++ WriteTakes 5 :: [])
    by reflexivity.
  assert (H3 : Forall ordinary msgs).
  { constructor; [|constructor; [|constructor]];
      (split; [split; apply N.leb_le; reflexivity | reflexivity]). }
  assert (H4 : Forall (fun k => (19 <= k)%N) [19; 64]%N)
    by (constructor; [|constructor; [|constructor]]; apply N.leb_le; reflexivity).
  assert (H5 : command q).
  { split; [split; apply N.leb_le; reflexivity | reflexivity]. }
  assert (H6 : (5 <= 5)%N) by (apply N.leb_le; reflexivity).
  destruct (session_ends_on_command 3 4 [] w msgs [19; 64]%N q 5%N
              [ReadData (lit "late")] [] H1 H2 eq_refl H3 H4 H5 H6)
    as (w' & t & Hrun & _ & Hwire & Hr & _).
  exists w', t. split; [exact Hrun|]. split; [exact Hwire | exact Hr].
Defined.

(** X7.  A session in which the peer sends any number of ordinary
    messages and then closes, each write going through at once: the
    child answers every message with one acknowledgement and nothing
    else, sends no farewell, closes the connection and exits with
    status 0. *)
Theorem session_ends_on_close (sockfd fd : Z) (buffer : list ascii) (w : world)
  (msgs : list (list ascii)) (ks : list N)
  (rest : list read_answer) (wrest : list write_answer) :
  w_reads w = map ReadData msgs ++ ReadData [] :: rest ->
  w_writes w = map WriteTakes ks ++ wrest ->
  List.length ks = List.length msgs ->
  Forall ordinary msgs ->
  Forall (fun k => (19 <= k)%N) ks ->
  exists (w' : world) (t : list call),
    Server.child sockfd fd buffer w = (Exit 0, w') /\
    w_trace w' = w_trace w ++ Close sockfd :: t ++ [Close fd] /\
    wire fd t = acks_for msgs /\
    w_reads w' = rest /\ w_writes w' = wrest.
Proof.
  intros Hr Hw Hlen Hmsgs Hks.
  rewrite child_is_session_then_exit.
  set (w0 := log_all [Close sockfd; Printf Server.fmt_connected []] w).
  assert (Hr0 : w_reads w0 = map ReadData msgs ++ ReadData [] :: rest)
    by (unfold w0; now rewrite reads_log_all).
  assert (Hw0 : w_writes w0 = map WriteTakes ks ++ wrest)
    by (unfold w0; now rewrite writes_log_all).
  rewrite Hr, length_app, length_map. simpl List.length.
  destruct (session_loop_acks msgs ks fd buffer w0 _ _ (S (List.length rest))
              Hr0 Hw0 Hlen Hmsgs Hks)
    as (w1 & b1 & t1 & Hloop & Hr1 & Hw1 & Ht1 & Hwire1).
  assert (Hiter := session_iter_no_data fd b1 w1 rest Hr1).
  unfold session_then_exit, bind.
  rewrite Hloop, (session_loop_step _ _ _ _ _ _ Hiter).
  eexists. exists (Printf Server.fmt_connected [] ::
                   t1 ++ [Read fd 255 (ReadData []);
                          Printf Server.fmt_disconnected []]).
  split; [reflexivity|].
  split.
  { autorewrite with trace. rewrite Ht1. unfold w0. autorewrite with trace.
    simpl. now rewrite <- !app_assoc. }
  split.
  { change (wire fd (Printf Server.fmt_connected [] :: ?x)) with (wire fd x).
    rewrite wire_app, Hwire1. cbn [wire flat_map delivered app].
    now rewrite app_nil_r. }
  split.
  - change (w_reads (log ?c ?x)) with (w_reads x).
    rewrite reads_log_all. now destruct w1.
  - change (w_writes (log ?c ?x)) with (w_writes x).
    rewrite writes_log_all. now destruct w1.
Qed.

Lemma session_ends_on_close_witness :
  let msgs := [lit "exiting"; lit "a" ++ [LF]] in
  let w := mkWorld (map ReadData msgs ++ [ReadData []])
                   (map WriteTakes [19; 19]%N) [] [] [] ENONE [] in
  exists (w' : world) (t : list call),
    Server.child 3 4 [] w = (Exit 0, w') /\
    wire 4 t = acks_for msgs.
Proof.
  intros msgs w.
  assert (H1 : w_reads w = map ReadData msgs ++ ReadData [] :: []) by reflexivity.
  assert (H2 : w_writes w = map WriteTakes [19; 19]%N ++ []) by reflexivity.
  assert (H3 : Forall ordinary msgs).
  { constructor; [|constructor; [|constructor]];
      (split; [split; apply N.leb_le; reflexivity | reflexivity]). }
  assert (H4 : Forall (fun k => (19 <= k)%N) [19; 19]%N)
    by (constructor; [|constructor; [|constructor]]; apply N.leb_le; reflexivity).
  destruct (session_ends_on_close 3 4 [] w msgs [19; 19]%N [] [] H1 H2 eq_refl H3 H4)
    as (w' & t & Hrun & _ & Hwire & _).
  exists w', t. split; [exact Hrun | exact Hwire].
Defined.

(** ** The accept loop as a whole *)

Lemma accept_loop_step (fuel : nat) (sockfd : Z) (buffer : list ascii)
  (w w' : world) (out : outcome ctl) :
  Server.accept_iter sockfd buffer w = (out, w') ->
  Server.accept_loop (S fuel) sockfd buffer w =
  match out with
  | Ret Continue => Server.accept_loop fuel sockfd buffer w'
  | Ret Break => (Ret 0, w')
  | Exit st => (Exit st, w')
  | Pending => (Pending, w')
  | Fault => (Fault, w')
  end.
Proof.
  intro H. simpl. unfold bind. rewrite H.
  destruct out as [[|]| | |]; reflexivity.
Qed.

Ltac accept_case H :=
  split;
  [unfold Server.accept_iter, bind, sys_accept, sys_fork, get_errno; simpl;
   rewrite ?H; reflexivity
  |split; [simpl; rewrite <- ?app_assoc; reflexivity|]].

(** One turn of the accept loop, whoever the process is after [fork]. *)
Lemma accept_turn (sockfd : Z) (buffer : list ascii) (w : world) :
  exists (out : outcome ctl) (w' : world) (t : list call),
    Server.accept_iter sockfd buffer w = (out, w') /\
    w_trace w' = w_trace w ++ t /\
    (out = Ret Continue \/ out = Exit 1 \/ out = Pending \/
     (out = Exit 0 /\ In (Fork ForkChild) t)).
Proof.
  destruct w as [rd wr ac fk si er tr].
  destruct ac as [|[e|n] ar].
  - exists Pending, (mkWorld rd wr [] fk si er tr), [].
    split; [reflexivity|]. split; [simpl; now rewrite app_nil_r | auto].
  - destruct (is_EINTR e) eqn:He.
    + eexists; eexists; exists [Accept sockfd (AcceptErr e)].
      accept_case He. now left.
    + eexists; eexists;
        exists [Accept sockfd (AcceptErr e); Perror "ERROR on accept" e].
      accept_case He. right; now left.
  - assert (Hn : (Z.of_N n <? 0) = false) by (apply Z.ltb_ge; lia).
    destruct fk as [|[e| |pid] fr].
    + eexists; eexists; exists [Accept sockfd (AcceptFd n)].
      accept_case Hn. right; right; now left.
    + eexists; eexists;
        exists [Accept sockfd (AcceptFd n); Fork (ForkErr e);
                Perror "ERROR on fork" e; Close (Z.of_N n)].
      accept_case Hn. now left.
    + set (w1 := mkWorld rd wr ar fr si er
                   ((tr ++ [Accept sockfd (AcceptFd n)]) ++ [Fork ForkChild])).
      destruct (child_run sockfd (Z.of_N n) buffer w1)
        as (out & w' & t & _ & _ & Hrun & _ & _ & _ & _ & Hend).
      assert (Hiter : Server.accept_iter sockfd buffer
                (mkWorld rd wr (AcceptFd n :: ar) (ForkChild :: fr) si er tr) =
              (out, w')).
      { unfold Server.accept_iter. unfold bind at 1. unfold sys_accept. simpl.
        rewrite Hn. unfold bind at 1. unfold sys_fork. simpl. exact Hrun. }
      exists out, w'.
      destruct Hend as [(-> & Ht) | ([-> | ->] & Ht)];
        eexists; (split; [exact Hiter|]);
        (split; [rewrite Ht; unfold w1; simpl; rewrite <- !app_assoc; reflexivity|]).
      * right; right; right. split; [reflexivity|]. simpl. auto.
      * right; now left.
      * right; right; now left.
    + eexists; eexists;
        exists [Accept sockfd (AcceptFd n); Fork (ForkParent pid); Close (Z.of_N n)].
      accept_case Hn. now left.
Qed.

Lemma serve_run (sockfd : Z) (buffer : list ascii) (w : world) :
  exists (out : outcome Z) (w' : world) (t : list call),
    Server.serve sockfd buffer w = (out, w') /\
    w_trace w' = w_trace w ++ t /\
    (out = Exit 1 \/ out = Pending \/ (out = Exit 0 /\ In (Fork ForkChild) t)).
Proof.
  unfold Server.serve.
  generalize (List.length (w_accepts w)) as fuel. intro fuel. revert w.
  induction fuel as [|fuel IH]; intro w.
  - exists Pending, w, []. split; [reflexivity|].
    split; [now rewrite app_nil_r | auto].
  - destruct (accept_turn sockfd buffer w) as (out & w1 & t1 & Hiter & Ht1 & Hout).
    rewrite (accept_loop_step fuel _ _ _ _ _ Hiter).
    destruct Hout as [-> | [-> | [-> | (-> & Hin)]]].
    + destruct (IH w1) as (out & w' & t & Hloop & Ht & Hout).
      exists out, w', (t1 ++ t).
      split; [exact Hloop|]. split; [now rewrite Ht, Ht1, app_assoc|].
      destruct Hout as [-> | [-> | (-> & Hin)]]; [now left | right; now left |].
      right; right. split; [reflexivity|]. apply in_or_app. now right.
    + exists (Exit 1), w1, t1. repeat split; auto.
    + exists Pending, w1, t1. repeat split; auto.
    + exists (Exit 0), w1, t1. repeat split; auto.
Qed.

(** X8.  The accept loop never falls through to the [return 0] of
    [main]: a run of it ends with status 1, or with status 0 in a
    process that [fork] has made a child, unless a call has not
    returned. *)
Theorem serve_never_returns (sockfd : Z) (buffer : list ascii) (w : world) :
  exists (out : outcome Z) (w' : world) (t : list call),
    Server.serve sockfd buffer w = (out, w') /\
    w_trace w' = w_trace w ++ t /\
    (out = Exit 1 \/ out = Pending \/ (out = Exit 0 /\ In (Fork ForkChild) t)).
Proof. exact (serve_run sockfd buffer w). Qed.

Ltac holds_case :=
  let fd := fresh "fd" in
  let held := fresh "held" in
  intros fd held; unfold holds; simpl;
  repeat match goal with
         | |- context [?a =? ?b] => destruct (a =? b)
         end;
  intro; congruence.

(** One turn of the accept loop in a process that [fork] leaves the
    server, with an answer of [fork] to come. *)
Lemma accept_turn_parent (sockfd : Z) (buffer : list ascii) (w : world)
  (a : accept_answer) (ar : list accept_answer) :
  w_accepts w = a :: ar ->
  forallb stays_parent (w_forks w) = true ->
  w_forks w <> [] ->
  exists (out : outcome ctl) (w' : world) (t : list call),
    Server.accept_iter sockfd buffer w = (out, w') /\
    w_trace w' = w_trace w ++ t /\
    w_accepts w' = ar /\
    (w_forks w' = w_forks w \/ w_forks w' = tl (w_forks w)) /\
    existsb is_read t = false /\
    existsb is_write t = false /\
    (forall fd held, holds fd held t = true -> held = true) /\
    ((out = Ret Continue /\ existsb is_accept_error t = false) \/
     (out = Exit 1 /\ existsb is_accept_error t = true)).
Proof.
  destruct w as [rd wr ac fk si er tr]. simpl.
  intros -> Hfk Hne.
  destruct a as [e|n].
  - destruct (is_EINTR e) eqn:He.
    + eexists; eexists; exists [Accept sockfd (AcceptErr e)].
      accept_case He.
      split; [reflexivity|]. split; [now left|].
      split; [reflexivity|]. split; [reflexivity|].
      split; [holds_case|].
      left. split; [reflexivity|]. simpl. now rewrite He.
    + eexists; eexists;
        exists [Accept sockfd (AcceptErr e); Perror "ERROR on accept" e].
      accept_case He.
      split; [reflexivity|]. split; [now left|].
      split; [reflexivity|]. split; [reflexivity|].
      split; [holds_case|].
      right. split; [reflexivity|]. simpl. now rewrite He.
  - assert (Hn : (Z.of_N n <? 0) = false) by (apply Z.ltb_ge; lia).
    destruct fk as [|[e| |pid] fr]; [congruence | | discriminate Hfk |].
    + eexists; eexists;
        exists [Accept sockfd (AcceptFd n); Fork (ForkErr e);
                Perror "ERROR on fork" e; Close (Z.of_N n)].
      accept_case Hn.
      split; [reflexivity|]. split; [now right|].
      split; [reflexivity|]. split; [reflexivity|].
      split; [holds_case|].
      left. split; reflexivity.
    + eexists; eexists;
        exists [Accept sockfd (AcceptFd n); Fork (ForkParent pid); Close (Z.of_N n)].
      accept_case Hn.
      split; [reflexivity|]. split; [now right|].
      split; [reflexivity|]. split; [reflexivity|].
      split; [holds_case|].
      left. split; reflexivity.
Qed.

Lemma accept_loop_parent (fuel : nat) :
  forall (sockfd : Z) (buffer : list ascii) (w : world),
    fuel = List.length (w_accepts w) ->
    forallb stays_parent (w_forks w) = true ->
    (List.length (w_accepts w) <= List.length (w_forks w))%nat ->
    exists (out : outcome Z) (w' : world) (t : list call),
      Server.accept_loop fuel sockfd buffer w = (out, w') /\
      w_trace w' = w_trace w ++ t /\
      existsb is_read t = false /\
      existsb is_write t = false /\
      (forall fd held, holds fd held t = true -> held = true) /\
      ((out = Pending /\ w_accepts w' = [] /\ existsb is_accept_error t = false) \/
       (out = Exit 1 /\ existsb is_accept_error t = true)).
Proof.
  induction fuel as [|fuel IH]; intros sockfd buffer w Hfuel Hfk Hlen.
  - exists Pending, w, []. split; [reflexivity|].
    split; [now rewrite app_nil_r|].
    repeat split; auto.
    left. repeat split; auto.
    destruct (w_accepts w); [reflexivity | discriminate Hfuel].
  - destruct (w_accepts w) as [|a ar] eqn:Hac; [discriminate Hfuel|].
    injection Hfuel as Hfuel.
    assert (Hne : w_forks w <> []).
    { intro E. rewrite E in Hlen. simpl in Hlen. lia. }
    destruct (accept_turn_parent sockfd buffer w a ar Hac Hfk Hne)
      as (out & w1 & t1 & Hiter & Ht1 & Hac1 & Hfk1 & Hr1 & Hw1 & Hh1 & Hout).
    rewrite (accept_loop_step fuel _ _ _ _ _ Hiter).
    destruct Hout as [(-> & He1) | (-> & He1)].
    + destruct (IH sockfd buffer w1) as (out & w' & t & Hloop & Ht & Hr & Hw & Hh & Hout).
      * now rewrite Hac1.
      * destruct Hfk1 as [-> | ->]; [exact Hfk|].
        destruct (w_forks w) as [|f fr]; [reflexivity|].
        simpl in Hfk. now apply andb_true_iff in Hfk.
      * rewrite Hac1. simpl in Hlen.
        destruct Hfk1 as [-> | ->]; [lia|].
        destruct (w_forks w) as [|f fr]; simpl in *; lia.
      * exists out, w', (t1 ++ t).
        split; [exact Hloop|].
        split; [now rewrite Ht, Ht1, app_assoc|].
        split; [now rewrite existsb_app, Hr1, Hr|].
        split; [now rewrite existsb_app, Hw1, Hw|].
        split.
        { intros fd held H. rewrite holds_app in H.
          apply Hh in H. now apply Hh1 in H. }
        rewrite existsb_app, He1. exact Hout.
    + exists (Exit 1), w1, t1.
      repeat split; auto.
Qed.

(** X9.  A server whose [fork] never makes it the child, with an answer
    of [fork] to come for every [accept]: over any run of the accept
    loop it reads from and writes to no connection, and holds no
    descriptor at the end that it did not hold at the start.  It exits,
    with status 1, exactly when an [accept] failed with an error other
    than EINTR; otherwise it is waiting in [accept]. *)
Theorem acceptor_keeps_nothing (sockfd : Z) (buffer : list ascii) (w : world) :
  forallb stays_parent (w_forks w) = true ->
  (List.length (w_accepts w) <= List.length (w_forks w))%nat ->
  exists (out : outcome Z) (w' : world) (t : list call),
    Server.serve sockfd buffer w = (out, w') /\
    w_trace w' = w_trace w ++ t /\
    existsb is_read t = false /\
    existsb is_write t = false /\
    (forall fd held, holds fd held t = true -> held = true) /\
    ((out = Pending /\ w_accepts w' = [] /\ existsb is_accept_error t = false) \/
     (out = Exit 1 /\ existsb is_accept_error t = true)).
Proof.
  intros Hfk Hlen. unfold Server.serve.
  now apply accept_loop_parent.
Qed.

Lemma acceptor_keeps_nothing_witness :
  let w := mkWorld [ReadData (lit "hello")] []
                   [AcceptFd 4; AcceptErr EINTR; AcceptFd 4; AcceptErr EMFILE; AcceptFd 5]
                   [ForkParent 100; ForkErr EAGAIN; ForkParent 101;
                    ForkParent 102; ForkParent 103]
                   [] ENONE [] in
  forallb stays_parent (w_forks w) = true /\
  (List.length (w_accepts w) <= List.length (w_forks w))%nat /\
  exists (out : outcome Z) (w' : world) (t : list call),
    Server.serve 3 [] w = (out, w') /\
    (forall fd held, holds fd held t = true -> held = true).
Proof.
  intro w.
  assert (H1 : forallb stays_parent (w_forks w) = true) by reflexivity.
  assert (H2 : (List.length (w_accepts w) <= List.length (w_forks w))%nat)
    by (simpl; lia).
  split; [exact H1|]. split; [exact H2|].
  destruct (acceptor_keeps_nothing 3 [] w H1 H2)
    as (out & w' & t & Hrun & _ & _ & _ & Hh & _).
  exists out, w', t. split; [exact Hrun | exact Hh].
Defined.

(** ** The client as a whole *)

Lemma trace_set_stdin (l : list fgets_answer) (w : world) :
  w_trace (set_stdin l w) = w_trace w.
Proof. reflexivity. Qed.

#[local] Hint Rewrite trace_set_stdin : trace.

Lemma len_cstr_le (s : list ascii) : (len (cstr s) <= len s)%N.
Proof.
  unfold len. induction s as [|c s IH]; simpl; [lia|].
  destruct (c =? NUL)%char; simpl; lia.
Qed.

Lemma take_cstr (m : N) (s : list ascii) :
  (m <= len (cstr s))%N -> take m s = take m (cstr s).
Proof.
  unfold take, len. intro H.
  assert (Hk : (N.to_nat m <= List.length (cstr s))%nat) by lia. clear H.
  revert Hk. generalize (N.to_nat m) as k. intros k Hk.
  revert k Hk. induction s as [|c s IH]; intros k Hk.
  - simpl in Hk. now replace k with 0%nat by lia.
  - simpl in *. destruct (c =? NUL)%char.
    + simpl in Hk. now replace k with 0%nat by lia.
    + destruct k; [reflexivity|]. simpl in *. rewrite IH by lia. reflexivity.
Qed.

Lemma wire_reads (fd : Z) (t : list call) :
  forallb is_read t = true -> wire fd t = [].
Proof.
  induction t as [|c t IH]; [reflexivity|]. simpl. intro H.
  apply andb_true_iff in H as [Hc Ht].
  change (wire fd (c :: t)) with (delivered fd c ++ wire fd t).
  rewrite IH by exact Ht. now destruct c.
Qed.

(** A run of [recv_some], however it ends: its calls are reads, and the
    other scripts are left alone. *)
Lemma recv_loop_frames (fuel : nat) :
  forall (fd : Z) (buf : list ascii) (cap : N) (w : world),
  exists (out : outcome (Z * list ascii)) (w' : world) (t : list call),
    Client.recv_loop fuel fd buf cap w = (out, w') /\
    w_trace w' = w_trace w ++ t /\
    forallb is_read t = true /\
    w_stdin w' = w_stdin w /\
    (out = Pending \/ out = Ret (-1, buf) \/
     exists d, out = Ret (Z.of_N (len (take cap d)),
                          take cap d ++ drop (len (take cap d)) buf)).
Proof.
  induction fuel as [|fuel IH]; intros fd buf cap w.
  - exists Pending, w, []. simpl. rewrite app_nil_r. repeat split; auto.
  - simpl. unfold bind at 1. unfold sys_read.
    destruct (w_reads w) as [|[e|d] rest] eqn:Hr.
    + exists Pending, w, []. rewrite app_nil_r. repeat split; auto.
    + cbv zeta beta iota. unfold bind at 1. unfold get_errno.
      cbn [w_errno set_errno].
      change (-1 <? 0) with true. cbn [andb].
      destruct (is_EINTR e).
      * destruct (IH fd buf cap (set_errno e (log (Read fd cap (ReadErr e))
                                               (set_reads rest w))))
          as (out & w' & t & Hrun & Ht & Hrd & Hsi & Hout).
        exists out, w', (Read fd cap (ReadErr e) :: t).
        split; [exact Hrun|].
        split; [rewrite Ht; autorewrite with trace; now rewrite <- app_assoc|].
        split; [exact Hrd|].
        split; [rewrite Hsi; now destruct w | exact Hout].
      * eexists; eexists; exists [Read fd cap (ReadErr e)].
        split; [reflexivity|].
        split; [reflexivity|]. split; [reflexivity|].
        split; [now destruct w | right; now left].
    + cbv zeta beta iota. unfold bind at 1. unfold get_errno.
      replace (Z.of_N (len (take cap d)) <? 0) with false
        by (symmetry; apply Z.ltb_ge; lia).
      cbn [andb].
      eexists; eexists; exists [Read fd cap (ReadData d)].
      split; [reflexivity|].
      split; [reflexivity|]. split; [reflexivity|].
      split; [now destruct w | right; right; now exists d].
Qed.

Lemma stdin_log_all (cs : list call) (w : world) :
  w_stdin (log_all cs w) = w_stdin w.
Proof.
  revert w; induction cs as [|c cs IH]; intros w; simpl; [reflexivity|].
  rewrite IH. now destruct w.
Qed.

Ltac client_trace H Ht :=
  cbv beta iota delta [Client.die bind printf perror exit ret] in H;
  eexists; eexists; eexists;
  split; [exact H|];
  split; [autorewrite with trace; rewrite ?Ht; autorewrite with trace;
          rewrite <- ?app_assoc; reflexivity|].

(** The part of a turn of the client's loop that follows a send that
    did not fail. *)
Lemma client_after_send (sockfd : Z) (buffer reply : list ascii) (w : world)
  (l : list ascii) (srest : list fgets_answer) (input : list ascii)
  (tw : list call) (m : N) (e : errno) :
  w_stdin w = FgetsLine l :: srest ->
  input = typed buffer l ->
  Client.client_iter sockfd buffer reply w =
    bind (Client.recv_some sockfd (zeroed reply) 255) (fun '(n, got) =>
      if n <? 0 then Client.die "ERROR reading from socket"
      else if n =? 0 then
        bind (printf Client.fmt_closed []) (fun _ => ret (Break, (input, got)))
      else
        bind (store got n NUL) (fun shown =>
        bind (printf Client.fmt_s (cstr shown)) (fun _ =>
        bind (load shown (n - 1)) (fun last =>
        bind (if (last =? LF)%char then ret tt
              else printf Client.fmt_nl []) (fun _ =>
        if Client.is_quit_cmd input
        then ret (Break, (input, shown))
        else ret (Continue, (input, shown)))))))
      (after_writes
         (log (Fgets 255 (FgetsLine l))
              (set_stdin srest (log (Printf Client.fmt_prompt []) w))) tw e) ->
  wire sockfd tw = take m (cstr (take 254 l)) ->
  exists (out : outcome (ctl * (list ascii * list ascii))) (w' : world)
         (t : list call),
    Client.client_iter sockfd buffer reply w = (out, w') /\
    w_trace w' = w_trace w ++ t /\
    w_stdin w' = tl (w_stdin w) /\
    (wire sockfd t = [] \/
     exists l m, hd_error (w_stdin w) = Some (FgetsLine l) /\
                 wire sockfd t = take m (cstr (take 254 l))) /\
    (out = Pending \/ out = Exit 1 \/ exists c b r, out = Ret (c, (b, r))).
Proof.
  intros Hs -> Hhead Hprefix.
  set (aw := after_writes _ tw e) in Hhead.
  destruct (recv_loop_frames (List.length (w_reads aw)) sockfd (zeroed reply) 255 aw)
    as (out2 & w2 & tr & Hrecv & Ht2 & Hrd & Hsi & Hout2).
  unfold bind at 1 in Hhead. unfold Client.recv_some in Hhead.
  rewrite Hrecv in Hhead.
  assert (Hstdin : w_stdin w2 = srest) by (rewrite Hsi; reflexivity).
  assert (Hquiet := wire_reads sockfd tr Hrd).
  rewrite Hs. cbn [tl hd_error].
  assert (Hsent : forall logs,
            wire sockfd ([Printf Client.fmt_prompt []] ++ [Fgets 255 (FgetsLine l)]
                           ++ tw ++ tr ++ logs) =
            take m (cstr (take 254 l)) ++ wire sockfd logs).
  { intro logs. rewrite !wire_app, Hprefix, Hquiet. reflexivity. }
  destruct Hout2 as [-> | [-> | (d & ->)]].
  - unfold aw in Ht2. client_trace Hhead Ht2.
    split; [exact Hstdin|].
    split; [right; exists l, m; split; [reflexivity|];
            rewrite <- (app_nil_r tr), Hsent; apply app_nil_r|].
    now left.
  - change (-1 <? 0) with true in Hhead. cbv iota in Hhead.
    unfold aw in Ht2. client_trace Hhead Ht2.
    split; [exact Hstdin|].
    split; [right; exists l, m; split; [reflexivity|];
            rewrite Hsent; apply app_nil_r|].
    right; now left.
  - set (got := take 255 d) in *.
    assert (Hgot : (len got <= 255)%N) by (unfold got; rewrite len_take; lia).
    replace (Z.of_N (len got) <? 0) with false in Hhead
      by (symmetry; apply Z.ltb_ge; lia).
    destruct (N.eq_dec (len got) 0) as [Hz|Hnz].
    + rewrite Hz in Hhead. change (Z.of_N 0 =? 0) with true in Hhead.
      cbv iota in Hhead.
      unfold aw in Ht2. client_trace Hhead Ht2.
      split; [exact Hstdin|].
      split; [right; exists l, m; split; [reflexivity|];
              rewrite Hsent; apply app_nil_r|].
      right; right. now eexists; eexists; eexists.
    + replace (Z.of_N (len got) =? 0) with false in Hhead
        by (symmetry; apply Z.eqb_neq; lia).
      fold (filled reply got) in Hhead.
      unfold bind at 1 in Hhead. rewrite store_filled in Hhead by lia.
      rewrite bind_printf in Hhead.
      unfold bind at 1 in Hhead. rewrite load_received in Hhead by lia.
      destruct (last got NUL =? LF)%char;
        destruct (Client.is_quit_cmd (typed buffer l));
        unfold aw in Ht2; client_trace Hhead Ht2;
        (split; [exact Hstdin|]);
        (split; [right; exists l, m; split; [reflexivity|];
                 rewrite Hsent; apply app_nil_r|]);
        right; right; now eexists; eexists; eexists.
Qed.

(** One turn of the client's loop, however it ends: one answer of the
    input script is used, and what goes on the connection is a prefix of
    what [fgets] stored, up to its first NUL. *)
Lemma client_turn_run (sockfd : Z) (buffer reply : list ascii) (w : world) :
  exists (out : outcome (ctl * (list ascii * list ascii))) (w' : world)
         (t : list call),
    Client.client_iter sockfd buffer reply w = (out, w') /\
    w_trace w' = w_trace w ++ t /\
    w_stdin w' = tl (w_stdin w) /\
    (wire sockfd t = [] \/
     exists l m, hd_error (w_stdin w) = Some (FgetsLine l) /\
                 wire sockfd t = take m (cstr (take 254 l))) /\
    (out = Pending \/ out = Exit 1 \/ exists c b r, out = Ret (c, (b, r))).
Proof.
  assert (Hhead : Client.client_iter sockfd buffer reply w =
            bind (sys_fgets (zeroed buffer) 255) (fun line =>
              match line with
              | None => ret (Break, (zeroed buffer, reply))
              | Some input =>
                  bind (Client.send_all sockfd input (strlen input)) (fun s =>
                  if s <? 0 then Client.die "ERROR writing to socket"
                  else
                    bind (Client.recv_some sockfd (zeroed reply) 255) (fun '(n, got) =>
                    if n <? 0 then Client.die "ERROR reading from socket"
                    else if n =? 0 then
                      bind (printf Client.fmt_closed []) (fun _ =>
                      ret (Break, (input, got)))
                    else
                      bind (store got n NUL) (fun shown =>
                      bind (printf Client.fmt_s (cstr shown)) (fun _ =>
                      bind (load shown (n - 1)) (fun last =>
                      bind (if (last =? LF)%char then ret tt
                            else printf Client.fmt_nl []) (fun _ =>
                      if Client.is_quit_cmd input
                      then ret (Break, (input, shown))
                      else ret (Continue, (input, shown))))))))
              end) (log (Printf Client.fmt_prompt []) w)) by reflexivity.
  unfold bind at 1 in Hhead. unfold sys_fgets in Hhead.
  replace (w_stdin (log (Printf Client.fmt_prompt []) w)) with (w_stdin w) in Hhead
    by now destruct w.
  destruct (w_stdin w) as [|[|l] srest] eqn:Hs.
  - client_trace Hhead Hs.
    split; [now destruct w|]. split; [now left | now left].
  - client_trace Hhead Hs.
    split; [reflexivity|]. split; [now left|].
    right; right. now eexists; eexists; eexists.
  - cbv beta iota zeta in Hhead.
    change (Z.to_N (255 - 1)) with 254%N in Hhead.
    fold (typed buffer l) in Hhead.
    set (input := typed buffer l) in *.
    set (w0 := log (Fgets 255 (FgetsLine l)) _) in Hhead.
    assert (Hlen : (strlen input <= 254)%N).
    { unfold strlen, input. fold (len (cstr (typed buffer l))).
      rewrite cstr_typed.
      assert (H1 := len_cstr_le (take 254 l)). rewrite len_take in H1. lia. }
    destruct (send_all_run sockfd input (strlen input) w0)
      as (tw & m & r & e & Hrun & _ & Hm & Hwire & Hv).
    { unfold SIZE_MOD. assert ((254 < 2 ^ 64)%N) by reflexivity. lia. }
    assert (Hprefix : wire sockfd tw = take m (cstr (take 254 l))).
    { rewrite Hwire, <- (cstr_typed buffer l). apply take_cstr. exact Hm. }
    unfold bind at 1 in Hhead.
    change (Client.send_all sockfd input (strlen input) w0)
      with (Server.send_all sockfd input (strlen input) w0) in Hhead.
    rewrite Hrun in Hhead.
    set (aw := after_writes w0 tw e) in *.
    assert (Hsent : forall tr, wire sockfd ([Printf Client.fmt_prompt []] ++
                       [Fgets 255 (FgetsLine l)] ++ tw ++ tr) =
                     wire sockfd tw ++ wire sockfd tr).
    { intro tr. now rewrite !wire_app. }
    destruct Hv as [(_ & _ & -> & _) | [(_ & _ & -> & _) |
                   [(_ & _ & -> & _) | (_ & _ & -> & _)]]].
    + (* the send failed *)
      change (-1 <? 0) with true in Hhead. cbv iota in Hhead.
      unfold aw, w0 in Hhead. client_trace Hhead Hs.
      split; [reflexivity|].
      split; [right; exists l, m; split; [reflexivity|];
              rewrite Hsent, Hprefix; apply app_nil_r|].
      right; now left.
    + (* the send stopped short, with success *)
      change (0 <? 0) with false in Hhead. cbv iota in Hhead.
      rewrite <- Hs.
      apply (client_after_send sockfd buffer reply w l srest input tw m e
               Hs eq_refl Hhead Hprefix).
    + change (0 <? 0) with false in Hhead. cbv iota in Hhead.
      rewrite <- Hs.
      apply (client_after_send sockfd buffer reply w l srest input tw m e
               Hs eq_refl Hhead Hprefix).
    + unfold aw, w0 in Hhead. client_trace Hhead Hs.
      split; [reflexivity|].
      split; [right; exists l, m; split; [reflexivity|];
              rewrite !wire_app, Hprefix; reflexivity|].
      now left.
Qed.

Lemma in_tl {A} (x : A) (l : list A) : In x (tl l) -> In x l.
Proof. destruct l; simpl; auto. Qed.

Lemma in_hd_error {A} (x : A) (l : list A) : hd_error l = Some x -> In x l.
Proof. destruct l; simpl; [discriminate | intro H; injection H; auto]. Qed.

(** Any number of turns of the client's loop. *)
Lemma client_loop_run (fuel : nat) :
  forall (sockfd : Z) (buffer reply : list ascii) (w : world),
  exists (out : outcome unit) (w' : world) (t : list call)
         (chunks : list (list ascii)),
    Client.client_loop fuel sockfd buffer reply w = (out, w') /\
    w_trace w' = w_trace w ++ t /\
    wire sockfd t = List.concat chunks /\
    Forall (fun c => exists l m, In (FgetsLine l) (w_stdin w) /\
                                 c = take m (cstr (take 254 l))) chunks /\
    (out = Ret tt \/ out = Exit 1 \/ out = Pending).
Proof.
  induction fuel as [|fuel IH]; intros sockfd buffer reply w.
  - exists Pending, w, [], []. simpl. rewrite app_nil_r. repeat split; auto.
  - destruct (client_turn_run sockfd buffer reply w)
      as (out & w1 & t1 & Hiter & Ht1 & Hs1 & Hwire & Hout).
    rewrite (client_loop_step fuel _ _ _ _ _ _ Hiter).
    assert (Hturn : exists chunks,
              wire sockfd t1 = List.concat chunks /\
              Forall (fun c => exists l m, In (FgetsLine l) (w_stdin w) /\
                                           c = take m (cstr (take 254 l))) chunks).
    { destruct Hwire as [Hw | (l & m & Hhd & Hw)].
      - exists []. split; [exact Hw | constructor].
      - exists [take m (cstr (take 254 l))]. split; [simpl; now rewrite app_nil_r|].
        constructor; [|constructor]. exists l, m. split; [|reflexivity].
        now apply in_hd_error. }
    destruct Hturn as (chunks1 & Hw1 & Hc1).
    destruct Hout as [-> | [-> | (c & b & r & ->)]].
    + exists Pending, w1, t1, chunks1. repeat split; auto.
    + exists (Exit 1), w1, t1, chunks1. repeat split; auto.
    + destruct c.
      * destruct (IH sockfd b r w1) as (out & w' & t & chunks & Hloop & Ht & Hw & Hc & Hout).
        exists out, w', (t1 ++ t), (chunks1 ++ chunks).
        split; [exact Hloop|].
        split; [now rewrite Ht, Ht1, app_assoc|].
        split; [now rewrite wire_app, Hw1, Hw, concat_app|].
        split; [|exact Hout].
        apply Forall_app. split; [exact Hc1|].
        eapply Forall_impl; [|exact Hc].
        intros x (l & m & Hin & ->). exists l, m. split; [|reflexivity].
        rewrite Hs1 in Hin. now apply in_tl.
      * exists (Ret tt), w1, t1, chunks1. repeat split; auto.
Qed.

Lemma converse_run (sockfd : Z) (buffer reply : list ascii) (w : world) :
  exists (out : outcome Z) (w' : world) (t : list call)
         (chunks : list (list ascii)),
    Client.converse sockfd buffer reply w = (out, w') /\
    wire sockfd t = List.concat chunks /\
    Forall (fun c => exists l m, In (FgetsLine l) (w_stdin w) /\
                                 c = take m (cstr (take 254 l))) chunks /\
    ((out = Ret 0 /\ w_trace w' = w_trace w ++ t ++ [Close sockfd]) \/
     ((out = Exit 1 \/ out = Pending) /\ w_trace w' = w_trace w ++ t)).
Proof.
  destruct (client_loop_run (S (List.length (w_stdin w))) sockfd buffer reply w)
    as (out & w' & t & chunks & Hloop & Ht & Hw & Hc & Hout).
  unfold Client.converse. unfold bind at 1. rewrite Hloop.
  destruct Hout as [-> | [-> | ->]].
  - exists (Ret 0), (log (Close sockfd) w'), t, chunks.
    split; [reflexivity|]. repeat split; auto.
    left. split; [reflexivity|]. now rewrite trace_log, Ht, app_assoc.
  - exists (Exit 1), w', t, chunks. repeat split; auto.
  - exists Pending, w', t, chunks. repeat split; auto.
Qed.

(** One turn of the client's loop by what [fgets] answers. *)
Lemma client_turn_lines (sockfd : Z) (buffer reply : list ascii) (w : world) :
  exists (out : outcome (ctl * (list ascii * list ascii))) (w' : world)
         (t : list call),
    Client.client_iter sockfd buffer reply w = (out, w') /\
    w_trace w' = w_trace w ++ t /\
    match w_stdin w with
    | [] => out = Pending /\ wire sockfd t = [] /\ w_stdin w' = []
    | FgetsEof :: srest =>
        (exists b r, out = Ret (Break, (b, r))) /\
        wire sockfd t = [] /\ w_stdin w' = srest
    | FgetsLine l :: srest =>
        (out = Pending \/ out = Exit 1 \/ exists c b r, out = Ret (c, (b, r))) /\
        (exists m, wire sockfd t = take m (cstr (take 254 l))) /\
        w_stdin w' = srest
    end.
Proof.
  destruct (client_turn_run sockfd buffer reply w)
    as (out & w1 & t & Hiter & Ht & Hs & Hwire & Hout).
  exists out, w1, t. split; [exact Hiter|]. split; [exact Ht|].
  assert (Hst : w_stdin (log (Printf Client.fmt_prompt []) w) = w_stdin w)
    by now destruct w.
  destruct (w_stdin w) as [|[|l] srest] eqn:Hin; cbn [tl hd_error] in *.
  - assert (E : Client.client_iter sockfd buffer reply w =
                (Pending, log (Printf Client.fmt_prompt []) w)).
    { unfold Client.client_iter. rewrite bind_printf.
      unfold bind at 1. unfold sys_fgets. rewrite Hst. reflexivity. }
    rewrite Hiter in E. injection E as -> _.
    split; [reflexivity|]. split; [|exact Hs].
    destruct Hwire as [Hw | (l & m & Hhd & _)]; [exact Hw | discriminate Hhd].
  - assert (E : exists w2, Client.client_iter sockfd buffer reply w =
                (Ret (Break, (zeroed buffer, reply)), w2)).
    { eexists. unfold Client.client_iter. rewrite bind_printf.
      unfold bind at 1. unfold sys_fgets. rewrite Hst. reflexivity. }
    destruct E as (w2 & E). rewrite Hiter in E. injection E as -> _.
    split; [now eexists; eexists|]. split; [|exact Hs].
    destruct Hwire as [Hw | (l & m & Hhd & _)]; [exact Hw | discriminate Hhd].
  - split; [exact Hout|]. split; [|exact Hs].
    destruct Hwire as [Hw | (l' & m & Hhd & Hw)].
    + exists 0%N. exact Hw.
    + injection Hhd as <-. now exists m.
Qed.

(** Any number of turns, line by line: the lines [fgets] returned, in
    order, each with what the turn put on the connection for it. *)
Lemma client_loop_lines (fuel : nat) :
  forall (sockfd : Z) (buffer reply : list ascii) (w : world),
  exists (out : outcome unit) (w' : world) (t : list call)
         (lines chunks : list (list ascii)) (eof : list fgets_answer),
    Client.client_loop fuel sockfd buffer reply w = (out, w') /\
    w_trace w' = w_trace w ++ t /\
    w_stdin w = map FgetsLine lines ++ eof ++ w_stdin w' /\
    (eof = [] \/ eof = [FgetsEof]) /\
    Forall2 (fun l c => exists m, c = take m (cstr (take 254 l))) lines chunks /\
    wire sockfd t = List.concat chunks.
Proof.
  induction fuel as [|fuel IH]; intros sockfd buffer reply w.
  - exists Pending, w, [], [], [], []. simpl. rewrite app_nil_r.
    repeat split; auto.
  - destruct (client_turn_lines sockfd buffer reply w)
      as (out & w1 & t1 & Hiter & Ht1 & Hcase).
    rewrite (client_loop_step fuel _ _ _ _ _ _ Hiter).
    destruct (w_stdin w) as [|[|l] srest] eqn:Hin.
    + destruct Hcase as (-> & Hw1 & Hs1).
      exists Pending, w1, t1, [], [], []. rewrite Hs1.
      repeat split; auto.
    + destruct Hcase as ((b & r & ->) & Hw1 & Hs1).
      exists (Ret tt), w1, t1, [], [], [FgetsEof]. rewrite Hs1.
      repeat split; auto.
    + destruct Hcase as (Hout & (m & Hw1) & Hs1).
      assert (Hone : Forall2 (fun l c => exists m, c = take m (cstr (take 254 l)))
                             [l] [take m (cstr (take 254 l))])
        by (constructor; [now exists m | constructor]).
      assert (Hcat : wire sockfd t1 = List.concat [take m (cstr (take 254 l))])
        by (simpl; now rewrite app_nil_r).
      destruct Hout as [-> | [-> | ([|] & b & r & ->)]].
      * exists Pending, w1, t1, [l], [take m (cstr (take 254 l))], [].
        rewrite Hs1. repeat split; auto.
      * exists (Exit 1), w1, t1, [l], [take m (cstr (take 254 l))], [].
        rewrite Hs1. repeat split; auto.
      * destruct (IH sockfd b r w1)
          as (out & w' & t & lines & chunks & eof & Hloop & Ht & Hs & Heof & Hc & Hw).
        exists out, w', (t1 ++ t), (l :: lines),
          (take m (cstr (take 254 l)) :: chunks), eof.
        split; [exact Hloop|].
        split; [now rewrite Ht, Ht1, app_assoc|].
        split; [simpl; now rewrite <- Hs, Hs1|].
        split; [exact Heof|].
        split; [constructor; [now exists m | exact Hc]|].
        rewrite wire_app, Hw1, Hw. reflexivity.
      * exists (Ret tt), w1, t1, [l], [take m (cstr (take 254 l))], [].
        rewrite Hs1. repeat split; auto.
Qed.

(** X10.  Whatever [fgets] answers and however the connection behaves,
    the client puts on the connection one run of bytes for each line
    that [fgets] returned to it, in the order of the calls, and nothing
    else.  The run of a call is what that call stored in the array, at
    most 254 characters of its answer, up to the first NUL, whole or cut
    short by [send_all].  The lines are those at the head of the input
    script that the loop used up, followed by the end of input when the
    loop met it; never a byte of a reply goes on the connection. *)
Theorem client_sends_what_was_typed (sockfd : Z) (buffer reply : list ascii)
  (w : world) :
  exists (lines chunks : list (list ascii)) (eof : list fgets_answer),
    w_stdin w = map FgetsLine lines ++ eof ++
                w_stdin (snd (Client.converse sockfd buffer reply w)) /\
    (eof = [] \/ eof = [FgetsEof]) /\
    Forall2 (fun l c => exists m, c = take m (cstr (take 254 l))) lines chunks /\
    wire sockfd (w_trace (snd (Client.converse sockfd buffer reply w))) =
      wire sockfd (w_trace w) ++ List.concat chunks.
Proof.
  destruct (client_loop_lines (S (List.length (w_stdin w))) sockfd buffer reply w)
    as (out & w' & t & lines & chunks & eof & Hloop & Ht & Hs & Heof & Hc & Hw).
  exists lines, chunks, eof.
  unfold Client.converse. unfold bind at 1 3. rewrite Hloop.
  destruct out as [[]| | |]; cbn [snd close ret bind log w_stdin w_trace];
    (split; [exact Hs|]); (split; [exact Heof|]); (split; [exact Hc|]);
    rewrite ?Ht, ?wire_app, Hw; cbn [wire flat_map delivered app];
    now rewrite ?app_nil_r.
Qed.

(** X11.  The client's [main], from its loop on, ends in one of two
    ways, unless a call has not returned: it returns 0, and then its
    last call has closed the connection; or it exits with status 1. *)
Theorem client_ends (sockfd : Z) (buffer reply : list ascii) (w : world) :
  exists (out : outcome Z) (w' : world) (t : list call),
    Client.converse sockfd buffer reply w = (out, w') /\
    ((out = Ret 0 /\ w_trace w' = w_trace w ++ t ++ [Close sockfd]) \/
     ((out = Exit 1 \/ out = Pending) /\ w_trace w' = w_trace w ++ t)).
Proof.
  destruct (converse_run sockfd buffer reply w)
    as (out & w' & t & chunks & Hrun & _ & _ & Hend).
  now exists out, w', t.
Qed.

(** ** The client at the end of input and on failures *)

(** X12.  At end of input the client sends nothing and reads nothing:
    after the prompt and the [fgets] that returns NULL it closes the
    connection and [main] returns 0, whatever is left in the arrays. *)
Theorem client_end_of_input (sockfd : Z) (buffer reply : list ascii) (w : world)
  (srest : list fgets_answer) :
  w_stdin w = FgetsEof :: srest ->
  let calls := [Printf Client.fmt_prompt []; Fgets 255 FgetsEof; Close sockfd] in
  exists w',
    Client.converse sockfd buffer reply w = (Ret 0, w') /\
    (forall fuel, client_then_exit (S fuel) sockfd buffer reply w = (Ret 0, w')) /\
    w_trace w' = w_trace w ++ calls /\
    existsb is_read calls = false /\ existsb is_write calls = false /\
    w_reads w' = w_reads w /\ w_writes w' = w_writes w /\ w_stdin w' = srest.
Proof.
  intros Hs calls.
  assert (Hiter : Client.client_iter sockfd buffer reply w =
            (Ret (Break, (zeroed buffer, reply)),
             log (Fgets 255 FgetsEof)
                 (set_stdin srest (log (Printf Client.fmt_prompt []) w)))).
  { unfold Client.client_iter. rewrite bind_printf.
    unfold bind at 1. unfold sys_fgets.
    replace (w_stdin (log (Printf Client.fmt_prompt []) w)) with (w_stdin w)
      by now destruct w.
    rewrite Hs. reflexivity. }
  eexists. split.
  { unfold Client.converse. unfold bind at 1.
    rewrite (client_loop_step _ _ _ _ _ _ _ Hiter). reflexivity. }
  split.
  { intro fuel. unfold client_then_exit. unfold bind at 1.
    rewrite (client_loop_step _ _ _ _ _ _ _ Hiter). reflexivity. }
  split.
  { unfold ret, close, bind. cbn [snd]. autorewrite with trace.
    unfold calls. now rewrite <- !app_assoc. }
  repeat split; now destruct w.
Qed.

Lemma client_end_of_input_witness :
  let w := mkWorld [ReadData (lit "unread")] [WriteTakes 9] [] []
                   [FgetsEof; FgetsLine (lit "never read")] ENONE [] in
  w_stdin w = FgetsEof :: [FgetsLine (lit "never read")] /\
  exists w', Client.converse 3 [] [] w = (Ret 0, w') /\
             w_reads w' = w_reads w /\ w_writes w' = w_writes w.
Proof.
  intro w.
  assert (H1 : w_stdin w = FgetsEof :: [FgetsLine (lit "never read")]) by reflexivity.
  split; [exact H1|].
  destruct (client_end_of_input 3 [] [] w _ H1)
    as (w' & Hrun & _ & _ & _ & _ & Hr & Hw & _).
  exists w'. split; [exact Hrun|]. split; [exact Hr | exact Hw].
Defined.

(** X13.  A turn of the client's loop that has read a line: when
    [send_all] fails the client reports "ERROR writing to socket" and
    exits with status 1 without reading a reply; when the send succeeds
    and [recv_some] returns a negative count it reports "ERROR reading
    from socket" and exits with status 1.  In neither case does it close
    the connection or print anything else. *)
Theorem client_io_failure (sockfd : Z) (buffer reply : list ascii) (w : world)
  (l : list ascii) (srest : list fgets_answer) :
  w_stdin w = FgetsLine l :: srest ->
  let input := typed buffer l in
  let w0 := log (Fgets 255 (FgetsLine l))
                (set_stdin srest (log (Printf Client.fmt_prompt []) w)) in
  (forall z w1,
     Client.send_all sockfd input (strlen input) w0 = (Ret z, w1) -> z < 0 ->
     let w' := log (Perror "ERROR writing to socket" (w_errno w1)) w1 in
     Client.client_iter sockfd buffer reply w = (Exit 1, w') /\
     forall fuel, client_then_exit (S fuel) sockfd buffer reply w = (Exit 1, w')) /\
  (forall z w1 n got w2,
     Client.send_all sockfd input (strlen input) w0 = (Ret z, w1) -> 0 <= z ->
     Client.recv_some sockfd (zeroed reply) 255 w1 = (Ret (n, got), w2) -> n < 0 ->
     let w' := log (Perror "ERROR reading from socket" (w_errno w2)) w2 in
     Client.client_iter sockfd buffer reply w = (Exit 1, w') /\
     forall fuel, client_then_exit (S fuel) sockfd buffer reply w = (Exit 1, w')).
Proof.
  intros Hs input w0.
  assert (Hhead : Client.client_iter sockfd buffer reply w =
            bind (Client.send_all sockfd input (strlen input)) (fun s =>
              if s <? 0 then Client.die "ERROR writing to socket"
              else
                bind (Client.recv_some sockfd (zeroed reply) 255) (fun '(n, got) =>
                if n <? 0 then Client.die "ERROR reading from socket"
                else if n =? 0 then
                  bind (printf Client.fmt_closed []) (fun _ =>
                  ret (Break, (input, got)))
                else
                  bind (store got n NUL) (fun shown =>
                  bind (printf Client.fmt_s (cstr shown)) (fun _ =>
                  bind (load shown (n - 1)) (fun last =>
                  bind (if (last =? LF)%char then ret tt
                        else printf Client.fmt_nl []) (fun _ =>
                  if Client.is_quit_cmd input
                  then ret (Break, (input, shown))
                  else ret (Continue, (input, shown)))))))) w0).
  { unfold Client.client_iter. rewrite bind_printf.
    unfold bind at 1. unfold sys_fgets.
    replace (w_stdin (log (Printf Client.fmt_prompt []) w)) with (w_stdin w)
      by now destruct w.
    rewrite Hs. reflexivity. }
  split.
  - intros z w1 Hsend Hz w'.
    unfold bind at 1 in Hhead. rewrite Hsend in Hhead.
    replace (z <? 0) with true in Hhead by (symmetry; apply Z.ltb_lt; lia).
    split; [exact Hhead|].
    intro fuel. unfold client_then_exit. unfold bind at 1.
    now rewrite (client_loop_step _ _ _ _ _ _ _ Hhead).
  - intros z w1 n got w2 Hsend Hz Hrecv Hn w'.
    unfold bind at 1 in Hhead. rewrite Hsend in Hhead.
    replace (z <? 0) with false in Hhead by (symmetry; apply Z.ltb_ge; lia).
    unfold bind at 1 in Hhead. rewrite Hrecv in Hhead.
    replace (n <? 0) with true in Hhead by (symmetry; apply Z.ltb_lt; lia).
    split; [exact Hhead|].
    intro fuel. unfold client_then_exit. unfold bind at 1.
    now rewrite (client_loop_step _ _ _ _ _ _ _ Hhead).
Qed.

Lemma client_io_failure_witness :
  let l := lit "hello" ++ [LF] in
  let w := mkWorld [ReadErr ECONNRESET] [WriteTakes 6] [] []
                   [FgetsLine l] ENONE [] in
  w_stdin w = FgetsLine l :: [] /\
  exists w', client_then_exit 1 3 [] [] w = (Exit 1, w').
Proof.
  intros l w.
  assert (H1 : w_stdin w = FgetsLine l :: []) by reflexivity.
  split; [exact H1|].
  destruct (client_io_failure 3 [] [] w l [] H1) as (_ & Hrecv).
  eexists.
  refine (proj2 (Hrecv 0 _ (-1) _ _ eq_refl _ eq_refl _) O).
  - lia.
  - lia.
Defined.

(** ** The two ends of a connection *)

Lemma cstr_idem (s : list ascii) : cstr (cstr s) = cstr s.
Proof.
  induction s as [|c s IH]; simpl; [reflexivity|].
  destruct (c =? NUL)%char eqn:E; [reflexivity|].
  simpl. now rewrite E, IH.
Qed.

Lemma take_strlen (s : list ascii) : take (strlen s) s = cstr s.
Proof.
  unfold strlen. fold (len (cstr s)).
  rewrite take_cstr by lia. apply take_all. lia.
Qed.

(** A turn of the client's loop in which [fgets] returns a line: what
    is left of the turn once the line is in the array. *)
Lemma client_iter_line (sockfd : Z) (buffer reply : list ascii) (w : world)
  (l : list ascii) (srest : list fgets_answer) :
  w_stdin w = FgetsLine l :: srest ->
  let input := typed buffer l in
  Client.client_iter sockfd buffer reply w =
    bind (Client.send_all sockfd input (strlen input)) (fun s =>
      if s <? 0 then Client.die "ERROR writing to socket"
      else
        bind (Client.recv_some sockfd (zeroed reply) 255) (fun '(n, got) =>
        if n <? 0 then Client.die "ERROR reading from socket"
        else if n =? 0 then
          bind (printf Client.fmt_closed []) (fun _ => ret (Break, (input, got)))
        else
          bind (store got n NUL) (fun shown =>
          bind (printf Client.fmt_s (cstr shown)) (fun _ =>
          bind (load shown (n - 1)) (fun last =>
          bind (if (last =? LF)%char then ret tt
                else printf Client.fmt_nl []) (fun _ =>
          if Client.is_quit_cmd input
          then ret (Break, (input, shown))
          else ret (Continue, (input, shown))))))))
      (log (Fgets 255 (FgetsLine l))
           (set_stdin srest (log (Printf Client.fmt_prompt []) w))).
Proof.
  intros Hin input. unfold Client.client_iter. rewrite bind_printf.
  unfold bind at 1. unfold sys_fgets.
  replace (w_stdin (log (Printf Client.fmt_prompt []) w)) with (w_stdin w)
    by now destruct w.
  rewrite Hin. reflexivity.
Qed.

Lemma strlen_typed (buffer l : list ascii) :
  deref l <> NUL -> (1 <= strlen (typed buffer l) <= 254)%N.
Proof.
  intro Hl. unfold strlen. fold (len (cstr (typed buffer l))).
  rewrite cstr_typed.
  assert (H1 := len_cstr_le (take 254 l)). rewrite len_take in H1.
  split; [|lia].
  destruct l as [|c l]; [now elim Hl|].
  simpl in Hl. unfold take. change (N.to_nat 254) with (S 253).
  cbn [firstn cstr].
  destruct (c =? NUL)%char eqn:E; [apply Ascii.eqb_eq in E; contradiction|].
  unfold len. simpl. lia.
Qed.

(** A turn of the client's loop for a line that is not empty, whose
    write goes through at once and which gets a reply. *)
Lemma client_iter_replied (cfd : Z) (buffer reply : list ascii) (wc : world)
  (l : list ascii) (srest : list fgets_answer)
  (kc : N) (wcrest : list write_answer)
  (r : list ascii) (rcrest : list read_answer) :
  w_stdin wc = FgetsLine l :: srest ->
  deref l <> NUL ->
  w_writes wc = WriteTakes kc :: wcrest -> (254 <= kc)%N ->
  w_reads wc = ReadData r :: rcrest -> r <> [] ->
  exists (cb : list ascii * list ascii) (wc' : world) (t : list call),
    Client.client_iter cfd buffer reply wc =
      (Ret (if Client.is_quit_cmd (typed buffer l) then Break else Continue, cb),
       wc') /\
    w_trace wc' = w_trace wc ++ t /\
    wire cfd t = cstr (take 254 l).
Proof.
  intros Hin Hl Hw Hk Hr Hne.
  assert (Hhead := client_iter_line cfd buffer reply wc l srest Hin).
  cbv zeta in Hhead.
  set (input := typed buffer l) in *.
  assert (Hlen := strlen_typed buffer l Hl). fold input in Hlen.
  set (w0 := log (Fgets 255 (FgetsLine l)) _) in Hhead.
  assert (Hw0 : w_writes w0 = WriteTakes kc :: wcrest) by exact Hw.
  unfold bind at 1 in Hhead.
  change (Client.send_all cfd input (strlen input) w0)
    with (Server.send_all cfd input (strlen input) w0) in Hhead.
  rewrite (send_all_once cfd input (strlen input) kc w0 wcrest Hw0) in Hhead.
  2:{ lia. }
  2:{ unfold SIZE_MOD. assert ((254 < 2 ^ 64)%N) by reflexivity. lia. }
  change (0 <? 0) with false in Hhead. cbv iota in Hhead.
  set (w1 := log (Write cfd _ _) _) in Hhead.
  assert (Hr1 : w_reads w1 = ReadData r :: rcrest) by exact Hr.
  unfold bind at 1 in Hhead. unfold Client.recv_some in Hhead.
  rewrite (recv_loop_returns _ cfd (zeroed reply) 255 w1 eq_refl) in Hhead
    by (rewrite Hr1; exact I).
  unfold sys_read in Hhead. rewrite Hr1 in Hhead. cbv beta iota zeta in Hhead.
  set (got := take 255 r) in *.
  assert (Hgot : (1 <= len got <= 255)%N).
  { unfold got. rewrite len_take.
    destruct r; [congruence | unfold len; simpl; lia]. }
  replace (Z.of_N (len got) <? 0) with false in Hhead
    by (symmetry; apply Z.ltb_ge; lia).
  replace (Z.of_N (len got) =? 0) with false in Hhead
    by (symmetry; apply Z.eqb_neq; lia).
  fold (filled reply got) in Hhead.
  unfold bind at 1 in Hhead. rewrite store_filled in Hhead by lia.
  rewrite bind_printf in Hhead.
  unfold bind at 1 in Hhead. rewrite load_received in Hhead by lia.
  assert (Hsent : wire cfd [Write cfd (take (strlen input) input) (WriteTakes kc)] =
                  cstr (take 254 l)).
  { cbn [wire flat_map delivered app]. rewrite Z.eqb_refl, app_nil_r.
    rewrite take_take. replace (N.min kc (strlen input)) with (strlen input) by lia.
    rewrite take_strlen. apply cstr_typed. }
  destruct (last got NUL =? LF)%char;
    destruct (Client.is_quit_cmd input);
    unfold w1, w0 in Hhead;
    cbv beta iota delta [bind printf ret] in Hhead;
    eexists; eexists; eexists;
    (split; [exact Hhead|]);
    (split; [autorewrite with trace; rewrite <- ?app_assoc; reflexivity|]);
    rewrite !wire_app, Hsent; cbn [wire flat_map delivered app];
    now rewrite ?app_nil_r.
Qed.

(** X14.  The two ends of a connection make the same move.  Take a turn
    of the client's loop in which [fgets] returns a line that is not
    empty, the write goes through at once and a reply arrives; and the
    turn of the server's session loop that receives what that turn of
    the client put on the connection, its own write going through at
    once.  The bytes that went over are what [fgets] stored in the
    client's array up to the first NUL, and both turns end with Break or
    both with Continue: with Break exactly when the server's classifier
    takes the bytes for a termination command. *)
Theorem both_ends_agree (cfd sfd : Z) (buffer reply sbuf : list ascii)
  (wc ws : world) (l : list ascii) (srest : list fgets_answer)
  (kc : N) (wcrest : list write_answer)
  (r : list ascii) (rcrest : list read_answer)
  (ks : N) (wsrest : list write_answer) (rsrest : list read_answer) :
  let wc' := snd (Client.client_iter cfd buffer reply wc) in
  let sent := wire cfd (skipn (List.length (w_trace wc)) (w_trace wc')) in
  w_stdin wc = FgetsLine l :: srest ->
  deref l <> NUL ->
  w_writes wc = WriteTakes kc :: wcrest -> (254 <= kc)%N ->
  w_reads wc = ReadData r :: rcrest -> r <> [] ->
  w_reads ws = ReadData sent :: rsrest ->
  w_writes ws = WriteTakes ks :: wsrest -> (19 <= ks)%N ->
  sent = cstr (take 254 l) /\
  exists (c : ctl) (cb : list ascii * list ascii) (sb : list ascii) (ws' : world),
    Client.client_iter cfd buffer reply wc = (Ret (c, cb), wc') /\
    Server.session_iter sfd sbuf ws = (Ret (c, sb), ws') /\
    (c = Break <-> Server.is_quit_cmd sent = true).
Proof.
  intros wc' sent Hin Hl Hw Hk Hr Hne Hrs Hws Hks.
  destruct (client_iter_replied cfd buffer reply wc l srest kc wcrest r rcrest
              Hin Hl Hw Hk Hr Hne) as (cb & wc1 & t & Hiter & Ht & Hwire).
  assert (Hwc : wc' = wc1) by (unfold wc'; now rewrite Hiter).
  assert (Hsent : sent = cstr (take 254 l)).
  { unfold sent. rewrite Hwc, Ht, skipn_app, skipn_all, Nat.sub_diag.
    exact Hwire. }
  split; [exact Hsent|].
  assert (Hlen : (1 <= len sent <= 255)%N).
  { assert (H := strlen_typed buffer l Hl).
    unfold strlen in H. fold (len (cstr (typed buffer l))) in H.
    rewrite cstr_typed, <- Hsent in H. lia. }
  assert (Hsame : Client.is_quit_cmd (typed buffer l) = Server.is_quit_cmd sent).
  { rewrite server_is_quit_cmd_classify, client_is_quit_cmd_classify.
    apply classify_cstr. rewrite Hsent, cstr_idem. apply cstr_typed. }
  rewrite Hsame in Hiter. rewrite Hwc.
  destruct (Server.is_quit_cmd sent) eqn:Hq.
  - destruct (session_iter_bye sfd sbuf ws sent rsrest ks wsrest Hrs Hws)
      as (ws' & ts & Hsrv & _); [now split | lia |].
    exists Break, cb, (received sbuf sent), ws'.
    split; [exact Hiter|]. split; [exact Hsrv|]. now split.
  - destruct (session_iter_ack sfd sbuf ws sent rsrest ks wsrest Hrs Hws)
      as (ws' & ts & Hsrv & _); [now split | lia |].
    exists Continue, cb, (received sbuf sent), ws'.
    split; [exact Hiter|]. split; [exact Hsrv|]. split; discriminate.
Qed.

Lemma both_ends_agree_witness :
  let l := lit "Quit" ++ [LF] in
  let wc := mkWorld [ReadData (lit "Bye." ++ [LF])] [WriteTakes 254] [] []
                    [FgetsLine l] ENONE [] in
  let ws := mkWorld [ReadData l] [WriteTakes 19] [] [] [] ENONE [] in
  w_stdin wc = FgetsLine l :: [] /\
  deref l <> NUL /\
  exists (cb : list ascii * list ascii) (sb : list ascii) (wc' ws' : world),
    Client.client_iter 3 [] [] wc = (Ret (Break, cb), wc') /\
    Server.session_iter 4 [] ws = (Ret (Break, sb), ws').
Proof.
  intros l wc ws.
  assert (H1 : w_stdin wc = FgetsLine l :: []) by reflexivity.
  assert (H2 : deref l <> NUL) by discriminate.
  assert (H3 : w_writes wc = WriteTakes 254 :: []) by reflexivity.
  assert (H4 : (254 <= 254)%N) by (apply N.leb_le; reflexivity).
  assert (H5 : w_reads wc = ReadData (lit "Bye." ++ [LF]) :: []) by reflexivity.
  assert (H6 : lit "Bye." ++ [LF] <> []) by discriminate.
  assert (H7 : w_reads ws =
               ReadData (wire 3 (skipn (List.length (w_trace wc))
                                   (w_trace (snd (Client.client_iter 3 [] [] wc)))))
                 :: []) by reflexivity.
  assert (H8 : w_writes ws = WriteTakes 19 :: []) by reflexivity.
  assert (H9 : (19 <= 19)%N) by (apply N.leb_le; reflexivity).
  split; [exact H1|]. split; [exact H2|].
  destruct (both_ends_agree 3 4 [] [] [] wc ws l [] 254 [] (lit "Bye." ++ [LF]) []
              19 [] [] H1 H2 H3 H4 H5 H6 H7 H8 H9)
    as (_ & c & cb & sb & ws' & Hc & Hs & Hbreak).
  assert (Hb : c = Break) by (apply Hbreak; reflexivity).
  rewrite Hb in Hc, Hs.
  exists cb, sb, (snd (Client.client_iter 3 [] [] wc)), ws'.
  split; [exact Hc | exact Hs].
Defined.

(** ** The reaper loses no child *)

Lemma filter_split_perm (f : positive -> bool) (l : list positive) :
  Permutation (filter f l ++ filter (fun p => negb (f p)) l) l.
Proof.
  induction l as [|x l IH]; simpl; [constructor|].
  destruct (f x); simpl.
  - now constructor.
  - apply Permutation_sym, Permutation_cons_app, Permutation_sym, IH.
Qed.

Lemma finish_perm (done : list positive) (k : Server.children) :
  Permutation (Server.finished (Server.finish done k) ++
               Server.running (Server.finish done k))
              (Server.finished k ++ Server.running k).
Proof.
  unfold Server.finish. cbn [Server.finished Server.running].
  rewrite <- app_assoc. apply Permutation_app_head, filter_split_perm.
Qed.

Lemma reap_loop_perm (fuel : nat) :
  forall (exits : list (list positive)) (k k' : Server.children)
         (reaped : list positive),
    Server.reap_loop fuel exits k = (Ret reaped, k') ->
    Permutation (reaped ++ Server.finished k' ++ Server.running k')
                (Server.finished k ++ Server.running k).
Proof.
  induction fuel as [|fuel IH]; intros exits k k' reaped H; [discriminate H|].
  simpl in H. set (k1 := Server.finish (hd [] exits) k) in H.
  assert (Hperm := finish_perm (hd [] exits) k). fold k1 in Hperm.
  unfold Server.waitpid_any in H.
  destruct (Server.finished k1) as [|p rest] eqn:Hf.
  - assert (E : reaped = [] /\ k' = k1).
    { destruct (Server.running k1); injection H as <- <-; auto. }
    destruct E as [-> ->]. rewrite Hf. exact Hperm.
  - change (Z.pos p >? 0) with true in H. cbv iota in H.
    destruct (Server.reap_loop fuel (tl exits)
                (Server.mkChildren (Server.running k1) rest))
      as [[l| | |] k2] eqn:Hloop; try discriminate H.
    injection H as <- <-.
    apply IH in Hloop. cbn [Server.finished Server.running] in Hloop.
    change (Z.to_pos (Z.pos p)) with p.
    eapply Permutation_trans; [|exact Hperm].
    cbn [app]. now constructor.
Qed.

(** X15.  A run of the SIGCHLD handler neither loses nor invents a
    child: the children it reaped, in the order of reaping, together
    with those it left running are, up to order, the children there were
    when it started; so each is reaped at most once, and as many are
    reaped and left as there were. *)
Theorem reaper_loses_no_child (signo : Z) (exits : list (list positive))
  (k : Server.children) :
  exists (reaped : list positive) (k' : Server.children),
    Server.reap_children signo exits k = (Ret reaped, k') /\
    Permutation (reaped ++ Server.running k')
                (Server.finished k ++ Server.running k) /\
    (List.length reaped + List.length (Server.running k') =
     List.length (Server.finished k) + List.length (Server.running k))%nat /\
    (NoDup (Server.finished k ++ Server.running k) ->
     NoDup reaped /\ forall p, In p reaped -> ~ In p (Server.running k')).
Proof.
  destruct (reap_loop_run (S (List.length (Server.running k) +
                              List.length (Server.finished k))) exits k)
    as (reaped & k' & Hrun & Hnone & _); [lia|].
  exists reaped, k'.
  split; [exact Hrun|].
  assert (Hperm := reap_loop_perm _ _ _ _ _ Hrun).
  rewrite Hnone in Hperm. simpl in Hperm.
  split; [exact Hperm|].
  split.
  { apply Permutation_length in Hperm. rewrite !length_app in Hperm. exact Hperm. }
  intro Hnd.
  assert (Hnd' : NoDup (reaped ++ Server.running k')).
  { eapply Permutation_NoDup; [apply Permutation_sym; exact Hperm | exact Hnd]. }
  split.
  - now apply NoDup_app_remove_r in Hnd'.
  - intros p Hin Hin'.
    revert Hnd' Hin. generalize (Server.running k') as r, Hin'.
    clear. intros r Hr. induction reaped as [|x l IH]; intros Hnd Hin; [contradiction|].
    simpl in Hnd. inversion Hnd as [|? ? Hx Hnd']; subst.
    destruct Hin as [-> | Hin].
    + apply Hx, in_or_app. now right.
    + now apply IH.
Qed.

(** ** What the classifier looks at *)

Lemma case_fold_keeps_blank (c : ascii) :
  Framing.whitespace (Framing.case_fold c) = Framing.whitespace c.
Proof. each_char c; reflexivity. Qed.

Lemma case_fold_idem (c : ascii) :
  Framing.case_fold (Framing.case_fold c) = Framing.case_fold c.
Proof. each_char c; reflexivity. Qed.

Lemma cstr_map_fold (s : list ascii) :
  cstr (map Framing.case_fold s) = map Framing.case_fold (cstr s).
Proof.
  induction s as [|c s IH]; simpl; [reflexivity|].
  rewrite case_fold_keeps_nul. destruct (c =? NUL)%char; [reflexivity|].
  simpl. now rewrite IH.
Qed.

Lemma strip_map_fold (s : list ascii) :
  Framing.strip_leading (map Framing.case_fold s) =
  map Framing.case_fold (Framing.strip_leading s).
Proof.
  induction s as [|c s IH]; simpl; [reflexivity|].
  rewrite case_fold_keeps_blank. destruct (Framing.whitespace c); [exact IH | reflexivity].
Qed.

Lemma token_map_fold (s : list ascii) :
  Framing.first_token (map Framing.case_fold s) =
  map Framing.case_fold (Framing.first_token s).
Proof.
  induction s as [|c s IH]; simpl; [reflexivity|].
  rewrite case_fold_keeps_blank. destruct (Framing.whitespace c); [reflexivity|].
  simpl. now rewrite IH.
Qed.

Lemma cstr_app_token (tok tail : list ascii) :
  forallb token_char tok = true -> cstr (tok ++ tail) = tok ++ cstr tail.
Proof.
  induction tok as [|c tok IH]; simpl; [reflexivity|].
  intro H. apply andb_true_iff in H as [Hc Ht].
  unfold token_char in Hc. apply andb_true_iff in Hc as [_ Hc].
  apply negb_true_iff in Hc. rewrite Hc. now rewrite IH.
Qed.

Lemma cstr_app_blank (pre tail : list ascii) :
  forallb Server.is_blank pre = true -> cstr (pre ++ tail) = pre ++ cstr tail.
Proof.
  induction pre as [|c pre IH]; simpl; [reflexivity|].
  intro H. apply andb_true_iff in H as [Hc Ht].
  destruct (c =? NUL)%char eqn:E.
  - apply nul_is_not_blank in E.
    change (Server.is_blank c) with (Framing.whitespace c) in Hc. congruence.
  - now rewrite IH.
Qed.

Lemma strip_app_blank (pre tail : list ascii) :
  forallb Server.is_blank pre = true ->
  Framing.strip_leading (pre ++ tail) = Framing.strip_leading tail.
Proof.
  induction pre as [|c pre IH]; simpl; [reflexivity|].
  intro H. apply andb_true_iff in H as [Hc Ht].
  change (Server.is_blank c) with (Framing.whitespace c) in Hc.
  rewrite Hc. now apply IH.
Qed.

Lemma strip_token (tok tail : list ascii) :
  tok <> [] -> forallb token_char tok = true ->
  Framing.strip_leading (tok ++ tail) = tok ++ tail.
Proof.
  destruct tok as [|c tok]; [congruence|]. intros _ H. simpl in *.
  apply andb_true_iff in H as [Hc _].
  unfold token_char in Hc. apply andb_true_iff in Hc as [Hc _].
  apply negb_true_iff in Hc.
  change (Server.is_blank c) with (Framing.whitespace c) in Hc.
  now rewrite Hc.
Qed.

Lemma first_token_app (tok tail : list ascii) :
  forallb token_char tok = true ->
  Framing.first_token (tok ++ tail) = tok ++ Framing.first_token tail.
Proof.
  induction tok as [|c tok IH]; simpl; [reflexivity|].
  intro H. apply andb_true_iff in H as [Hc Ht].
  unfold token_char in Hc. apply andb_true_iff in Hc as [Hc _].
  apply negb_true_iff in Hc.
  change (Server.is_blank c) with (Framing.whitespace c) in Hc.
  rewrite Hc. now rewrite IH.
Qed.

(** X16.  The classifier looks at the first token alone and not at its
    case: blanks before the token, and everything from the blank or NUL
    that ends it, change nothing; nor does folding the string's capital
    letters to small ones, as the client's classifier folds them. *)
Theorem classifier_reads_first_token (pre tok rest : list ascii) (c : ascii)
  (s : list ascii) :
  forallb Server.is_blank pre = true ->
  forallb token_char tok = true ->
  tok <> [] ->
  Server.is_blank c = true \/ c = NUL ->
  Server.is_quit_cmd (pre ++ tok ++ c :: rest) = Server.is_quit_cmd tok /\
  Client.is_quit_cmd (pre ++ tok ++ c :: rest) = Client.is_quit_cmd tok /\
  Server.is_quit_cmd (map Client.fold_upper s) = Server.is_quit_cmd s /\
  Client.is_quit_cmd (map Client.fold_upper s) = Client.is_quit_cmd s.
Proof.
  intros Hpre Htok Hne Hc.
  assert (HA : Framing.first_token
                 (Framing.strip_leading (cstr (pre ++ tok ++ c :: rest))) = tok).
  { rewrite cstr_app_blank, strip_app_blank by exact Hpre.
    rewrite cstr_app_token by exact Htok.
    rewrite strip_token, first_token_app by assumption.
    rewrite <- (app_nil_r tok) at 2. f_equal.
    simpl cstr. destruct Hc as [Hc | ->].
    - destruct (c =? NUL)%char; [reflexivity|]. simpl.
      change (Server.is_blank c) with (Framing.whitespace c) in Hc.
      now rewrite Hc.
    - reflexivity. }
  assert (HB : Framing.first_token (Framing.strip_leading (cstr tok)) = tok).
  { rewrite <- (app_nil_r tok) at 1.
    rewrite cstr_app_token by exact Htok.
    rewrite strip_token, first_token_app by assumption.
    apply app_nil_r. }
  assert (Hfirst : Framing.classify (pre ++ tok ++ c :: rest) = Framing.classify tok).
  { unfold Framing.classify. now rewrite HA, HB. }
  assert (Hfold : Framing.classify (map Client.fold_upper s) = Framing.classify s).
  { replace (map Client.fold_upper s) with (map Framing.case_fold s)
      by (apply map_ext; intro; symmetry; apply client_fold_is_case_fold).
    unfold Framing.classify.
    rewrite cstr_map_fold, strip_map_fold, token_map_fold.
    rewrite firstn_map, map_map.
    rewrite (map_ext (fun x => Framing.case_fold (Framing.case_fold x))
               Framing.case_fold case_fold_idem).
    reflexivity. }
  rewrite !server_is_quit_cmd_classify, !client_is_quit_cmd_classify.
  repeat split; assumption.
Qed.

Lemma classifier_reads_first_token_witness :
  let pre := [SP; HT] in
  let tok := lit "Exit" in
  forallb Server.is_blank pre = true /\
  forallb token_char tok = true /\
  tok <> [] /\
  (Server.is_blank CR = true \/ CR = NUL) /\
  Server.is_quit_cmd (pre ++ tok ++ CR :: lit "now") = Server.is_quit_cmd tok.
Proof.
  intros pre tok.
  assert (H1 : forallb Server.is_blank pre = true) by reflexivity.
  assert (H2 : forallb token_char tok = true) by reflexivity.
  assert (H3 : tok <> []) by discriminate.
  assert (H4 : Server.is_blank CR = true \/ CR = NUL) by (left; reflexivity).
  repeat (split; [assumption|]).
  exact (proj1 (classifier_reads_first_token pre tok (lit "now") CR [] H1 H2 H3 H4)).
Defined.

(** ** Before the loops *)

Import Startup.

Lemma setup_ok {A} (c : setup_call) (k : Z -> MB A) (v : N)
  (rest : list setup_answer) (calls : list setup_call) (w : world) :
  bbind (sys_setup c) k (mkBoot (SetupOk v :: rest) calls w) =
  k (Z.of_N v) (mkBoot rest (calls ++ [c]) w).
Proof. reflexivity. Qed.

Lemma setup_err {A} (c : setup_call) (k : Z -> MB A) (e : errno)
  (rest : list setup_answer) (calls : list setup_call) (w : world) :
  bbind (sys_setup c) k (mkBoot (SetupErr e :: rest) calls w) =
  k (-1) (mkBoot rest (calls ++ [c]) (set_errno e w)).
Proof. reflexivity. Qed.

Lemma lift_server_die {A} (msg : string) (ans : list setup_answer)
  (calls : list setup_call) (w : world) :
  lift (@Server.die A msg) (mkBoot ans calls w) =
  (Exit 1, mkBoot ans calls (log (Perror msg (w_errno w)) w)).
Proof. reflexivity. Qed.

Lemma lift_client_die {A} (msg : string) (ans : list setup_answer)
  (calls : list setup_call) (w : world) :
  lift (@Client.die A msg) (mkBoot ans calls w) =
  (Exit 1, mkBoot ans calls (log (Perror msg (w_errno w)) w)).
Proof. reflexivity. Qed.

Lemma of_N_not_negative (v : N) : (Z.of_N v <? 0) = false.
Proof. apply Z.ltb_ge. lia. Qed.

Ltac setup_steps :=
  repeat (rewrite setup_ok; rewrite of_N_not_negative);
  try (rewrite setup_err; change (-1 <? 0) with true; cbv iota;
       first [rewrite lift_server_die | rewrite lift_client_die]);
  cbn [w_errno set_errno]; rewrite <- ?app_assoc.

(** X17.  The server's [main] fails closed.  With no port argument it
    prints the diagnostic and exits with status 1 without a call.
    Otherwise it makes, in this order, [socket], [setsockopt], [bind] on
    the port taken modulo 65536, [listen] with backlog 5 and [sigaction]
    for SIGCHLD with SA_RESTART; the first of them to fail makes it
    report that call's message and exit with status 1, no later call
    made and the accept loop not entered; and when all five succeed it
    prints the banner and runs the accept loop on the socket. *)
Theorem server_fails_closed (argc portno : Z) (buffer : list ascii) (b : boot) :
  (argc < 2 ->
   server_main argc portno buffer b =
     (Exit 1, mkBoot (b_answers b) (b_calls b ++ [Fprintf_stderr fmt_no_port []])
                     (b_world b))) /\
  (2 <= argc ->
   forall oks e rest,
     b_answers b = map SetupOk oks ++ SetupErr e :: rest ->
     (List.length oks < 5)%nat ->
     server_main argc portno buffer b =
       (Exit 1,
        mkBoot rest
          (b_calls b ++ firstn (S (List.length oks))
                               (server_setup (Z.of_N (hd 0%N oks)) portno))
          (log (Perror (nth (List.length oks) server_errors ""%string) e)
               (set_errno e (b_world b))))) /\
  (2 <= argc ->
   forall fd r2 r3 r4 r5 rest,
     b_answers b = map SetupOk [fd; r2; r3; r4; r5] ++ rest ->
     let '(out, w') := Server.serve (Z.of_N fd) buffer
                         (log (Printf fmt_listening []) (b_world b)) in
     server_main argc portno buffer b =
       (out, mkBoot rest (b_calls b ++ server_setup (Z.of_N fd) portno) w')).
Proof.
  destruct b as [ans calls w]. cbn [b_answers b_calls b_world].
  split; [|split].
  - intro H. unfold server_main.
    replace (argc <? 2) with true by (symmetry; apply Z.ltb_lt; lia).
    reflexivity.
  - intros H oks e rest -> Hlen. unfold server_main.
    replace (argc <? 2) with false by (symmetry; apply Z.ltb_ge; lia).
    destruct oks as [|fd [|r2 [|r3 [|r4 [|r5 oks]]]]];
      try (simpl in Hlen; lia);
      cbn [map app List.length hd nth firstn server_setup server_errors];
      setup_steps; reflexivity.
  - intros H fd r2 r3 r4 r5 rest ->.
    destruct (Server.serve (Z.of_N fd) buffer (log (Printf fmt_listening []) w))
      as [out w'] eqn:Hserve.
    unfold server_main.
    replace (argc <? 2) with false by (symmetry; apply Z.ltb_ge; lia).
    cbn [map app]. setup_steps.
    unfold bbind, lift, printf. cbn [b_answers b_calls b_world].
    rewrite Hserve. reflexivity.
Qed.

Lemma server_fails_closed_witness :
  let w := mkWorld [] [] [] [] [] ENONE [] in
  server_main 2 70000 [] (mkBoot [SetupOk 3; SetupOk 0; SetupErr ENOMEM] [] w) =
    (Exit 1,
     mkBoot [] [Socket; Setsockopt_reuseaddr 3; Bind 3 4464]
       (log (Perror "ERROR on binding" ENOMEM) (set_errno ENOMEM w))) /\
  server_main 1 70000 [] (mkBoot [SetupOk 3] [] w) =
    (Exit 1, mkBoot [SetupOk 3] [Fprintf_stderr fmt_no_port []] w).
Proof.
  intro w.
  assert (H1 : 2 <= 2) by lia.
  assert (H2 : (List.length [3; 0]%N < 5)%nat) by (simpl; lia).
  assert (H3 : 1 < 2) by lia.
  split.
  - destruct (server_fails_closed 2 70000 []
                (mkBoot [SetupOk 3; SetupOk 0; SetupErr ENOMEM] [] w))
      as (_ & H & _).
    exact (H H1 [3; 0]%N ENOMEM [] eq_refl H2).
  - destruct (server_fails_closed 1 70000 [] (mkBoot [SetupOk 3] [] w))
      as (H & _).
    exact (H H3).
Defined.

Lemma setup_pending {A} (c : setup_call) (k : Z -> MB A)
  (calls : list setup_call) (w : world) :
  bbind (sys_setup c) k (mkBoot [] calls w) = (Pending, mkBoot [] calls w).
Proof. reflexivity. Qed.

Ltac setup_case ans die_eq :=
  destruct ans as [|[?e|?v] ans];
  [ rewrite setup_pending; exists Pending; eexists; exists [];
    split; [reflexivity|]; split;
    [cbn [b_world]; now rewrite app_nil_r | auto]
  | rewrite setup_err; change (-1 <? 0) with true; cbv iota;
    rewrite die_eq; exists (Exit 1); eexists; eexists [_];
    split; [reflexivity|]; split;
    [cbn [b_world]; now rewrite trace_log, trace_set_errno | auto]
  | rewrite setup_ok, of_N_not_negative ].

(** X18.  The server's [main] never returns: whatever its arguments and
    however its calls are answered, the process exits with status 1, or
    with status 0 as a child that [fork] has made, unless a call has not
    returned. *)
Theorem server_main_never_returns (argc portno : Z) (buffer : list ascii)
  (b : boot) :
  exists (out : outcome Z) (b' : boot) (t : list call),
    server_main argc portno buffer b = (out, b') /\
    w_trace (b_world b') = w_trace (b_world b) ++ t /\
    (out = Exit 1 \/ out = Pending \/ (out = Exit 0 /\ In (Fork ForkChild) t)).
Proof.
  destruct b as [ans calls w]. cbn [b_world]. unfold server_main.
  destruct (argc <? 2).
  - exists (Exit 1). eexists. exists []. split; [reflexivity|].
    split; [cbn [b_world]; now rewrite app_nil_r | auto].
  - setup_case ans (@lift_server_die Z).
    setup_case ans (@lift_server_die Z).
    setup_case ans (@lift_server_die Z).
    setup_case ans (@lift_server_die Z).
    setup_case ans (@lift_server_die Z).
    unfold bbind at 1, lift at 1, printf. cbn [b_answers b_calls b_world].
    unfold lift. cbn [b_answers b_calls b_world].
    destruct (serve_run (Z.of_N v) buffer (log (Printf fmt_listening []) w))
      as (out & w' & t & Hserve & Ht & Hout).
    rewrite Hserve. exists out. eexists. exists (Printf fmt_listening [] :: t).
    split; [reflexivity|]. cbn [b_world].
    split; [rewrite Ht, trace_log, <- app_assoc; reflexivity|].
    destruct Hout as [-> | [-> | (-> & Hin)]]; auto.
    right; right. split; [reflexivity | now right].
Qed.

(** ** The start of the client *)

Lemma host_found {A} (name : list ascii) (k : bool -> MB A) (v : N)
  (rest : list setup_answer) (calls : list setup_call) (w : world) :
  bbind (sys_gethostbyname name) k (mkBoot (SetupOk v :: rest) calls w) =
  k true (mkBoot rest (calls ++ [Gethostbyname name]) w).
Proof. reflexivity. Qed.

Lemma host_unknown {A} (name : list ascii) (k : bool -> MB A) (e : errno)
  (rest : list setup_answer) (calls : list setup_call) (w : world) :
  bbind (sys_gethostbyname name) k (mkBoot (SetupErr e :: rest) calls w) =
  k false (mkBoot rest (calls ++ [Gethostbyname name]) w).
Proof. reflexivity. Qed.

Lemma host_pending {A} (name : list ascii) (k : bool -> MB A)
  (calls : list setup_call) (w : world) :
  bbind (sys_gethostbyname name) k (mkBoot [] calls w) =
  (Pending, mkBoot [] calls w).
Proof. reflexivity. Qed.

(** X19.  The client's [main] fails closed.  With fewer than two
    arguments it prints the usage line with the program's name and exits
    with status 1 without a call.  A failed [socket] or [connect] is
    reported with [perror] and ends the process with status 1; a host
    that [gethostbyname] does not know ends it with status 1 after a
    diagnostic of its own, [errno] not consulted and [connect] not
    tried; in none of these cases does the client prompt, read a line or
    touch the connection.  When the three calls succeed it prints the
    banner and enters the loop on the socket, connected to the port
    taken modulo 65536. *)
Theorem client_fails_closed (argc portno : Z) (argv0 host buffer reply : list ascii)
  (b : boot) :
  (argc < 3 ->
   client_main argc argv0 host portno buffer reply b =
     (Exit 1, mkBoot (b_answers b) (b_calls b ++ [Fprintf_stderr fmt_usage argv0])
                     (b_world b))) /\
  (3 <= argc ->
   forall e rest,
     b_answers b = SetupErr e :: rest ->
     client_main argc argv0 host portno buffer reply b =
       (Exit 1,
        mkBoot rest (b_calls b ++ [Socket])
          (log (Perror "ERROR opening socket" e) (set_errno e (b_world b))))) /\
  (3 <= argc ->
   forall fd e rest,
     b_answers b = SetupOk fd :: SetupErr e :: rest ->
     client_main argc argv0 host portno buffer reply b =
       (Exit 1,
        mkBoot rest
          (b_calls b ++ [Socket; Gethostbyname host; Fprintf_stderr fmt_no_host []])
          (b_world b))) /\
  (3 <= argc ->
   forall fd h e rest,
     b_answers b = SetupOk fd :: SetupOk h :: SetupErr e :: rest ->
     client_main argc argv0 host portno buffer reply b =
       (Exit 1,
        mkBoot rest
          (b_calls b ++ [Socket; Gethostbyname host;
                         Connect (Z.of_N fd) (uint16 portno)])
          (log (Perror "ERROR connecting" e) (set_errno e (b_world b))))) /\
  (3 <= argc ->
   forall fd h r rest,
     b_answers b = SetupOk fd :: SetupOk h :: SetupOk r :: rest ->
     let '(out, w') := Client.converse (Z.of_N fd) buffer reply
                         (log (Printf fmt_connected []) (b_world b)) in
     client_main argc argv0 host portno buffer reply b =
       (out, mkBoot rest
               (b_calls b ++ [Socket; Gethostbyname host;
                              Connect (Z.of_N fd) (uint16 portno)]) w')).
Proof.
  destruct b as [ans calls w]. cbn [b_answers b_calls b_world].
  assert (Hge : 3 <= argc -> (argc <? 3) = false)
    by (intro; apply Z.ltb_ge; lia).
  repeat split.
  - intro H. unfold client_main.
    replace (argc <? 3) with true by (symmetry; apply Z.ltb_lt; lia).
    reflexivity.
  - intros H e rest ->. unfold client_main. rewrite (Hge H).
    setup_steps. reflexivity.
  - intros H fd e rest ->. unfold client_main. rewrite (Hge H).
    setup_steps. rewrite host_unknown. cbn [negb].
    unfold bbind, fprintf_stderr, lift, exit.
    cbn [b_answers b_calls b_world]. rewrite <- !app_assoc. reflexivity.
  - intros H fd h e rest ->. unfold client_main. rewrite (Hge H).
    setup_steps. rewrite host_found. cbn [negb].
    setup_steps. reflexivity.
  - intros H fd h r rest ->.
    destruct (Client.converse (Z.of_N fd) buffer reply
                (log (Printf fmt_connected []) w)) as [out w'] eqn:Hrun.
    unfold client_main. rewrite (Hge H).
    setup_steps. rewrite host_found. cbn [negb].
    setup_steps.
    unfold bbind, lift, printf. cbn [b_answers b_calls b_world].
    rewrite Hrun. reflexivity.
Qed.

Lemma client_fails_closed_witness :
  let w := mkWorld [] [] [] [] [FgetsLine (lit "hello")] ENONE [] in
  client_main 3 (lit "client") (lit "nowhere") 8080 [] []
      (mkBoot [SetupOk 3; SetupErr ENONE] [] w) =
    (Exit 1,
     mkBoot [] [Socket; Gethostbyname (lit "nowhere");
                Fprintf_stderr fmt_no_host []] w) /\
  client_main 2 (lit "client") (lit "nowhere") 8080 [] []
      (mkBoot [SetupOk 3] [] w) =
    (Exit 1, mkBoot [SetupOk 3] [Fprintf_stderr fmt_usage (lit "client")] w).
Proof.
  intro w.
  assert (H1 : 3 <= 3) by lia.
  assert (H2 : 2 < 3) by lia.
  split.
  - destruct (client_fails_closed 3 8080 (lit "client") (lit "nowhere") [] []
                (mkBoot [SetupOk 3; SetupErr ENONE] [] w))
      as (_ & _ & H & _).
    exact (H H1 3%N ENONE [] eq_refl).
  - destruct (client_fails_closed 2 8080 (lit "client") (lit "nowhere") [] []
                (mkBoot [SetupOk 3] [] w))
      as (H & _).
    exact (H H2).
Defined.

(** X20.  The client's [main] ends in one of two ways, unless a call has
    not returned: it exits with status 1; or it returns 0, and then
    [socket], [gethostbyname] and [connect] had all succeeded and its
    last call has closed the socket that [socket] returned. *)
Theorem client_main_ends (argc portno : Z) (argv0 host buffer reply : list ascii)
  (b : boot) :
  exists (out : outcome Z) (b' : boot) (t : list call),
    client_main argc argv0 host portno buffer reply b = (out, b') /\
    w_trace (b_world b') = w_trace (b_world b) ++ t /\
    (out = Exit 1 \/ out = Pending \/
     (out = Ret 0 /\
      exists fd h r t0,
        b_answers b = SetupOk fd :: SetupOk h :: SetupOk r :: b_answers b' /\
        b_calls b' = b_calls b ++ [Socket; Gethostbyname host;
                                   Connect (Z.of_N fd) (uint16 portno)] /\
        t = t0 ++ [Close (Z.of_N fd)])).
Proof.
  destruct b as [ans calls w]. cbn [b_answers b_calls b_world].
  unfold client_main.
  destruct (argc <? 3).
  - exists (Exit 1). eexists. exists []. split; [reflexivity|].
    split; [cbn [b_world]; now rewrite app_nil_r | auto].
  - setup_case ans (@lift_client_die Z).
    destruct ans as [|[e|h] ans].
    + rewrite host_pending. exists Pending. eexists. exists [].
      split; [reflexivity|].
      split; [cbn [b_world]; now rewrite app_nil_r | auto].
    + rewrite host_unknown. cbn [negb]. exists (Exit 1). eexists. exists [].
      split; [reflexivity|].
      split; [cbn [b_world]; now rewrite app_nil_r | auto].
    + rewrite host_found. cbn [negb].
      setup_case ans (@lift_client_die Z).
      unfold bbind at 1, lift at 1, printf. cbn [b_answers b_calls b_world].
      unfold lift. cbn [b_answers b_calls b_world].
      destruct (converse_run (Z.of_N v) buffer reply
                  (log (Printf fmt_connected []) w))
        as (out & w' & t & chunks & Hrun & _ & _ & Hend).
      rewrite Hrun. exists out. eexists.
      destruct Hend as [(-> & Ht) | (Hout & Ht)].
      * exists (Printf fmt_connected [] :: t ++ [Close (Z.of_N v)]).
        split; [reflexivity|]. cbn [b_world b_answers b_calls].
        split; [rewrite Ht, trace_log, <- app_assoc; reflexivity|].
        right; right. split; [reflexivity|].
        exists v, h, v0, (Printf fmt_connected [] :: t).
        split; [reflexivity|]. split; [|reflexivity].
        rewrite <- !app_assoc. reflexivity.
      * exists (Printf fmt_connected [] :: t).
        split; [reflexivity|]. cbn [b_world].
        split; [rewrite Ht, trace_log, <- app_assoc; reflexivity|].
        destruct Hout as [-> | ->]; auto.
Qed.
